(** * Microgrid simulation: battery, hydrogen store and hourly dispatch

    A shallow embedding of [Microgrid_simulation/Microgrid_simulation.py].

    Numbers.  The program computes with Python / NumPy floats.  They are
    idealised here as real numbers ([R]): [+ - * /] are the exact field
    operations, Python's [min] / [max] are [Rmin] / [Rmax], the comparisons
    [>=] and [>] are decided by [Rge_dec] and [Rgt_dec], and [np.sqrt] is
    [sqrt].  Rounding error is therefore outside the model.  Division is
    the total division of [R]; the program divides by [dt_h], by the
    efficiencies and by the clamped COP, and a statement that depends on
    the value of such a quotient carries the hypothesis that the divisor
    is positive.

    Rounding.  What is proved over [R] holds of the program up to
    rounding.  Where a stated bound is one that rounding breaks, this is
    made explicit.  The case in point is the headroom clamp
    [level + min(offered, cap - level)] of [Battery.charge] and
    [HydrogenStore.electrolyse]: when the headroom binds the result is
    exactly [cap] over [R], and one unit in the last place above [cap]
    for some binary64 inputs, after which the next call returns a power
    one rounding error below zero.  The four device methods are
    therefore given a second time on binary64 numbers ([Module Binary64],
    primitive floats), where such inputs are evaluated, and the upper
    bound on a level along a sequence of calls or a run is stated with
    [rounding_allowance].

    State.  [Battery] and [HydrogenStore] are mutable objects; a method
    that mutates [self] and returns a value becomes a function from the
    object to the pair (new object, returned value).  The simulator's
    [logs], a dictionary of fifteen equally long lists that [_log] extends
    together, is a list of fifteen-field records in chronological order. *)

From Stdlib Require Import Reals Lra Lia PeanoNat List Permutation.
From Stdlib Require String.
From Stdlib Require PrimFloat.
Import String.StringSyntax.
Import ListNotations.

Delimit Scope string_scope with string.

Open Scope R_scope.

(** Boolean views of the two comparisons the program branches on. *)
Definition Rgeb (x y : R) : bool := if Rge_dec x y then true else false.
Definition Rgtb (x y : R) : bool := if Rgt_dec x y then true else false.

(** ** Enumerations and configuration *)

(** [class HeatPumpType(enum.Enum)]: the value of a member is the name of
    the COP column it selects. *)
Inductive HeatPumpType : Type :=
| LV  (* "COP_LV", air-to-water *)
| JH  (* "COP_JH", horizontal ground loop *)
| JV. (* "COP_JV", vertical borehole *)

(** [HeatPumpType.value] *)
Definition HeatPumpType_value (ty : HeatPumpType) : String.string :=
  match ty with
  | LV => "COP_LV"%string
  | JH => "COP_JH"%string
  | JV => "COP_JV"%string
  end.

Module ComponentLimits.

Record t : Type := mk {
  p_bat_charge : R;
  p_bat_discharge : R;
  p_electrolyser : R;
  p_fuel_cell : R
}.

(** The dataclass defaults. *)
Definition default : t :=
  {| p_bat_charge := 20; p_bat_discharge := 20;
     p_electrolyser := 10; p_fuel_cell := 10 |}.

End ComponentLimits.

Module SystemParameters.

(** The constructed object.  The file and column-name fields play no
    part in the dispatch and are left out. *)
Record t : Type := mk {
  eta_inv : R;
  eta_bat_roundtrip : R;
  eta_electrolyser : R;
  eta_fuel_cell : R;
  battery_capacity_kwh : R;
  h2_capacity_kwh : R;
  soc_bat_init : R;
  h2_init_kwh : R;
  heat_pump_type : HeatPumpType;
  limits : ComponentLimits.t
}.

(** The keyword arguments of the generated [__init__]; [h2_init_kwh]
    may be [None]. *)
Record args : Type := mk_args {
  arg_eta_inv : R;
  arg_eta_bat_roundtrip : R;
  arg_eta_electrolyser : R;
  arg_eta_fuel_cell : R;
  arg_battery_capacity_kwh : R;
  arg_h2_capacity_kwh : R;
  arg_soc_bat_init : R;
  arg_h2_init_kwh : option R;
  arg_heat_pump_type : HeatPumpType;
  arg_limits : ComponentLimits.t
}.

Definition default_args : args :=
  {| arg_eta_inv := 0.86;
     arg_eta_bat_roundtrip := 0.95;
     arg_eta_electrolyser := 0.55;
     arg_eta_fuel_cell := 0.55;
     arg_battery_capacity_kwh := 82;
     arg_h2_capacity_kwh := 1000;
     arg_soc_bat_init := 0.5;
     arg_h2_init_kwh := None;
     arg_heat_pump_type := LV;
     arg_limits := ComponentLimits.default |}.

(** What a constructor call does: it yields an object or raises. *)
Inductive construction : Type :=
| Constructed (p : t)
| Raised.

(** [__post_init__]: the only statement replaces a missing
    [h2_init_kwh] by half the tank capacity. *)
Definition post_init (a : args) : R :=
  match arg_h2_init_kwh a with
  | None => 0.5 * arg_h2_capacity_kwh a
  | Some v => v
  end.

(** The object a constructor call builds: the generated [__init__]
    stores every argument, then [__post_init__] runs. *)
Definition init (a : args) : t :=
  {| eta_inv := arg_eta_inv a;
     eta_bat_roundtrip := arg_eta_bat_roundtrip a;
     eta_electrolyser := arg_eta_electrolyser a;
     eta_fuel_cell := arg_eta_fuel_cell a;
     battery_capacity_kwh := arg_battery_capacity_kwh a;
     h2_capacity_kwh := arg_h2_capacity_kwh a;
     soc_bat_init := arg_soc_bat_init a;
     h2_init_kwh := post_init a;
     heat_pump_type := arg_heat_pump_type a;
     limits := arg_limits a |}.

(** The constructor call [SystemParameters(...)].  Neither [__init__]
    nor [__post_init__] contains a [raise] or an [assert], so the call
    always yields the object. *)
Definition new (a : args) : construction := Constructed (init a).

(** The derived properties. *)
Definition charge_eff (p : t) : R := sqrt (eta_bat_roundtrip p).
Definition discharge_eff (p : t) : R := sqrt (eta_bat_roundtrip p).

End SystemParameters.

(** ** Devices *)

Module Battery.

Record t : Type := mk {
  cap : R;
  soc : R;
  eta_c : R;
  eta_d : R;
  p_charge_max : R;
  p_discharge_max : R
}.

(** [Battery.__init__] *)
Definition init (params : SystemParameters.t) : t :=
  let cap := SystemParameters.battery_capacity_kwh params in
  {| cap := cap;
     soc := SystemParameters.soc_bat_init params * cap;
     eta_c := SystemParameters.charge_eff params;
     eta_d := SystemParameters.discharge_eff params;
     p_charge_max :=
       ComponentLimits.p_bat_charge (SystemParameters.limits params);
     p_discharge_max :=
       ComponentLimits.p_bat_discharge (SystemParameters.limits params) |}.

(** The assignment [self.soc = v]. *)
Definition set_soc (self : t) (v : R) : t :=
  {| cap := cap self; soc := v; eta_c := eta_c self; eta_d := eta_d self;
     p_charge_max := p_charge_max self;
     p_discharge_max := p_discharge_max self |}.

(** [Battery.charge] *)
Definition charge (self : t) (p_requested_kw dt_h : R) : t * R :=
  let p := Rmin p_requested_kw (p_charge_max self) in
  let e_in := p * dt_h * eta_c self in
  let space_left := cap self - soc self in
  let e_actual := Rmin e_in space_left in
  (set_soc self (soc self + e_actual), e_actual / dt_h).

(** [Battery.discharge] *)
Definition discharge (self : t) (p_requested_kw dt_h : R) : t * R :=
  let p := Rmin p_requested_kw (p_discharge_max self) in
  let e_out_request := p * dt_h / eta_d self in
  let e_available := Rmin e_out_request (soc self) in
  (set_soc self (soc self - e_available),
   e_available * eta_d self / dt_h).

End Battery.

Module HydrogenStore.

Record t : Type := mk {
  cap : R;
  h2 : R;
  eta_elec : R;
  eta_fc : R;
  p_elec_max : R;
  p_fc_max : R
}.

(** [HydrogenStore.__init__] *)
Definition init (params : SystemParameters.t) : t :=
  {| cap := SystemParameters.h2_capacity_kwh params;
     h2 := SystemParameters.h2_init_kwh params;
     eta_elec := SystemParameters.eta_electrolyser params;
     eta_fc := SystemParameters.eta_fuel_cell params;
     p_elec_max :=
       ComponentLimits.p_electrolyser (SystemParameters.limits params);
     p_fc_max :=
       ComponentLimits.p_fuel_cell (SystemParameters.limits params) |}.

(** The assignment [self.h2 = v]. *)
Definition set_h2 (self : t) (v : R) : t :=
  {| cap := cap self; h2 := v; eta_elec := eta_elec self;
     eta_fc := eta_fc self; p_elec_max := p_elec_max self;
     p_fc_max := p_fc_max self |}.

(** [HydrogenStore.electrolyse] *)
Definition electrolyse (self : t) (p_kw dt_h : R) : t * R :=
  let p := Rmin p_kw (p_elec_max self) in
  let e_h2 := p * dt_h * eta_elec self in
  let space_left := cap self - h2 self in
  let e_actual := Rmin e_h2 space_left in
  (set_h2 self (h2 self + e_actual), e_actual / (eta_elec self * dt_h)).

(** [HydrogenStore.fuel_cell]; the result is the new store with the pair
    [(p_ac, p_heat)]. *)
Definition fuel_cell (self : t) (p_kw dt_h : R) : t * (R * R) :=
  let p := Rmin p_kw (p_fc_max self) in
  let e_h2_needed := p * dt_h / eta_fc self in
  let e_available := Rmin e_h2_needed (h2 self) in
  let p_ac := e_available * eta_fc self / dt_h in
  let p_heat := (e_available - p_ac * dt_h) / dt_h in
  (set_h2 self (h2 self - e_available), (p_ac, p_heat)).

End HydrogenStore.

(** ** The devices on binary64 numbers *)

(** The four device methods once more, statement by statement, with
    every operation the binary64 operation the program performs
    (primitive floats: round to nearest, ties to even).  They are there
    to be evaluated at concrete inputs. *)
Module Binary64.

Import PrimFloat.

#[local] Set Warnings "-inexact-float".

(** Python's [min(a, b)] on two floats: [b] if [b < a], else [a]. *)
Definition min (a b : float) : float := if (b <? a)%float then b else a.

Module Battery.

Record t : Type := mk {
  cap : float;
  soc : float;
  eta_c : float;
  eta_d : float;
  p_charge_max : float;
  p_discharge_max : float
}.

(** [Battery.__init__], from the values of the five parameters it
    reads; [np.sqrt] is the correctly rounded square root. *)
Definition init (battery_capacity_kwh soc_bat_init eta_bat_roundtrip
                 p_bat_charge p_bat_discharge : float) : t :=
  {| cap := battery_capacity_kwh;
     soc := (soc_bat_init * battery_capacity_kwh)%float;
     eta_c := sqrt eta_bat_roundtrip;
     eta_d := sqrt eta_bat_roundtrip;
     p_charge_max := p_bat_charge;
     p_discharge_max := p_bat_discharge |}.

Definition set_soc (self : t) (v : float) : t :=
  {| cap := cap self; soc := v; eta_c := eta_c self; eta_d := eta_d self;
     p_charge_max := p_charge_max self;
     p_discharge_max := p_discharge_max self |}.

(** [Battery.charge] *)
Definition charge (self : t) (p_requested_kw dt_h : float) : t * float :=
  let p := min p_requested_kw (p_charge_max self) in
  let e_in := (p * dt_h * eta_c self)%float in
  let space_left := (cap self - soc self)%float in
  let e_actual := min e_in space_left in
  (set_soc self (soc self + e_actual)%float, (e_actual / dt_h)%float).

(** [Battery.discharge] *)
Definition discharge (self : t) (p_requested_kw dt_h : float) : t * float :=
  let p := min p_requested_kw (p_discharge_max self) in
  let e_out_request := (p * dt_h / eta_d self)%float in
  let e_available := min e_out_request (soc self) in
  (set_soc self (soc self - e_available)%float,
   (e_available * eta_d self / dt_h)%float).

End Battery.

Module HydrogenStore.

Record t : Type := mk {
  cap : float;
  h2 : float;
  eta_elec : float;
  eta_fc : float;
  p_elec_max : float;
  p_fc_max : float
}.

(** [HydrogenStore.__init__], from the values of the six parameters it
    reads. *)
Definition init (h2_capacity_kwh h2_init_kwh eta_electrolyser eta_fuel_cell
                 p_electrolyser p_fuel_cell : float) : t :=
  {| cap := h2_capacity_kwh;
     h2 := h2_init_kwh;
     eta_elec := eta_electrolyser;
     eta_fc := eta_fuel_cell;
     p_elec_max := p_electrolyser;
     p_fc_max := p_fuel_cell |}.

Definition set_h2 (self : t) (v : float) : t :=
  {| cap := cap self; h2 := v; eta_elec := eta_elec self;
     eta_fc := eta_fc self; p_elec_max := p_elec_max self;
     p_fc_max := p_fc_max self |}.

(** [HydrogenStore.electrolyse] *)
Definition electrolyse (self : t) (p_kw dt_h : float) : t * float :=
  let p := min p_kw (p_elec_max self) in
  let e_h2 := (p * dt_h * eta_elec self)%float in
  let space_left := (cap self - h2 self)%float in
  let e_actual := min e_h2 space_left in
  (set_h2 self (h2 self + e_actual)%float,
   (e_actual / (eta_elec self * dt_h))%float).

(** [HydrogenStore.fuel_cell] *)
Definition fuel_cell (self : t) (p_kw dt_h : float) : t * (float * float) :=
  let p := min p_kw (p_fc_max self) in
  let e_h2_needed := (p * dt_h / eta_fc self)%float in
  let e_available := min e_h2_needed (h2 self) in
  let p_ac := (e_available * eta_fc self / dt_h)%float in
  let p_heat := ((e_available - p_ac * dt_h) / dt_h)%float in
  (set_h2 self (h2 self - e_available)%float, (p_ac, p_heat)).

End HydrogenStore.

(** A valid configuration with small capacities: a 0.6 kWh battery
    starting at the fraction 0.1, and a 0.6 kWh tank starting at
    0.07 kWh; efficiencies and power limits are the defaults. *)
Definition small_battery : Battery.t :=
  Battery.init 0.6%float 0.1%float 0.95%float 20%float 20%float.

Definition small_store : HydrogenStore.t :=
  HydrogenStore.init 0.6%float 0.07%float 0.55%float 0.55%float
                     10%float 10%float.

(** A request of 10 kW for the default time step of one hour. *)
Definition ten_kw : float := 10%float.
Definition one_hour : float := 1%float.

(** A tank of 1000 kWh at 39.41292647217887 kWh behind a lossless fuel
    cell (efficiency 1, limit 10 kW), with a request and a time step
    that are not round numbers. *)
Definition lossless_store : HydrogenStore.t :=
  HydrogenStore.init 1000%float 39.41292647217887%float 0.55%float 1%float
                     10%float 10%float.

Definition odd_request_kw : float := 9.492178580428739%float.
Definition odd_time_step_h : float := 4.627534791758989%float.

End Binary64.

(** ** Simulator *)

Module MicrogridSimulator.

(** One row of the hourly data frame, with the columns the loop reads
    (named after the parameters that hold the column names). *)
Record Row : Type := mk_row {
  pv_column : R;          (* "Solproduktion" *)
  plug_column : R;        (* "Elforbrug" *)
  space_heat_column : R;  (* "Varmeforbrug" *)
  dhw_column : R;         (* "Forbrug varmt brugsvand" *)
  COP_LV : R;
  COP_JH : R;
  COP_JV : R
}.

(** [row[cop_col]] with [cop_col = self.p.heat_pump_type.value]. *)
Definition cop_col (ty : HeatPumpType) (row : Row) : R :=
  match ty with
  | LV => COP_LV row
  | JH => COP_JH row
  | JV => COP_JV row
  end.

(** The keyword arguments of one [_log] call: one entry of each of the
    fifteen lists of [self.logs]. *)
Record LogRecord : Type := mk_log {
  pv_ac : R;
  load : R;
  net_before : R;
  p_bat_charge : R;
  p_bat_discharge : R;
  soc_bat : R;
  p_elec : R;
  p_fc : R;
  h2_store : R;
  p_grid_export : R;
  p_grid_import : R;
  heat_pump_heat : R;
  heat_from_fc : R;
  heat_total_demand : R;
  hp_electricity : R
}.

(** The simulator object: [self.p], [self.battery], [self.h2],
    [self.logs] ([self.df] is passed to [run] instead). *)
Record t : Type := mk {
  p : SystemParameters.t;
  battery : Battery.t;
  h2 : HydrogenStore.t;
  logs : list LogRecord
}.

(** [MicrogridSimulator.__init__] *)
Definition init (params : SystemParameters.t) : t :=
  {| p := params;
     battery := Battery.init params;
     h2 := HydrogenStore.init params;
     logs := [] |}.

(** The locals [dt] and [EPS] of [run]. *)
Definition dt : R := 1.
Definition EPS : R := 1e-6.

(** The surplus branch ([net_kw >= 0]) of the loop body: the devices
    after the hour and [(p_bat_ch, p_elec, p_grid_exp)].  Both device
    calls use the default [dt_h = 1.0]. *)
Definition surplus (b : Battery.t) (h : HydrogenStore.t) (net_kw : R)
  : Battery.t * HydrogenStore.t * (R * R * R) :=
  let '(b1, p_bat_ch) := Battery.charge b net_kw 1 in
  let net_after_bat := net_kw - p_bat_ch in
  let '(h1, p_elec, net_after_bat) :=
    if Rgtb net_after_bat 1e-6 then
      let '(h1, p_elec) := HydrogenStore.electrolyse h net_after_bat 1 in
      (h1, p_elec, net_after_bat - p_elec)
    else (h, 0, net_after_bat) in
  let p_grid_exp := if Rgtb net_after_bat EPS then net_after_bat else 0 in
  (b1, h1, (p_bat_ch, p_elec, p_grid_exp)).

(** The deficit branch: the devices after the hour and
    [(p_bat_disch, p_fc_kw, heat_from_fc_kw, p_grid_imp)]. *)
Definition deficit (b : Battery.t) (h : HydrogenStore.t) (net_kw : R)
  : Battery.t * HydrogenStore.t * (R * R * R * R) :=
  let deficit_kw := - net_kw in
  let '(b1, p_bat_disch) := Battery.discharge b deficit_kw 1 in
  let deficit_after_bat := deficit_kw - p_bat_disch in
  let '(h1, p_fc_kw, heat_from_fc_kw, deficit_after_bat) :=
    if andb (Rgtb deficit_after_bat EPS) (Rgtb (HydrogenStore.h2 h) EPS) then
      let '(h1, (p_fc_kw, heat_from_fc_kw)) :=
        HydrogenStore.fuel_cell h deficit_after_bat 1 in
      (h1, p_fc_kw, heat_from_fc_kw, deficit_after_bat - p_fc_kw)
    else (h, 0, 0, deficit_after_bat) in
  let p_grid_imp :=
    if Rgtb deficit_after_bat EPS then deficit_after_bat else 0 in
  (b1, h1, (p_bat_disch, p_fc_kw, heat_from_fc_kw, p_grid_imp)).

(** The body of the [for] loop of [run] for one row: the devices after
    the hour and the record handed to [_log]. *)
Definition hour (params : SystemParameters.t)
    (b : Battery.t) (h : HydrogenStore.t) (row : Row)
  : Battery.t * HydrogenStore.t * LogRecord :=
  let pv_ac := pv_column row * SystemParameters.eta_inv params in
  let q_space := space_heat_column row in
  let q_dhw := dhw_column row in
  let heat_req := q_space + q_dhw in
  let cop_hp := Rmax (cop_col (SystemParameters.heat_pump_type params) row) 0.1 in
  let hp_el_kwh := heat_req / cop_hp in
  let hp_el_kw := hp_el_kwh / dt in
  let plug_kw := plug_column row in
  let load_kw := plug_kw + hp_el_kw in
  let net_kw := pv_ac - load_kw in
  let '(b1, h1, (p_bat_ch, p_bat_disch, p_elec, p_fc_kw,
                 p_grid_exp, p_grid_imp, heat_from_fc_kw)) :=
    if Rgeb net_kw 0 then
      let '(b1, h1, (p_bat_ch, p_elec, p_grid_exp)) := surplus b h net_kw in
      (b1, h1, (p_bat_ch, 0, p_elec, 0, p_grid_exp, 0, 0))
    else
      let '(b1, h1, (p_bat_disch, p_fc_kw, heat_from_fc_kw, p_grid_imp)) :=
        deficit b h net_kw in
      (b1, h1, (0, p_bat_disch, 0, p_fc_kw, 0, p_grid_imp, heat_from_fc_kw)) in
  (b1, h1,
   {| pv_ac := pv_ac;
      load := load_kw;
      net_before := net_kw;
      p_bat_charge := p_bat_ch;
      p_bat_discharge := p_bat_disch;
      soc_bat := Battery.soc b1;
      p_elec := p_elec;
      p_fc := p_fc_kw;
      h2_store := HydrogenStore.h2 h1;
      p_grid_export := p_grid_exp;
      p_grid_import := p_grid_imp;
      heat_pump_heat := heat_req;
      heat_from_fc := heat_from_fc_kw * dt;
      heat_total_demand := heat_req;
      hp_electricity := hp_el_kw |}).

(** One iteration on the simulator object: run the body, append to the
    log. *)
Definition iteration (self : t) (row : Row) : t :=
  let '(b1, h1, r) := hour (p self) (battery self) (h2 self) row in
  {| p := p self; battery := b1; h2 := h1; logs := logs self ++ [r] |}.

(** [MicrogridSimulator.run]: the loop over the rows of the data frame,
    in order.  The returned data frame is [logs] of the result. *)
Definition run (self : t) (df : list Row) : t :=
  fold_left iteration df self.

(** The KPI computed after the loop,
    [results.p_grid_export.sum() - results.p_grid_import.sum()]. *)
Definition annual_balance (results : list LogRecord) : R :=
  fold_right Rplus 0 (map p_grid_export results)
  - fold_right Rplus 0 (map p_grid_import results).

End MicrogridSimulator.

(** ** Vocabulary of the stated properties *)

Import MicrogridSimulator.

(** *** Device invariants *)

(** The configuration invariant restricted to one device: efficiencies
    positive, power limits non-negative. *)
Definition battery_ok (b : Battery.t) : Prop :=
  0 < Battery.eta_c b /\ 0 < Battery.eta_d b /\
  0 <= Battery.p_charge_max b /\ 0 <= Battery.p_discharge_max b.

Definition store_ok (h : HydrogenStore.t) : Prop :=
  0 < HydrogenStore.eta_elec h /\ 0 < HydrogenStore.eta_fc h /\
  0 <= HydrogenStore.p_elec_max h /\ 0 <= HydrogenStore.p_fc_max h.

Definition battery_in_bounds (b : Battery.t) : Prop :=
  0 <= Battery.soc b <= Battery.cap b.

Definition store_in_bounds (h : HydrogenStore.t) : Prop :=
  0 <= HydrogenStore.h2 h <= HydrogenStore.cap h.

Definition in_bounds (d : Battery.t * HydrogenStore.t) : Prop :=
  battery_in_bounds (fst d) /\ store_in_bounds (snd d).

(** A method call on one of the two devices. *)
Inductive call : Type :=
| Charge (p_requested_kw dt_h : R)
| Discharge (p_requested_kw dt_h : R)
| Electrolyse (p_kw dt_h : R)
| FuelCell (p_kw dt_h : R).

(** "All power quantities are positive here; sign is handled by
    caller", and time steps are positive. *)
Definition call_ok (c : call) : Prop :=
  match c with
  | Charge p dt_h | Discharge p dt_h
  | Electrolyse p dt_h | FuelCell p dt_h => 0 <= p /\ 0 < dt_h
  end.

(** The effect of one call on the pair of devices. *)
Definition perform (d : Battery.t * HydrogenStore.t) (c : call)
  : Battery.t * HydrogenStore.t :=
  match c with
  | Charge p dt_h => (fst (Battery.charge (fst d) p dt_h), snd d)
  | Discharge p dt_h => (fst (Battery.discharge (fst d) p dt_h), snd d)
  | Electrolyse p dt_h => (fst d, fst (HydrogenStore.electrolyse (snd d) p dt_h))
  | FuelCell p dt_h => (fst d, fst (HydrogenStore.fuel_cell (snd d) p dt_h))
  end.

(** The device states at every call boundary of a sequence of calls:
    before the first call, between calls, after the last. *)
Fixpoint boundaries (calls : list call) (d : Battery.t * HydrogenStore.t)
  : list (Battery.t * HydrogenStore.t) :=
  match calls with
  | [] => [d]
  | c :: calls' => d :: boundaries calls' (perform d c)
  end.

(** A logged hour reports both levels within the capacities. *)
Definition log_in_bounds (cap_bat cap_h2 : R) (r : LogRecord) : Prop :=
  0 <= soc_bat r <= cap_bat /\ 0 <= h2_store r <= cap_h2.





(** *** Properties of one logged hour *)

(** The net balance the loop body computes from a row before it
    branches: PV after the inverter minus plug load and heat-pump draw. *)
Definition net_kw (params : SystemParameters.t) (row : Row) : R :=
  pv_column row * SystemParameters.eta_inv params
  - (plug_column row
     + (space_heat_column row + dhw_column row)
       / Rmax (cop_col (SystemParameters.heat_pump_type params) row) 0.1 / dt).

(** At most one direction of each storage device is active. *)
Definition mutually_exclusive (r : LogRecord) : Prop :=
  (p_bat_charge r > 0 -> p_bat_discharge r = 0) /\
  (p_bat_discharge r > 0 -> p_bat_charge r = 0) /\
  (p_elec r > 0 -> p_fc r = 0) /\
  (p_fc r > 0 -> p_elec r = 0).

(** The heat columns of the record logged for a row. *)
Definition heat_pump_covers_demand (row : Row) (r : LogRecord) : Prop :=
  heat_pump_heat r = heat_total_demand r /\
  heat_total_demand r = space_heat_column row + dhw_column row.

(** Sources minus sinks of the AC bus for one hour, where the battery
    charger is counted with the AC power [ac_charge] it draws. *)
Definition imbalance (ac_charge : R) (r : LogRecord) : R :=
  (pv_ac r + p_grid_import r + p_bat_discharge r + p_fc r)
  - (load r + p_grid_export r + ac_charge + p_elec r).

(** The AC power the charger draws to put [p_bat_charge r * dt] into a
    battery of charge efficiency [eta_c]: the stored increment taken
    back through the efficiency. *)
Definition charge_ac_draw (eta_c : R) (r : LogRecord) : R :=
  p_bat_charge r / eta_c.

(** The conservation property, with both storage inputs on the AC side
    (the logged [p_elec] is already the electrolyser's AC draw). *)
Definition conserved (eta_c : R) (r : LogRecord) : Prop :=
  Rabs (imbalance (charge_ac_draw eta_c r) r) <= EPS.

(** The same sum over the logged columns as they are. *)
Definition logged_conserved (r : LogRecord) : Prop :=
  Rabs (imbalance (p_bat_charge r) r) <= EPS.

(** *** Configuration errors *)

(** What the configuration invariant rules out: a non-positive
    efficiency, a negative capacity or power limit, an initial state
    outside its range. *)
Definition bad_config (a : SystemParameters.args) : Prop :=
  let lim := SystemParameters.arg_limits a in
  SystemParameters.arg_eta_inv a <= 0 \/
  SystemParameters.arg_eta_bat_roundtrip a <= 0 \/
  SystemParameters.arg_eta_electrolyser a <= 0 \/
  SystemParameters.arg_eta_fuel_cell a <= 0 \/
  SystemParameters.arg_battery_capacity_kwh a < 0 \/
  SystemParameters.arg_h2_capacity_kwh a < 0 \/
  ComponentLimits.p_bat_charge lim < 0 \/
  ComponentLimits.p_bat_discharge lim < 0 \/
  ComponentLimits.p_electrolyser lim < 0 \/
  ComponentLimits.p_fuel_cell lim < 0 \/
  ~ 0 <= SystemParameters.arg_soc_bat_init a <= 1 \/
  (exists v, SystemParameters.arg_h2_init_kwh a = Some v /\
             ~ 0 <= v <= SystemParameters.arg_h2_capacity_kwh a).

(** The configuration invariant: efficiencies in (0, 1], capacities and
    limits non-negative, initial states within the capacities. *)
Definition valid_configuration (params : SystemParameters.t) : Prop :=
  let lim := SystemParameters.limits params in
  0 < SystemParameters.eta_inv params <= 1 /\
  0 < SystemParameters.eta_bat_roundtrip params <= 1 /\
  0 < SystemParameters.eta_electrolyser params <= 1 /\
  0 < SystemParameters.eta_fuel_cell params <= 1 /\
  0 <= SystemParameters.battery_capacity_kwh params /\
  0 <= SystemParameters.h2_capacity_kwh params /\
  0 <= ComponentLimits.p_bat_charge lim /\
  0 <= ComponentLimits.p_bat_discharge lim /\
  0 <= ComponentLimits.p_electrolyser lim /\
  0 <= ComponentLimits.p_fuel_cell lim /\
  0 <= SystemParameters.soc_bat_init params <= 1 /\
  0 <= SystemParameters.h2_init_kwh params
    <= SystemParameters.h2_capacity_kwh params.

(** The value [__init__] was given for [h2_init_kwh], or the default it
    stands for. *)
Definition given_h2_init (a : SystemParameters.args) : R :=
  match SystemParameters.arg_h2_init_kwh a with
  | Some v => v
  | None => 0.5 * SystemParameters.arg_h2_capacity_kwh a
  end.

(** *** Scenario D *)

(** An hour with surplus [net] in which the surplus fills the battery
    (the energy offered to storage reaches the headroom), the rest
    fills the hydrogen tank, and 0.001 kW is left over. *)
Definition scenario_D (b : Battery.t) (h : HydrogenStore.t) (net : R) : Prop :=
  let rest := net - (Battery.cap b - Battery.soc b) in
  0 <= net /\
  0 < HydrogenStore.eta_elec h /\
  HydrogenStore.h2 h <= HydrogenStore.cap h /\
  Battery.cap b - Battery.soc b
    <= Rmin net (Battery.p_charge_max b) * Battery.eta_c b /\
  HydrogenStore.cap h - HydrogenStore.h2 h
    <= Rmin rest (HydrogenStore.p_elec_max h) * HydrogenStore.eta_elec h /\
  rest - (HydrogenStore.cap h - HydrogenStore.h2 h) / HydrogenStore.eta_elec h
    = 0.001.


(** *** Concrete inputs *)

(** [SystemParameters()] with every default. *)
Definition default_params : SystemParameters.t :=
  SystemParameters.init SystemParameters.default_args.

(** An hour with 50 kW of PV (43 kW after the inverter), 33 kW of plug
    load and no heat demand: a surplus of 10 kW. *)
Definition surplus_row : Row :=
  {| pv_column := 50; plug_column := 33;
     space_heat_column := 0; dhw_column := 0;
     COP_LV := 3; COP_JH := 3; COP_JV := 3 |}.

(** A dark hour with 30 kW of plug load and 3 kWh of heat demand at a
    COP of 3: a deficit of 31 kW, more than the battery may deliver. *)
Definition deficit_row : Row :=
  {| pv_column := 0; plug_column := 30;
     space_heat_column := 2; dhw_column := 1;
     COP_LV := 3; COP_JH := 3; COP_JV := 3 |}.

(** A lossless 10 kWh battery at 5 kWh and a 100 kWh tank at 98 kWh
    behind a 50 % electrolyser. *)
Definition scenario_D_args : SystemParameters.args :=
  {| SystemParameters.arg_eta_inv := 1;
     SystemParameters.arg_eta_bat_roundtrip := 1;
     SystemParameters.arg_eta_electrolyser := 0.5;
     SystemParameters.arg_eta_fuel_cell := 0.5;
     SystemParameters.arg_battery_capacity_kwh := 10;
     SystemParameters.arg_h2_capacity_kwh := 100;
     SystemParameters.arg_soc_bat_init := 0.5;
     SystemParameters.arg_h2_init_kwh := Some 98;
     SystemParameters.arg_heat_pump_type := LV;
     SystemParameters.arg_limits := ComponentLimits.default |}.

Definition scenario_D_params : SystemParameters.t :=
  SystemParameters.init scenario_D_args.

(** 9.001 kW of PV and no load: 5 kW fill the battery, 4 kW fill the
    tank, 0.001 kW remain. *)
Definition scenario_D_row : Row :=
  {| pv_column := 9.001; plug_column := 0;
     space_heat_column := 0; dhw_column := 0;
     COP_LV := 1; COP_JH := 1; COP_JV := 1 |}.

(** The devices [MicrogridSimulator.__init__] builds from the defaults. *)
Definition default_battery : Battery.t := Battery.init default_params.
Definition default_store : HydrogenStore.t := HydrogenStore.init default_params.


(** The defaults with one field changed. *)
Definition with_eta_inv (v : R) : SystemParameters.args :=
  let a := SystemParameters.default_args in
  {| SystemParameters.arg_eta_inv := v;
     SystemParameters.arg_eta_bat_roundtrip := SystemParameters.arg_eta_bat_roundtrip a;
     SystemParameters.arg_eta_electrolyser := SystemParameters.arg_eta_electrolyser a;
     SystemParameters.arg_eta_fuel_cell := SystemParameters.arg_eta_fuel_cell a;
     SystemParameters.arg_battery_capacity_kwh := SystemParameters.arg_battery_capacity_kwh a;
     SystemParameters.arg_h2_capacity_kwh := SystemParameters.arg_h2_capacity_kwh a;
     SystemParameters.arg_soc_bat_init := SystemParameters.arg_soc_bat_init a;
     SystemParameters.arg_h2_init_kwh := SystemParameters.arg_h2_init_kwh a;
     SystemParameters.arg_heat_pump_type := SystemParameters.arg_heat_pump_type a;
     SystemParameters.arg_limits := SystemParameters.arg_limits a |}.

Definition with_battery_capacity (v : R) : SystemParameters.args :=
  let a := SystemParameters.default_args in
  {| SystemParameters.arg_eta_inv := SystemParameters.arg_eta_inv a;
     SystemParameters.arg_eta_bat_roundtrip := SystemParameters.arg_eta_bat_roundtrip a;
     SystemParameters.arg_eta_electrolyser := SystemParameters.arg_eta_electrolyser a;
     SystemParameters.arg_eta_fuel_cell := SystemParameters.arg_eta_fuel_cell a;
     SystemParameters.arg_battery_capacity_kwh := v;
     SystemParameters.arg_h2_capacity_kwh := SystemParameters.arg_h2_capacity_kwh a;
     SystemParameters.arg_soc_bat_init := SystemParameters.arg_soc_bat_init a;
     SystemParameters.arg_h2_init_kwh := SystemParameters.arg_h2_init_kwh a;
     SystemParameters.arg_heat_pump_type := SystemParameters.arg_heat_pump_type a;
     SystemParameters.arg_limits := SystemParameters.arg_limits a |}.

Definition with_soc_bat_init (v : R) : SystemParameters.args :=
  let a := SystemParameters.default_args in
  {| SystemParameters.arg_eta_inv := SystemParameters.arg_eta_inv a;
     SystemParameters.arg_eta_bat_roundtrip := SystemParameters.arg_eta_bat_roundtrip a;
     SystemParameters.arg_eta_electrolyser := SystemParameters.arg_eta_electrolyser a;
     SystemParameters.arg_eta_fuel_cell := SystemParameters.arg_eta_fuel_cell a;
     SystemParameters.arg_battery_capacity_kwh := SystemParameters.arg_battery_capacity_kwh a;
     SystemParameters.arg_h2_capacity_kwh := SystemParameters.arg_h2_capacity_kwh a;
     SystemParameters.arg_soc_bat_init := v;
     SystemParameters.arg_h2_init_kwh := SystemParameters.arg_h2_init_kwh a;
     SystemParameters.arg_heat_pump_type := SystemParameters.arg_heat_pump_type a;
     SystemParameters.arg_limits := SystemParameters.arg_limits a |}.

(** ** The rest of the program *)

(** *** The KPI printed by [run] *)

(** The three labels of the annual grid balance. *)
Inductive BalanceClass : Type :=
| Zero_energy
| Surplus
| Deficit.

(** [np.isclose(a, b, rtol, atol)] on scalars:
    [abs(a - b) <= atol + rtol * abs(b)]. *)
Definition isclose (a b rtol atol : R) : bool :=
  Rgeb (atol + rtol * Rabs b) (Rabs (a - b)).

(** The label in the f-string of [run]; [np.isclose] is called with its
    default [rtol = 1e-05] and [atol = 1e-2]. *)
Definition classify (annual_balance : R) : BalanceClass :=
  if isclose annual_balance 0 1e-05 1e-2 then Zero_energy
  else if Rgtb annual_balance 0 then Surplus
  else Deficit.

(** *** [microgrid_plotter.py]: the data behind the figures *)

Module Plotter.

(** [Series.sum()] *)
Definition total (series : list R) : R := fold_right Rplus 0 series.

(** [_daily_sum]: the series is grouped by [position // 24] and each
    group is summed; group [day] holds the positions [24 * day] to
    [24 * day + 23] that exist, and there is a group for every position. *)
Definition daily_sum (series : list R) : list R :=
  map (fun day => total (firstn 24 (skipn (24 * day) series)))
      (seq 0 ((length series + 23) / 24)).

(** One row of the frame [_compute_electricity_split] returns, with its
    columns "PV", "Battery", "Fuel-cell", "Grid import". *)
Record Split : Type := mk_split {
  PV : R;
  Battery_share : R;
  Fuel_cell : R;
  Grid_import : R
}.

(** [Series.clip(lower=0)] on one value. *)
Definition clip_lower_0 (x : R) : R := Rmax x 0.

(** [_compute_electricity_split], row by row. *)
Definition split_row (r : LogRecord) : Split :=
  let load := load r in
  let batt := clip_lower_0 (p_bat_discharge r) in
  let fc := clip_lower_0 (p_fc r) in
  let grid := clip_lower_0 (p_grid_import r) in
  let pv := clip_lower_0 (load - batt - fc - grid) in
  {| PV := pv; Battery_share := batt; Fuel_cell := fc; Grid_import := grid |}.

Definition compute_electricity_split (res : list LogRecord) : list Split :=
  map split_row res.


(** The local [EPS_EN] and the series [shortfall_daily] that
    [_plot_unserved_energy] draws: daily grid import, with
    [.where(shortfall_daily > EPS_EN, 0.0)]. *)
Definition EPS_EN : R := 1e-6.

Definition shortfall_daily (res : list LogRecord) : list R :=
  map (fun x => if Rgtb x EPS_EN then x else 0)
      (daily_sum (map p_grid_import res)).

End Plotter.

(** *** [ExcelDataLoader] *)

Module ExcelDataLoader.

(** The data fields of [SystemParameters] that [load] reads. *)
Record Columns : Type := mk_columns {
  time_column : String.string;
  pv_column : String.string;
  plug_column : String.string;
  space_heat_column : String.string;
  dhw_column : String.string;
  cop_columns : String.string * String.string * String.string
}.

(** A data frame of numbers: the column labels and the rows in index
    order, each row holding one cell per column. *)
Record DataFrame : Type := mk_frame {
  columns : list String.string;
  rows : list (list R)
}.

(** What [load] does with the frame [pd.read_excel] returned: it returns
    a frame or raises [KeyError] with the set [missing]. *)
Inductive outcome : Type :=
| Loaded (df : DataFrame)
| KeyError (missing : list String.string).

(** The set [expected_cols]. *)
Definition expected_cols (c : Columns) : list String.string :=
  let '(cop1, cop2, cop3) := cop_columns c in
  [time_column c; pv_column c; plug_column c; space_heat_column c;
   dhw_column c; cop1; cop2; cop3].

(** [expected_cols.difference(df.columns)] *)
Definition missing (c : Columns) (df : DataFrame) : list String.string :=
  filter (fun name => negb (existsb (String.eqb name) (columns df)))
         (expected_cols c).

(** [ExcelDataLoader.load] after the read.  [sort_values] stands for
    pandas' [df.sort_values(column).reset_index(drop=True)]. *)
Definition load (sort_values : String.string -> DataFrame -> DataFrame)
    (c : Columns) (df : DataFrame) : outcome :=
  match missing c df with
  | [] => Loaded (sort_values (time_column c) df)
  | m => KeyError m
  end.

(** [row[label]] for a row of the frame: the cell under the first column
    with that label, if there is one. *)
Fixpoint cell (labels : list String.string) (row : list R)
    (label : String.string) : option R :=
  match labels, row with
  | l :: labels', v :: row' =>
      if String.eqb label l then Some v else cell labels' row' label
  | _, _ => None
  end.

End ExcelDataLoader.

(** *** Vocabulary of the further properties *)

(** Devices as a valid configuration builds them and as the loop keeps
    them: efficiencies positive, both conversion efficiencies of the
    lossy directions at most one, limits non-negative, levels within
    the capacities. *)
Definition dispatchable (b : Battery.t) (h : HydrogenStore.t) : Prop :=
  battery_ok b /\ Battery.eta_c b <= 1 /\
  store_ok h /\ HydrogenStore.eta_fc h <= 1 /\
  in_bounds (b, h).

(** No logged flow is negative. *)
Definition flows_nonnegative (r : LogRecord) : Prop :=
  0 <= p_bat_charge r /\ 0 <= p_bat_discharge r /\
  0 <= p_elec r /\ 0 <= p_fc r /\
  0 <= p_grid_export r /\ 0 <= p_grid_import r /\
  0 <= heat_from_fc r.


(** A grid flow is reported as zero or as more than [EPS], and never in
    both directions. *)
Definition grid_flow_reported (r : LogRecord) : Prop :=
  (p_grid_export r = 0 \/ p_grid_export r > EPS) /\
  (p_grid_import r = 0 \/ p_grid_import r > EPS) /\
  (p_grid_export r = 0 \/ p_grid_import r = 0).

(** Energy moved into (positive) or out of (negative) the battery and
    the tank in a logged hour, on the storage side. *)
Definition battery_energy_change (eta_d : R) (r : LogRecord) : R :=
  p_bat_charge r * dt - p_bat_discharge r * dt / eta_d.

Definition hydrogen_energy_change (eta_elec eta_fc : R) (r : LogRecord) : R :=
  eta_elec * (p_elec r * dt) - p_fc r * dt / eta_fc.

(** The simulator object with empty logs around two devices. *)
Definition simulator (params : SystemParameters.t) (b : Battery.t)
    (h : HydrogenStore.t) : MicrogridSimulator.t :=
  {| p := params; battery := b; h2 := h; logs := [] |}.

(** The levels reached from [start] by a list of changes, one per
    hour. *)
Fixpoint accumulate (start : R) (changes : list R) : list R :=
  match changes with
  | [] => []
  | c :: changes' => (start + c) :: accumulate (start + c) changes'
  end.

(** Grid import in an hour means the battery ended empty or delivered
    its power limit, and the tank ended at most at [EPS] or the fuel
    cell delivered its power limit. *)
Definition import_is_last_resort (b : Battery.t) (h : HydrogenStore.t)
    (r : LogRecord) : Prop :=
  p_grid_import r > 0 ->
  (soc_bat r = 0 \/ p_bat_discharge r = Battery.p_discharge_max b) /\
  (h2_store r <= EPS \/ p_fc r = HydrogenStore.p_fc_max h).

(** Grid export in an hour means the battery ended full or stored all
    that the clamped surplus offers, and the tank ended full or the
    electrolyser drew its power limit. *)
Definition export_is_last_resort (b : Battery.t) (h : HydrogenStore.t)
    (r : LogRecord) : Prop :=
  p_grid_export r > 0 ->
  (soc_bat r = Battery.cap b \/
   p_bat_charge r
     = Battery.eta_c b * Rmin (net_before r) (Battery.p_charge_max b)) /\
  (h2_store r = HydrogenStore.cap h \/ p_elec r = HydrogenStore.p_elec_max h).

(** The heat-pump columns of the record logged for a row: the load is
    plug load plus heat-pump draw, and for a non-negative heat demand
    the draw lies between zero and ten times the demand, which it
    reaches when the COP is at or below the floor of 0.1. *)
Definition heat_pump_draw_bounded (ty : HeatPumpType) (row : Row)
    (r : LogRecord) : Prop :=
  let heat := space_heat_column row + dhw_column row in
  load r = plug_column row + hp_electricity r /\
  (0 <= heat -> 0 <= hp_electricity r <= 10 * heat) /\
  (cop_col ty row <= 0.1 -> hp_electricity r = 10 * heat).

(** A row whose COP columns are zero. *)
Definition zero_cop_row : Row :=
  {| pv_column := 0; plug_column := 1;
     space_heat_column := 2; dhw_column := 1;
     COP_LV := 0; COP_JH := 0; COP_JV := 0 |}.

(** The shares of one row of the electricity split: none is negative,
    together they cover the load, and they add up to the load exactly
    when battery, fuel cell and grid import together do not exceed it. *)
Definition split_covers_load (r : LogRecord) (s : Plotter.Split) : Prop :=
  let others := Plotter.Battery_share s + Plotter.Fuel_cell s
                + Plotter.Grid_import s in
  0 <= Plotter.PV s /\ 0 <= Plotter.Battery_share s /\
  0 <= Plotter.Fuel_cell s /\ 0 <= Plotter.Grid_import s /\
  load r <= Plotter.PV s + others /\
  (0 <= p_bat_discharge r -> 0 <= p_fc r -> 0 <= p_grid_import r ->
   p_bat_discharge r + p_fc r + p_grid_import r <= load r ->
   Plotter.PV s + others = load r).

(** The split of a record the simulator logged: the three dispatch
    shares are the logged flows, the four shares add up to the logged
    load, and the PV share is at most the logged PV output plus [EPS]. *)
Definition split_matches_log (r : LogRecord) (s : Plotter.Split) : Prop :=
  Plotter.Battery_share s = p_bat_discharge r /\
  Plotter.Fuel_cell s = p_fc r /\
  Plotter.Grid_import s = p_grid_import r /\
  Plotter.PV s + Plotter.Battery_share s + Plotter.Fuel_cell s
    + Plotter.Grid_import s = load r /\
  Plotter.PV s <= pv_ac r + EPS.

(** Input data without negative production, plug load or heat demand. *)
Definition row_nonnegative (row : Row) : Prop :=
  0 <= pv_column row /\ 0 <= plug_column row /\
  0 <= space_heat_column row + dhw_column row.

(** The default column names of [SystemParameters]. *)
Definition default_columns : ExcelDataLoader.Columns :=
  {| ExcelDataLoader.time_column := "Tid (nummer time på et år)"%string;
     ExcelDataLoader.pv_column := "Solproduktion"%string;
     ExcelDataLoader.plug_column := "Elforbrug"%string;
     ExcelDataLoader.space_heat_column := "Varmeforbrug"%string;
     ExcelDataLoader.dhw_column := "Forbrug varmt brugsvand"%string;
     ExcelDataLoader.cop_columns :=
       ("COP_LV"%string, "COP_JH"%string, "COP_JV"%string) |}.

(** The labels one iteration of [run] looks up in its row: the four
    data columns named by the parameters, and [cop_col], the value of
    the heat-pump type. *)
Definition row_lookups (c : ExcelDataLoader.Columns) (ty : HeatPumpType)
  : list String.string :=
  [ExcelDataLoader.pv_column c; ExcelDataLoader.space_heat_column c;
   ExcelDataLoader.dhw_column c; HeatPumpType_value ty;
   ExcelDataLoader.plug_column c].

(** Column names with the three COP columns renamed, and a workbook
    that has exactly these columns. *)
Definition renamed_cop_columns : ExcelDataLoader.Columns :=
  {| ExcelDataLoader.time_column := "Tid (nummer time på et år)"%string;
     ExcelDataLoader.pv_column := "Solproduktion"%string;
     ExcelDataLoader.plug_column := "Elforbrug"%string;
     ExcelDataLoader.space_heat_column := "Varmeforbrug"%string;
     ExcelDataLoader.dhw_column := "Forbrug varmt brugsvand"%string;
     ExcelDataLoader.cop_columns :=
       ("COP_air"%string, "COP_ground"%string, "COP_borehole"%string) |}.

Definition renamed_cop_frame : ExcelDataLoader.DataFrame :=
  {| ExcelDataLoader.columns :=
       ["Tid (nummer time på et år)"; "Solproduktion"; "Elforbrug";
        "Varmeforbrug"; "Forbrug varmt brugsvand";
        "COP_air"; "COP_ground"; "COP_borehole"]%string;
     ExcelDataLoader.rows := [[1; 50; 33; 0; 0; 3; 3; 3]] |}.

(** Every row of the frame holds one cell per column. *)
Definition rectangular (df : ExcelDataLoader.DataFrame) : Prop :=
  Forall (fun row => length row = length (ExcelDataLoader.columns df))
         (ExcelDataLoader.rows df).

(** What the loader relies on from [sort_values]: it keeps the columns
    and permutes the rows. *)
Definition reorders_rows
    (sort_values : String.string -> ExcelDataLoader.DataFrame
                   -> ExcelDataLoader.DataFrame) : Prop :=
  forall column df,
    ExcelDataLoader.columns (sort_values column df) = ExcelDataLoader.columns df /\
    Permutation (ExcelDataLoader.rows (sort_values column df))
                (ExcelDataLoader.rows df).

(** A workbook with the eight expected columns, one more, and two hours
    already in time order; and one that lacks the hot-water column. *)
Definition sample_frame : ExcelDataLoader.DataFrame :=
  {| ExcelDataLoader.columns :=
       ["Tid (nummer time på et år)"; "Solproduktion"; "Elforbrug";
        "Varmeforbrug"; "Forbrug varmt brugsvand";
        "COP_LV"; "COP_JH"; "COP_JV"; "Note"]%string;
     ExcelDataLoader.rows :=
       [[1; 50; 33; 0; 0; 3; 3; 3; 0];
        [2; 0; 30; 2; 1; 3; 3; 3; 0]] |}.

Definition incomplete_frame : ExcelDataLoader.DataFrame :=
  {| ExcelDataLoader.columns :=
       ["Tid (nummer time på et år)"; "Solproduktion"; "Elforbrug";
        "Varmeforbrug"; "COP_LV"; "COP_JH"; "COP_JV"]%string;
     ExcelDataLoader.rows := [[1; 50; 33; 0; 3; 3; 3]] |}.

(** A sort that finds the rows already in order. *)
Definition keep_order (column : String.string)
    (df : ExcelDataLoader.DataFrame) : ExcelDataLoader.DataFrame := df.

(** * Lemmas *)

(** ** Comparisons and clamps *)

Lemma Rgtb_true (x y : R) : x > y -> Rgtb x y = true.
Proof. intros H. unfold Rgtb. destruct (Rgt_dec x y); [reflexivity | contradiction]. Qed.

Lemma Rgtb_false (x y : R) : x <= y -> Rgtb x y = false.
Proof. intros H. unfold Rgtb. destruct (Rgt_dec x y); [lra | reflexivity]. Qed.

Lemma Rgtb_cases (x y : R) :
  (x > y /\ Rgtb x y = true) \/ (x <= y /\ Rgtb x y = false).
Proof.
  destruct (Rgt_dec x y) as [H | H].
  - left. split; [exact H | exact (Rgtb_true x y H)].
  - right. assert (x <= y) by lra. split; [assumption | apply Rgtb_false; assumption].
Qed.

Lemma Rgeb_true (x y : R) : x >= y -> Rgeb x y = true.
Proof. intros H. unfold Rgeb. destruct (Rge_dec x y); [reflexivity | contradiction]. Qed.

Lemma Rgeb_false (x y : R) : x < y -> Rgeb x y = false.
Proof. intros H. unfold Rgeb. destruct (Rge_dec x y); [lra | reflexivity]. Qed.

Lemma Rgeb_cases (x y : R) :
  (x >= y /\ Rgeb x y = true) \/ (x < y /\ Rgeb x y = false).
Proof.
  destruct (Rge_dec x y) as [H | H].
  - left. split; [exact H | exact (Rgeb_true x y H)].
  - right. assert (x < y) by lra. split; [assumption | apply Rgeb_false; assumption].
Qed.

(** A clamp of a non-negative quantity to a non-negative bound lies
    between zero and either argument. *)
Lemma Rmin_nonneg (a b : R) : 0 <= a -> 0 <= b -> 0 <= Rmin a b.
Proof. intros Ha Hb. apply Rmin_glb; assumption. Qed.

Lemma Rmin_eq_l (a b : R) : a <= b -> Rmin a b = a.
Proof. intros H. unfold Rmin. destruct (Rle_dec a b); lra. Qed.

Lemma Rmin_eq_r (a b : R) : b <= a -> Rmin a b = b.
Proof. intros H. unfold Rmin. destruct (Rle_dec a b); lra. Qed.

(** The energy a device is asked to take in, [p * dt * eta], and the
    energy it is asked to give up, [p * dt / eta], are non-negative for a
    non-negative clamped power. *)
Lemma offered_nonneg (p p_max dt_h eta : R) :
  0 <= p -> 0 <= p_max -> 0 < dt_h -> 0 < eta ->
  0 <= Rmin p p_max * dt_h * eta.
Proof.
  intros Hp Hm Hdt He.
  pose proof (Rmin_nonneg _ _ Hp Hm) as H.
  apply Rmult_le_pos; [apply Rmult_le_pos |]; lra.
Qed.

Lemma requested_nonneg (p p_max dt_h eta : R) :
  0 <= p -> 0 <= p_max -> 0 < dt_h -> 0 < eta ->
  0 <= Rmin p p_max * dt_h / eta.
Proof.
  intros Hp Hm Hdt He.
  pose proof (Rmin_nonneg _ _ Hp Hm) as H.
  apply Rmult_le_pos.
  - apply Rmult_le_pos; lra.
  - left. apply Rinv_0_lt_compat. exact He.
Qed.

(** ** Battery *)

Lemma charge_bounds (b : Battery.t) (p dt_h : R) :
  battery_ok b -> battery_in_bounds b -> 0 <= p -> 0 < dt_h ->
  battery_in_bounds (fst (Battery.charge b p dt_h)).
Proof.
  intros (Hc & _ & Hm & _) [Hlo Hhi] Hp Hdt.
  unfold battery_in_bounds, Battery.charge. simpl.
  pose proof (offered_nonneg _ _ _ _ Hp Hm Hdt Hc) as He.
  set (e_in := Rmin p (Battery.p_charge_max b) * dt_h * Battery.eta_c b) in *.
  pose proof (Rmin_r e_in (Battery.cap b - Battery.soc b)).
  assert (0 <= Rmin e_in (Battery.cap b - Battery.soc b))
    by (apply Rmin_nonneg; lra).
  lra.
Qed.

Lemma discharge_bounds (b : Battery.t) (p dt_h : R) :
  battery_ok b -> battery_in_bounds b -> 0 <= p -> 0 < dt_h ->
  battery_in_bounds (fst (Battery.discharge b p dt_h)).
Proof.
  intros (_ & Hd & _ & Hm) [Hlo Hhi] Hp Hdt.
  unfold battery_in_bounds, Battery.discharge. simpl.
  pose proof (requested_nonneg _ _ _ _ Hp Hm Hdt Hd) as He.
  set (e_req := Rmin p (Battery.p_discharge_max b) * dt_h / Battery.eta_d b) in *.
  pose proof (Rmin_r e_req (Battery.soc b)).
  assert (0 <= Rmin e_req (Battery.soc b)) by (apply Rmin_nonneg; lra).
  lra.
Qed.

Lemma charge_ok (b : Battery.t) (p dt_h : R) :
  battery_ok b -> battery_ok (fst (Battery.charge b p dt_h)).
Proof. intros H. exact H. Qed.

Lemma discharge_ok (b : Battery.t) (p dt_h : R) :
  battery_ok b -> battery_ok (fst (Battery.discharge b p dt_h)).
Proof. intros H. exact H. Qed.

(** ** Hydrogen store *)

Lemma electrolyse_bounds (h : HydrogenStore.t) (p dt_h : R) :
  store_ok h -> store_in_bounds h -> 0 <= p -> 0 < dt_h ->
  store_in_bounds (fst (HydrogenStore.electrolyse h p dt_h)).
Proof.
  intros (He & _ & Hm & _) [Hlo Hhi] Hp Hdt.
  unfold store_in_bounds, HydrogenStore.electrolyse. simpl.
  pose proof (offered_nonneg _ _ _ _ Hp Hm Hdt He) as Hin.
  set (e_h2 := Rmin p (HydrogenStore.p_elec_max h) * dt_h * HydrogenStore.eta_elec h) in *.
  pose proof (Rmin_r e_h2 (HydrogenStore.cap h - HydrogenStore.h2 h)).
  assert (0 <= Rmin e_h2 (HydrogenStore.cap h - HydrogenStore.h2 h))
    by (apply Rmin_nonneg; lra).
  lra.
Qed.

Lemma fuel_cell_bounds (h : HydrogenStore.t) (p dt_h : R) :
  store_ok h -> store_in_bounds h -> 0 <= p -> 0 < dt_h ->
  store_in_bounds (fst (HydrogenStore.fuel_cell h p dt_h)).
Proof.
  intros (_ & Hf & _ & Hm) [Hlo Hhi] Hp Hdt.
  unfold store_in_bounds, HydrogenStore.fuel_cell. simpl.
  pose proof (requested_nonneg _ _ _ _ Hp Hm Hdt Hf) as Hreq.
  set (e_need := Rmin p (HydrogenStore.p_fc_max h) * dt_h / HydrogenStore.eta_fc h) in *.
  pose proof (Rmin_r e_need (HydrogenStore.h2 h)).
  assert (0 <= Rmin e_need (HydrogenStore.h2 h)) by (apply Rmin_nonneg; lra).
  lra.
Qed.

(** ** The loop body *)

Lemma surplus_eq (b : Battery.t) (h : HydrogenStore.t) (net : R) :
  surplus b h net =
  let r1 := Battery.charge b net 1 in
  let na := net - snd r1 in
  if Rgtb na 1e-6 then
    let r2 := HydrogenStore.electrolyse h na 1 in
    (fst r1, fst r2,
     (snd r1, snd r2, if Rgtb (na - snd r2) EPS then na - snd r2 else 0))
  else (fst r1, h, (snd r1, 0, if Rgtb na EPS then na else 0)).
Proof.
  unfold surplus. cbv zeta. simpl.
  match goal with |- context [Rgtb ?x 1e-6] => destruct (Rgtb x 1e-6) end;
    reflexivity.
Qed.

Lemma deficit_eq (b : Battery.t) (h : HydrogenStore.t) (net : R) :
  deficit b h net =
  let r1 := Battery.discharge b (- net) 1 in
  let da := - net - snd r1 in
  if andb (Rgtb da EPS) (Rgtb (HydrogenStore.h2 h) EPS) then
    let r2 := HydrogenStore.fuel_cell h da 1 in
    let p_fc_kw := fst (snd r2) in
    (fst r1, fst r2,
     (snd r1, p_fc_kw, snd (snd r2),
      if Rgtb (da - p_fc_kw) EPS then da - p_fc_kw else 0))
  else (fst r1, h, (snd r1, 0, 0, if Rgtb da EPS then da else 0)).
Proof.
  unfold deficit. cbv zeta. simpl.
  match goal with |- context [andb ?x ?y] => destruct (andb x y) end;
    reflexivity.
Qed.

(** What the hour logs in the surplus branch, in terms of the result of
    [surplus]. *)
Lemma hour_surplus (params : SystemParameters.t) (b : Battery.t)
    (h : HydrogenStore.t) (row : Row) :
  net_kw params row >= 0 ->
  forall b1 h1 c e x,
    surplus b h (net_kw params row) = (b1, h1, (c, e, x)) ->
    fst (hour params b h row) = (b1, h1) /\
    let r := snd (hour params b h row) in
    pv_ac r - load r = net_kw params row /\
    p_bat_charge r = c /\ p_bat_discharge r = 0 /\
    p_elec r = e /\ p_fc r = 0 /\
    p_grid_export r = x /\ p_grid_import r = 0 /\
    heat_from_fc r = 0 * dt /\
    soc_bat r = Battery.soc b1 /\ h2_store r = HydrogenStore.h2 h1.
Proof.
  intros Hnet b1 h1 c e x Hs.
  unfold hour. cbv zeta. fold (net_kw params row).
  rewrite (Rgeb_true _ _ Hnet), Hs. simpl. repeat split; reflexivity.
Qed.

(** The same for the deficit branch. *)
Lemma hour_deficit (params : SystemParameters.t) (b : Battery.t)
    (h : HydrogenStore.t) (row : Row) :
  net_kw params row < 0 ->
  forall b1 h1 d f w i,
    deficit b h (net_kw params row) = (b1, h1, (d, f, w, i)) ->
    fst (hour params b h row) = (b1, h1) /\
    let r := snd (hour params b h row) in
    pv_ac r - load r = net_kw params row /\
    p_bat_charge r = 0 /\ p_bat_discharge r = d /\
    p_elec r = 0 /\ p_fc r = f /\
    p_grid_export r = 0 /\ p_grid_import r = i /\
    heat_from_fc r = w * dt /\
    soc_bat r = Battery.soc b1 /\ h2_store r = HydrogenStore.h2 h1.
Proof.
  intros Hnet b1 h1 d f w i Hs.
  unfold hour. cbv zeta. fold (net_kw params row).
  rewrite (Rgeb_false _ _ Hnet), Hs. simpl. repeat split; reflexivity.
Qed.

(** The heat columns do not depend on the branch. *)
Lemma hour_heat (params : SystemParameters.t) (b : Battery.t)
    (h : HydrogenStore.t) (row : Row) :
  let r := snd (hour params b h row) in
  heat_pump_heat r = space_heat_column row + dhw_column row /\
  heat_total_demand r = space_heat_column row + dhw_column row.
Proof.
  unfold hour. cbv zeta.
  destruct (Rgeb _ 0).
  - destruct (surplus _ _ _) as [[b1 h1] [[c e] x]]. split; reflexivity.
  - destruct (deficit _ _ _) as [[b1 h1] [[[d f] w] i]]. split; reflexivity.
Qed.

(** The logged net balance is [net_kw]. *)
Lemma hour_net_before (params : SystemParameters.t) (b : Battery.t)
    (h : HydrogenStore.t) (row : Row) :
  net_before (snd (hour params b h row)) = net_kw params row.
Proof.
  unfold hour. cbv zeta.
  destruct (Rgeb _ 0).
  - destruct (surplus _ _ _) as [[b1 h1] [[c e] x]]. reflexivity.
  - destruct (deficit _ _ _) as [[b1 h1] [[[d f] w] i]]. reflexivity.
Qed.

(** The battery after either branch is the battery after one call. *)
Lemma surplus_battery (b : Battery.t) (h : HydrogenStore.t) (net : R) :
  fst (fst (surplus b h net)) = fst (Battery.charge b net 1).
Proof.
  rewrite surplus_eq. cbv zeta.
  destruct (Rgtb _ 1e-6); reflexivity.
Qed.

Lemma deficit_battery (b : Battery.t) (h : HydrogenStore.t) (net : R) :
  fst (fst (deficit b h net)) = fst (Battery.discharge b (- net) 1).
Proof.
  rewrite deficit_eq. cbv zeta.
  destruct (andb _ _); reflexivity.
Qed.

(** The store after the surplus branch is untouched or went through one
    [electrolyse] call with a positive request. *)
Lemma surplus_store (b : Battery.t) (h : HydrogenStore.t) (net : R) :
  snd (fst (surplus b h net)) = h \/
  exists q, q > 1e-6 /\
    snd (fst (surplus b h net)) = fst (HydrogenStore.electrolyse h q 1).
Proof.
  rewrite surplus_eq. cbv zeta.
  match goal with |- context [Rgtb ?x 1e-6] =>
    destruct (Rgtb_cases x 1e-6) as [[H E] | [H E]]; rewrite E end.
  - right. eexists. split; [exact H | reflexivity].
  - left. reflexivity.
Qed.

Lemma deficit_store (b : Battery.t) (h : HydrogenStore.t) (net : R) :
  snd (fst (deficit b h net)) = h \/
  exists q, q > EPS /\
    snd (fst (deficit b h net)) = fst (HydrogenStore.fuel_cell h q 1).
Proof.
  rewrite deficit_eq. cbv zeta.
  match goal with |- context [andb (Rgtb ?x EPS) ?y] =>
    destruct (Rgtb_cases x EPS) as [[H E] | [H E]]; rewrite E end.
  - destruct (Rgtb (HydrogenStore.h2 h) EPS); simpl.
    + right. eexists. split; [exact H | reflexivity].
    + left. reflexivity.
  - left. reflexivity.
Qed.

(** One hour keeps both devices well-formed and within bounds, whatever
    the row. *)
Lemma hour_preserves (params : SystemParameters.t) (b : Battery.t)
    (h : HydrogenStore.t) (row : Row) :
  battery_ok b -> store_ok h -> in_bounds (b, h) ->
  let d := fst (hour params b h row) in
  battery_ok (fst d) /\ store_ok (snd d) /\ in_bounds d /\
  Battery.cap (fst d) = Battery.cap b /\
  HydrogenStore.cap (snd d) = HydrogenStore.cap h.
Proof.
  intros Hb Hh [Ib Ih]. cbn [fst snd] in Ib, Ih.
  destruct (Rge_dec (net_kw params row) 0) as [Hnet | Hnet].
  - destruct (surplus b h (net_kw params row)) as [[b1 h1] [[c e] x]] eqn:Hs.
    destruct (hour_surplus params b h row Hnet _ _ _ _ _ Hs) as [-> _].
    pose proof (surplus_battery b h (net_kw params row)) as Eb.
    pose proof (surplus_store b h (net_kw params row)) as Eh.
    rewrite Hs in Eb, Eh. cbn [fst snd] in Eb, Eh |- *. subst b1.
    assert (Hb1 : battery_in_bounds (fst (Battery.charge b (net_kw params row) 1)))
      by (apply charge_bounds; try assumption; lra).
    destruct Eh as [-> | (q & Hq & ->)].
    + split; [exact Hb | split; [exact Hh | split; [split; assumption |]]].
      split; reflexivity.
    + assert (Hh1 : store_in_bounds (fst (HydrogenStore.electrolyse h q 1)))
        by (apply electrolyse_bounds; try assumption; lra).
      split; [exact Hb | split; [exact Hh | split; [split; assumption |]]].
      split; reflexivity.
  - assert (Hneg : net_kw params row < 0) by lra.
    destruct (deficit b h (net_kw params row)) as [[b1 h1] [[[d f] w] i]] eqn:Hs.
    destruct (hour_deficit params b h row Hneg _ _ _ _ _ _ Hs) as [-> _].
    pose proof (deficit_battery b h (net_kw params row)) as Eb.
    pose proof (deficit_store b h (net_kw params row)) as Eh.
    rewrite Hs in Eb, Eh. cbn [fst snd] in Eb, Eh |- *. subst b1.
    assert (Hb1 : battery_in_bounds (fst (Battery.discharge b (- net_kw params row) 1)))
      by (apply discharge_bounds; try assumption; lra).
    destruct Eh as [-> | (q & Hq & ->)].
    + split; [exact Hb | split; [exact Hh | split; [split; assumption |]]].
      split; reflexivity.
    + assert (Hh1 : store_in_bounds (fst (HydrogenStore.fuel_cell h q 1)))
        by (apply fuel_cell_bounds; try assumption; unfold EPS in Hq; lra).
      split; [exact Hb | split; [exact Hh | split; [split; assumption |]]].
      split; reflexivity.
Qed.

(** The logged levels are the levels of the devices after the hour. *)
Lemma hour_levels (params : SystemParameters.t) (b : Battery.t)
    (h : HydrogenStore.t) (row : Row) :
  soc_bat (snd (hour params b h row))
    = Battery.soc (fst (fst (hour params b h row))) /\
  h2_store (snd (hour params b h row))
    = HydrogenStore.h2 (snd (fst (hour params b h row))).
Proof.
  unfold hour. cbv zeta.
  destruct (Rgeb _ 0).
  - destruct (surplus _ _ _) as [[b1 h1] [[c e] x]]. split; reflexivity.
  - destruct (deficit _ _ _) as [[b1 h1] [[[d f] w] i]]. split; reflexivity.
Qed.

(** ** The loop *)

Lemma run_cons (self : t) (row : Row) (df : list Row) :
  run self (row :: df) = run (iteration self row) df.
Proof. reflexivity. Qed.

Lemma iteration_fields (self : t) (row : Row) :
  let res := hour (p self) (battery self) (h2 self) row in
  p (iteration self row) = p self /\
  battery (iteration self row) = fst (fst res) /\
  h2 (iteration self row) = snd (fst res) /\
  logs (iteration self row) = logs self ++ [snd res].
Proof.
  unfold iteration.
  destruct (hour (p self) (battery self) (h2 self) row) as [[b1 h1] r].
  repeat split; reflexivity.
Qed.

(** The induction principle of the loop: a property [I] of the two
    devices that every hour preserves holds after the loop, and a
    relation [Q] that every such hour establishes between its row and
    its record holds between the data frame and the appended records,
    position by position. *)
Lemma run_invariant (params : SystemParameters.t)
    (I : Battery.t -> HydrogenStore.t -> Prop)
    (Q : Row -> LogRecord -> Prop) :
  (forall b h row, I b h ->
     I (fst (fst (hour params b h row))) (snd (fst (hour params b h row))) /\
     Q row (snd (hour params b h row))) ->
  forall df self,
    p self = params -> I (battery self) (h2 self) ->
    exists appended,
      logs (run self df) = logs self ++ appended /\
      Forall2 Q df appended /\
      I (battery (run self df)) (h2 (run self df)).
Proof.
  intros Hstep df.
  induction df as [| row df IH]; intros self Hp HI.
  - exists []. simpl. rewrite app_nil_r. repeat split; [constructor | exact HI].
  - rewrite run_cons.
    destruct (iteration_fields self row) as (Ep & Eb & Eh & El).
    rewrite Hp in Ep, Eb, Eh, El.
    destruct (Hstep _ _ row HI) as [HI' HQ].
    destruct (IH (iteration self row)) as (app' & El' & HQ' & HI'').
    + exact Ep.
    + rewrite Eb, Eh. exact HI'.
    + exists (snd (hour params (battery self) (h2 self) row) :: app').
      split; [| split].
      * rewrite El', El, <- app_assoc. reflexivity.
      * constructor; assumption.
      * exact HI''.
Qed.

Lemma Forall2_right (A B : Type) (P : B -> Prop) (l : list A) (l' : list B) :
  Forall2 (fun _ y => P y) l l' -> Forall P l'.
Proof. induction 1; constructor; assumption. Qed.

(** ** Sequences of device calls *)

Lemma perform_preserves (d : Battery.t * HydrogenStore.t) (c : call) :
  battery_ok (fst d) -> store_ok (snd d) -> in_bounds d -> call_ok c ->
  battery_ok (fst (perform d c)) /\ store_ok (snd (perform d c)) /\
  in_bounds (perform d c).
Proof.
  intros Hb Hh [Ib Ih] Hc.
  destruct c as [q dt_h | q dt_h | q dt_h | q dt_h];
    destruct Hc as [Hq Hdt]; cbn [perform fst snd];
    (split; [exact Hb | split; [exact Hh | split; cbn [fst snd]]]);
    try assumption.
  - apply charge_bounds; assumption.
  - apply discharge_bounds; assumption.
  - apply electrolyse_bounds; assumption.
  - apply fuel_cell_bounds; assumption.
Qed.

Lemma boundaries_in_bounds (calls : list call) :
  forall d,
    battery_ok (fst d) -> store_ok (snd d) -> in_bounds d ->
    Forall call_ok calls ->
    Forall in_bounds (boundaries calls d).
Proof.
  induction calls as [| c calls IH]; intros d Hb Hh Hi Hc; simpl.
  - constructor; [exact Hi | constructor].
  - inversion Hc as [| c' l' Hc1 Hc2]; subst.
    destruct (perform_preserves d c Hb Hh Hi Hc1) as (Hb' & Hh' & Hi').
    constructor; [exact Hi |].
    apply IH; assumption.
Qed.

(** Every hour logged by [run] reports levels within the capacities of
    the devices the run started from. *)
Lemma run_levels_in_bounds (params : SystemParameters.t) (b : Battery.t)
    (h : HydrogenStore.t) (df : list Row) :
  battery_ok b -> store_ok h -> in_bounds (b, h) ->
  Forall (log_in_bounds (Battery.cap b) (HydrogenStore.cap h))
         (logs (run {| p := params; battery := b; h2 := h; logs := [] |} df)).
Proof.
  intros Hb Hh Hi.
  set (I := fun b' h' =>
              battery_ok b' /\ store_ok h' /\ in_bounds (b', h') /\
              Battery.cap b' = Battery.cap b /\
              HydrogenStore.cap h' = HydrogenStore.cap h).
  destruct (run_invariant params I
              (fun _ r => log_in_bounds (Battery.cap b) (HydrogenStore.cap h) r))
    with (df := df)
         (self := {| p := params; battery := b; h2 := h; logs := [] |})
    as (appended & El & HQ & _).
  - intros b' h' row (Hb' & Hh' & Hi' & Cb & Ch).
    destruct (hour_preserves params b' h' row Hb' Hh' Hi')
      as (Hb1 & Hh1 & Hi1 & Cb1 & Ch1).
    destruct (hour_levels params b' h' row) as [Es Eh].
    split.
    + unfold I.
      split; [exact Hb1 | split; [exact Hh1 | split; [| split; congruence]]].
      destruct (fst (hour params b' h' row)); exact Hi1.
    + unfold log_in_bounds. rewrite Es, Eh, <- Cb, <- Ch, <- Cb1, <- Ch1.
      exact Hi1.
  - reflexivity.
  - unfold I. cbn [battery h2].
    split; [exact Hb | split; [exact Hh | split; [exact Hi | split; reflexivity]]].
  - rewrite El. cbn [logs app]. exact (Forall2_right _ _ _ _ _ HQ).
Qed.

(** *** Levels up to the rounding allowance *)












(** A valid configuration builds well-formed devices within bounds, so
    a run of the simulator as constructed logs levels within the
    configured capacities. *)
Lemma valid_configuration_devices (params : SystemParameters.t) :
  valid_configuration params ->
  battery_ok (Battery.init params) /\ Battery.eta_c (Battery.init params) <= 1 /\
  store_ok (HydrogenStore.init params) /\
  in_bounds (Battery.init params, HydrogenStore.init params).
Proof.
  intros (_ & [Hrt Hrt1] & [He _] & [Hf _] & Hcap & Hcap2 & Hl1 & Hl2 & Hl3 & Hl4
          & [Hs0 Hs1] & Hh).
  cbv zeta in *.
  assert (Hs : 0 < sqrt (SystemParameters.eta_bat_roundtrip params))
    by (apply sqrt_lt_R0; exact Hrt).
  assert (Hs' : sqrt (SystemParameters.eta_bat_roundtrip params) <= 1).
  { rewrite <- sqrt_1. apply sqrt_le_1_alt. exact Hrt1. }
  unfold battery_ok, store_ok, in_bounds, battery_in_bounds, store_in_bounds.
  cbn. unfold SystemParameters.charge_eff, SystemParameters.discharge_eff.
  set (c := SystemParameters.battery_capacity_kwh params) in *.
  set (f := SystemParameters.soc_bat_init params) in *.
  assert (0 <= f * c) by (apply Rmult_le_pos; assumption).
  assert (f * c <= 1 * c) by (apply Rmult_le_compat_r; assumption).
  repeat split; try assumption; lra.
Qed.


(** ** The default devices *)

Lemma sqrt_095_bounds : 0.974 < sqrt 0.95 < 0.975.
Proof.
  split.
  - apply Rsqr_incrst_0; [| lra | apply sqrt_pos].
    rewrite Rsqr_sqrt by lra. unfold Rsqr. lra.
  - apply Rsqr_incrst_0; [| apply sqrt_pos | lra].
    rewrite Rsqr_sqrt by lra. unfold Rsqr. lra.
Qed.

Lemma default_battery_ok : battery_ok default_battery.
Proof.
  pose proof sqrt_095_bounds as Hs.
  unfold battery_ok, default_battery, Battery.init, default_params. simpl.
  unfold SystemParameters.charge_eff, SystemParameters.discharge_eff. simpl.
  repeat split; lra.
Qed.

Lemma default_store_ok : store_ok default_store.
Proof.
  unfold store_ok, default_store, HydrogenStore.init, default_params. simpl.
  repeat split; lra.
Qed.

Lemma default_in_bounds : in_bounds (default_battery, default_store).
Proof.
  unfold in_bounds, battery_in_bounds, store_in_bounds. simpl.
  unfold SystemParameters.post_init. simpl. lra.
Qed.






(** After the overshoot the next call brings the level back to the
    capacity and returns a negative power. *)
Lemma binary64_power_after_overshoot :
  let b1 := fst (Binary64.Battery.charge Binary64.small_battery
                   Binary64.ten_kw Binary64.one_hour) in
  let h1 := fst (Binary64.HydrogenStore.electrolyse Binary64.small_store
                   Binary64.ten_kw Binary64.one_hour) in
  PrimFloat.ltb (snd (Binary64.Battery.charge b1 Binary64.ten_kw Binary64.one_hour))
                PrimFloat.zero = true /\
  PrimFloat.ltb (snd (Binary64.HydrogenStore.electrolyse
                        h1 Binary64.ten_kw Binary64.one_hour))
                PrimFloat.zero = true /\
  PrimFloat.eqb (Binary64.Battery.soc
                   (fst (Binary64.Battery.charge b1 Binary64.ten_kw Binary64.one_hour)))
                (Binary64.Battery.cap b1) = true.
Proof. cbv zeta. repeat split; vm_compute; reflexivity. Qed.

(** ** Directions of the storage devices *)

Lemma hour_mutually_exclusive (params : SystemParameters.t) (b : Battery.t)
    (h : HydrogenStore.t) (row : Row) :
  mutually_exclusive (snd (hour params b h row)).
Proof.
  unfold mutually_exclusive.
  destruct (Rge_dec (net_kw params row) 0) as [Hnet | Hnet].
  - destruct (surplus b h (net_kw params row)) as [[b1 h1] [[c e] x]] eqn:Hs.
    destruct (hour_surplus params b h row Hnet _ _ _ _ _ Hs)
      as (_ & _ & _ & Hd & _ & Hf & _).
    rewrite Hd, Hf. repeat split; intros; (reflexivity || lra).
  - assert (Hneg : net_kw params row < 0) by lra.
    destruct (deficit b h (net_kw params row)) as [[b1 h1] [[[d f] w] i]] eqn:Hs.
    destruct (hour_deficit params b h row Hneg _ _ _ _ _ _ Hs)
      as (_ & _ & Hc & _ & He & _).
    rewrite Hc, He. repeat split; intros; (reflexivity || lra).
Qed.

(** C6.  In every hour logged by a run, a positive battery charge comes
    with a zero battery discharge and conversely, and a positive
    electrolyser power comes with a zero fuel-cell power and
    conversely. *)
Theorem one_direction_per_hour :
  forall (params : SystemParameters.t) (b : Battery.t) (h : HydrogenStore.t)
         (df : list Row),
    Forall mutually_exclusive
           (logs (run {| p := params; battery := b; h2 := h; logs := [] |} df)).
Proof.
  intros params b h df.
  destruct (run_invariant params (fun _ _ => True)
              (fun _ r => mutually_exclusive r))
    with (df := df)
         (self := {| p := params; battery := b; h2 := h; logs := [] |})
    as (appended & El & HQ & _).
  - intros b' h' row _. split; [exact I | apply hour_mutually_exclusive].
  - reflexivity.
  - exact I.
  - rewrite El. cbn [logs app]. exact (Forall2_right _ _ _ _ _ HQ).
Qed.

(** ** Heat columns *)

(** C10.  The records a run logs correspond one to one, in order, to the
    rows of the data frame, and in each the heat-pump output equals the
    total heat demand, both being the row's space-heat plus hot-water
    demand, whichever branch the hour took and whatever waste heat the
    fuel cell reported. *)
Theorem heat_pump_heat_is_total_demand :
  forall (params : SystemParameters.t) (b : Battery.t) (h : HydrogenStore.t)
         (df : list Row),
    Forall2 heat_pump_covers_demand df
            (logs (run {| p := params; battery := b; h2 := h; logs := [] |} df)).
Proof.
  intros params b h df.
  destruct (run_invariant params (fun _ _ => True) heat_pump_covers_demand)
    with (df := df)
         (self := {| p := params; battery := b; h2 := h; logs := [] |})
    as (appended & El & HQ & _).
  - intros b' h' row _. split; [exact I |].
    destruct (hour_heat params b' h' row) as [E1 E2].
    unfold heat_pump_covers_demand. rewrite E1, E2. split; reflexivity.
  - reflexivity.
  - exact I.
  - rewrite El. cbn [logs app]. exact HQ.
Qed.

(** ** What the hydrogen store returns *)

(** C7.  For every request and every positive time step, with a non-zero
    electrolyser efficiency, the power [electrolyse] returns times the
    efficiency times the time step is exactly the increase of the tank
    level; in particular, when the offered energy reaches the headroom
    the tank ends full and the returned power accounts for the headroom
    only. *)
Theorem electrolyse_returns_power_for_stored_increment :
  forall (h : HydrogenStore.t) (p_kw dt_h : R),
    0 < dt_h -> HydrogenStore.eta_elec h <> 0 ->
    let h1 := fst (HydrogenStore.electrolyse h p_kw dt_h) in
    let consumed := snd (HydrogenStore.electrolyse h p_kw dt_h) in
    consumed * HydrogenStore.eta_elec h * dt_h
      = HydrogenStore.h2 h1 - HydrogenStore.h2 h /\
    (HydrogenStore.cap h - HydrogenStore.h2 h
       <= Rmin p_kw (HydrogenStore.p_elec_max h) * dt_h * HydrogenStore.eta_elec h ->
     HydrogenStore.h2 h1 = HydrogenStore.cap h /\
     consumed * HydrogenStore.eta_elec h * dt_h
       = HydrogenStore.cap h - HydrogenStore.h2 h).
Proof.
  intros h p_kw dt_h Hdt Heta.
  unfold HydrogenStore.electrolyse. cbv zeta. cbn [fst snd HydrogenStore.h2 HydrogenStore.set_h2].
  set (e_h2 := Rmin p_kw (HydrogenStore.p_elec_max h) * dt_h * HydrogenStore.eta_elec h).
  set (space_left := HydrogenStore.cap h - HydrogenStore.h2 h).
  assert (Hret : Rmin e_h2 space_left / (HydrogenStore.eta_elec h * dt_h)
                 * HydrogenStore.eta_elec h * dt_h = Rmin e_h2 space_left)
    by (field; split; lra).
  split.
  - rewrite Hret. ring.
  - intros Hfull. rewrite Hret, (Rmin_eq_r _ _ Hfull).
    split; [unfold space_left; ring | reflexivity].
Qed.

Lemma electrolyse_returns_power_for_stored_increment_witness :
  let h := HydrogenStore.init scenario_D_params in
  let h1 := fst (HydrogenStore.electrolyse h 10 1) in
  let consumed := snd (HydrogenStore.electrolyse h 10 1) in
  (0 < 1 /\ HydrogenStore.eta_elec h <> 0 /\
   HydrogenStore.cap h - HydrogenStore.h2 h
     <= Rmin 10 (HydrogenStore.p_elec_max h) * 1 * HydrogenStore.eta_elec h) /\
  consumed * HydrogenStore.eta_elec h * 1
    = HydrogenStore.h2 h1 - HydrogenStore.h2 h /\
  HydrogenStore.h2 h1 = HydrogenStore.cap h /\
  consumed * HydrogenStore.eta_elec h * 1
    = HydrogenStore.cap h - HydrogenStore.h2 h.
Proof.
  cbv zeta.
  assert (H1 : 0 < 1) by lra.
  assert (H2 : HydrogenStore.eta_elec (HydrogenStore.init scenario_D_params) <> 0)
    by (simpl; lra).
  assert (H3 : HydrogenStore.cap (HydrogenStore.init scenario_D_params)
               - HydrogenStore.h2 (HydrogenStore.init scenario_D_params)
               <= Rmin 10 (HydrogenStore.p_elec_max (HydrogenStore.init scenario_D_params))
                  * 1 * HydrogenStore.eta_elec (HydrogenStore.init scenario_D_params)).
  { simpl. unfold SystemParameters.post_init. simpl.
    rewrite Rmin_eq_l by lra. lra. }
  destruct (electrolyse_returns_power_for_stored_increment
              (HydrogenStore.init scenario_D_params) 10 1 H1 H2) as [E F].
  split; [split; [exact H1 | split; [exact H2 | exact H3]] |].
  split; [exact E | exact (F H3)].
Defined.

(** C8, as the code behaves.  For every request and every positive time
    step, the waste heat [fuel_cell] returns is the chemical energy
    taken from the tank minus the electrical energy delivered, over the
    time step.  At an efficiency of one it is zero.  At an efficiency
    below one it is non-negative when the request, the power limit and
    the level are non-negative and the efficiency is positive. *)
Theorem fuel_cell_waste_heat :
  forall (h : HydrogenStore.t) (p_kw dt_h : R),
    0 < dt_h ->
    let h1 := fst (HydrogenStore.fuel_cell h p_kw dt_h) in
    let p_ac := fst (snd (HydrogenStore.fuel_cell h p_kw dt_h)) in
    let p_heat := snd (snd (HydrogenStore.fuel_cell h p_kw dt_h)) in
    p_heat = ((HydrogenStore.h2 h - HydrogenStore.h2 h1) - p_ac * dt_h) / dt_h /\
    (HydrogenStore.eta_fc h = 1 -> p_heat = 0) /\
    (0 <= p_kw -> 0 <= HydrogenStore.p_fc_max h -> 0 <= HydrogenStore.h2 h ->
     0 < HydrogenStore.eta_fc h < 1 ->
     0 <= p_heat).
Proof.
  intros h p_kw dt_h Hdt.
  unfold HydrogenStore.fuel_cell. cbv zeta.
  cbn [fst snd HydrogenStore.h2 HydrogenStore.set_h2].
  set (e_need := Rmin p_kw (HydrogenStore.p_fc_max h) * dt_h / HydrogenStore.eta_fc h).
  set (e_av := Rmin e_need (HydrogenStore.h2 h)).
  assert (Eh : (e_av - e_av * HydrogenStore.eta_fc h / dt_h * dt_h) / dt_h
               = e_av * (1 - HydrogenStore.eta_fc h) * / dt_h)
    by (field; lra).
  split; [f_equal; ring | split].
  - intros E1. rewrite Eh, E1. ring.
  - intros Hp Hm Hl [He0 He1].
    assert (He : 0 <= e_av).
    { apply Rmin_nonneg; [| exact Hl].
      apply requested_nonneg; assumption. }
    rewrite Eh.
    apply Rmult_le_pos; [apply Rmult_le_pos; lra |].
    left. apply Rinv_0_lt_compat. exact Hdt.
Qed.

Lemma fuel_cell_waste_heat_witness :
  let h1 := fst (HydrogenStore.fuel_cell default_store 2 1) in
  let p_ac := fst (snd (HydrogenStore.fuel_cell default_store 2 1)) in
  let p_heat := snd (snd (HydrogenStore.fuel_cell default_store 2 1)) in
  (0 < 1 /\ 0 <= 2 /\ 0 <= HydrogenStore.p_fc_max default_store /\
   0 <= HydrogenStore.h2 default_store /\
   0 < HydrogenStore.eta_fc default_store < 1) /\
  p_heat = ((HydrogenStore.h2 default_store - HydrogenStore.h2 h1) - p_ac * 1) / 1 /\
  0 <= p_heat.
Proof.
  cbv zeta.
  assert (H1 : 0 < 1) by lra.
  assert (H2 : 0 <= 2) by lra.
  assert (H3 : 0 <= HydrogenStore.p_fc_max default_store) by (simpl; lra).
  assert (H4 : 0 <= HydrogenStore.h2 default_store)
    by (simpl; unfold SystemParameters.post_init; simpl; lra).
  assert (H5 : 0 < HydrogenStore.eta_fc default_store < 1) by (simpl; lra).
  destruct (fuel_cell_waste_heat default_store 2 1 H1) as (E & _ & N).
  split; [repeat split; try assumption; apply H5 |].
  split; [exact E | exact (N H2 H3 H4 H5)].
Defined.

(** C8, as stated, fails: the waste heat is not non-negative for every
    requested power whenever the efficiency is at most one.  (1) A
    negative request is not refused; on the default store (500 kWh,
    efficiency 0.55) the call [fuel_cell(-5, 1)] "takes" [-5 / 0.55] kWh
    from the tank, delivers -5 kW and returns the waste heat
    [-5 / 0.55 + 5], about -4.09 kW.  (2) At an efficiency of exactly
    one the waste heat is zero over [R]; on binary64 numbers the
    division by the time step and the multiplication back do not always
    cancel, and the lossless store returns a waste heat below zero for a
    non-negative request within the limit and the level. *)
Lemma negative_request_gives_negative_waste_heat :
  (let h1 := fst (HydrogenStore.fuel_cell default_store (-5) 1) in
   let p_ac := fst (snd (HydrogenStore.fuel_cell default_store (-5) 1)) in
   let p_heat := snd (snd (HydrogenStore.fuel_cell default_store (-5) 1)) in
   0 < 1 /\
   0 < HydrogenStore.eta_fc default_store <= 1 /\
   p_ac = -5 /\
   p_heat = -5 / 0.55 + 5 /\
   p_heat < -4 /\
   HydrogenStore.h2 h1 = HydrogenStore.h2 default_store + 5 / 0.55) /\
  (let h := Binary64.lossless_store in
   let p_kw := Binary64.odd_request_kw in
   let dt_h := Binary64.odd_time_step_h in
   let p_heat := snd (snd (Binary64.HydrogenStore.fuel_cell h p_kw dt_h)) in
   PrimFloat.ltb PrimFloat.zero dt_h = true /\
   PrimFloat.leb PrimFloat.zero p_kw = true /\
   PrimFloat.leb p_kw (Binary64.HydrogenStore.p_fc_max h) = true /\
   PrimFloat.leb PrimFloat.zero (Binary64.HydrogenStore.h2 h) = true /\
   PrimFloat.eqb (Binary64.HydrogenStore.eta_fc h) PrimFloat.one = true /\
   PrimFloat.ltb p_heat PrimFloat.zero = true).
Proof.
  split.
  - cbv zeta.
    unfold HydrogenStore.fuel_cell. cbv zeta.
    cbn [fst snd HydrogenStore.h2 HydrogenStore.set_h2].
    assert (Ef : HydrogenStore.eta_fc default_store = 0.55) by reflexivity.
    assert (Em : HydrogenStore.p_fc_max default_store = 10) by reflexivity.
    assert (El : HydrogenStore.h2 default_store = 0.5 * 1000) by reflexivity.
    rewrite Ef, Em, El.
    rewrite (Rmin_eq_l (-5) 10) by lra.
    rewrite (Rmin_eq_l (-5 * 1 / 0.55) (0.5 * 1000)) by lra.
    repeat split; lra.
  - cbv zeta. repeat split; vm_compute; reflexivity.
Qed.

(** ** What [Battery.charge] returns *)

(** The returned power times the time step is the stored increment
    itself: the charge efficiency is applied on the way in and is not
    taken back out. *)
Lemma charge_returns_stored_increment (b : Battery.t) (p dt_h : R) :
  0 < dt_h ->
  snd (Battery.charge b p dt_h) * dt_h
    = Battery.soc (fst (Battery.charge b p dt_h)) - Battery.soc b.
Proof.
  intros Hdt. unfold Battery.charge. cbv zeta.
  cbn [fst snd Battery.soc Battery.set_soc]. field. lra.
Qed.

(** The returned power is never negative and, for a charge efficiency of
    at most one, never above the charge power limit. *)
Lemma charge_return_bounds (b : Battery.t) (p dt_h : R) :
  battery_ok b -> Battery.eta_c b <= 1 -> battery_in_bounds b ->
  0 <= p -> 0 < dt_h ->
  0 <= snd (Battery.charge b p dt_h) <= Battery.p_charge_max b.
Proof.
  intros (Hc & _ & Hm & _) Hc1 [Hlo Hhi] Hp Hdt.
  unfold Battery.charge. cbv zeta. cbn [fst snd].
  pose proof (offered_nonneg _ _ _ _ Hp Hm Hdt Hc) as He.
  pose proof (Rmin_nonneg _ _ Hp Hm) as Hq.
  pose proof (Rmin_r p (Battery.p_charge_max b)) as Hq'.
  set (q := Rmin p (Battery.p_charge_max b)) in *.
  assert (Hle : q * dt_h * Battery.eta_c b <= Battery.p_charge_max b * dt_h).
  { assert (0 <= q * dt_h) by (apply Rmult_le_pos; lra).
    assert (q * dt_h <= Battery.p_charge_max b * dt_h)
      by (apply Rmult_le_compat_r; lra).
    assert (q * dt_h * Battery.eta_c b <= q * dt_h * 1)
      by (apply Rmult_le_compat_l; lra).
    lra. }
  pose proof (Rmin_l (q * dt_h * Battery.eta_c b) (Battery.cap b - Battery.soc b)) as Hl.
  assert (H0 : 0 <= Rmin (q * dt_h * Battery.eta_c b) (Battery.cap b - Battery.soc b))
    by (apply Rmin_nonneg; lra).
  set (e := Rmin (q * dt_h * Battery.eta_c b) (Battery.cap b - Battery.soc b)) in *.
  assert (Hinv : 0 < / dt_h) by (apply Rinv_0_lt_compat; exact Hdt).
  split.
  - apply Rmult_le_pos; lra.
  - apply (Rmult_le_reg_r dt_h); [exact Hdt |].
    replace (e / dt_h * dt_h) with e by (field; lra). lra.
Qed.

(** When neither the power limit nor the headroom clamps, the battery
    stores and returns [p * dt_h * eta_c]. *)
Lemma charge_unclamped (b : Battery.t) (p dt_h : R) :
  p <= Battery.p_charge_max b ->
  p * dt_h * Battery.eta_c b <= Battery.cap b - Battery.soc b ->
  Battery.soc (fst (Battery.charge b p dt_h))
    = Battery.soc b + p * dt_h * Battery.eta_c b /\
  snd (Battery.charge b p dt_h) = p * dt_h * Battery.eta_c b / dt_h.
Proof.
  intros Hp Hroom. unfold Battery.charge. cbv zeta.
  cbn [fst snd Battery.soc Battery.set_soc].
  rewrite (Rmin_eq_l p _ Hp), (Rmin_eq_l _ _ Hroom). split; reflexivity.
Qed.

(** When the offered energy reaches the headroom, the battery ends full
    and returns the headroom over the time step. *)
Lemma charge_filled (b : Battery.t) (p dt_h : R) :
  Battery.cap b - Battery.soc b
    <= Rmin p (Battery.p_charge_max b) * dt_h * Battery.eta_c b ->
  Battery.soc (fst (Battery.charge b p dt_h)) = Battery.cap b /\
  snd (Battery.charge b p dt_h) = (Battery.cap b - Battery.soc b) / dt_h.
Proof.
  intros Hfull. unfold Battery.charge. cbv zeta.
  cbn [fst snd Battery.soc Battery.set_soc].
  rewrite (Rmin_eq_r _ _ Hfull). split; [ring | reflexivity].
Qed.

Lemma electrolyse_unclamped (h : HydrogenStore.t) (p dt_h : R) :
  0 < dt_h -> 0 < HydrogenStore.eta_elec h ->
  p <= HydrogenStore.p_elec_max h ->
  p * dt_h * HydrogenStore.eta_elec h <= HydrogenStore.cap h - HydrogenStore.h2 h ->
  HydrogenStore.h2 (fst (HydrogenStore.electrolyse h p dt_h))
    = HydrogenStore.h2 h + p * dt_h * HydrogenStore.eta_elec h /\
  snd (HydrogenStore.electrolyse h p dt_h) = p.
Proof.
  intros Hdt He Hp Hroom. unfold HydrogenStore.electrolyse. cbv zeta.
  cbn [fst snd HydrogenStore.h2 HydrogenStore.set_h2].
  rewrite (Rmin_eq_l p _ Hp), (Rmin_eq_l _ _ Hroom).
  split; [reflexivity | field; split; lra].
Qed.

Lemma electrolyse_filled (h : HydrogenStore.t) (p dt_h : R) :
  HydrogenStore.cap h - HydrogenStore.h2 h
    <= Rmin p (HydrogenStore.p_elec_max h) * dt_h * HydrogenStore.eta_elec h ->
  HydrogenStore.h2 (fst (HydrogenStore.electrolyse h p dt_h)) = HydrogenStore.cap h /\
  snd (HydrogenStore.electrolyse h p dt_h)
    = (HydrogenStore.cap h - HydrogenStore.h2 h) / (HydrogenStore.eta_elec h * dt_h).
Proof.
  intros Hfull. unfold HydrogenStore.electrolyse. cbv zeta.
  cbn [fst snd HydrogenStore.h2 HydrogenStore.set_h2].
  rewrite (Rmin_eq_r _ _ Hfull). split; [ring | reflexivity].
Qed.

(** C3.  On the default battery (82 kWh at 41 kWh, round-trip efficiency
    0.95, charge limit 20 kW) a request of 10 kW for one hour is clamped
    by nothing: 10 kW are drawn on the AC side and [10 * sqrt 0.95] kWh
    reach storage.  The call returns [10 * sqrt 0.95]: the stored
    increment over the time step, not that increment converted back
    through the charge efficiency, which is 10. *)
Theorem default_charge_returns_storage_side_power :
  let b1 := fst (Battery.charge default_battery 10 1) in
  let returned := snd (Battery.charge default_battery 10 1) in
  let stored := Battery.soc b1 - Battery.soc default_battery in
  stored = 10 * sqrt 0.95 /\
  stored / (Battery.eta_c default_battery * 1) = 10 /\
  returned = 10 * sqrt 0.95 /\
  returned < 10 - 0.25 /\
  returned <> stored / (Battery.eta_c default_battery * 1).
Proof.
  cbv zeta.
  pose proof sqrt_095_bounds as Hs.
  assert (Ec : Battery.eta_c default_battery = sqrt 0.95) by reflexivity.
  assert (Hp : 10 <= Battery.p_charge_max default_battery) by (simpl; lra).
  assert (Hroom : 10 * 1 * Battery.eta_c default_battery
                  <= Battery.cap default_battery - Battery.soc default_battery).
  { rewrite Ec. simpl. lra. }
  destruct (charge_unclamped default_battery 10 1 Hp Hroom) as [E1 E2].
  rewrite E1, E2, Ec.
  set (s := sqrt 0.95) in *.
  assert (Ha : Battery.soc default_battery + 10 * 1 * s
               - Battery.soc default_battery = 10 * s) by ring.
  assert (Hb : (Battery.soc default_battery + 10 * 1 * s
                - Battery.soc default_battery) / (s * 1) = 10)
    by (field; lra).
  assert (Hc : 10 * 1 * s / 1 = 10 * s) by field.
  rewrite Ha in *. rewrite Hb, Hc.
  repeat split; try reflexivity; lra.
Qed.

(** ** Round trip through the battery *)

Lemma charge_discharge_eff_product (params : SystemParameters.t) :
  0 <= SystemParameters.eta_bat_roundtrip params ->
  SystemParameters.charge_eff params * SystemParameters.discharge_eff params
    = SystemParameters.eta_bat_roundtrip params.
Proof.
  intros H. unfold SystemParameters.charge_eff, SystemParameters.discharge_eff.
  apply sqrt_sqrt. exact H.
Qed.

(** C9.  Both battery efficiencies are the square root of the round-trip
    efficiency.  Hence, for the battery as constructed, at whatever
    level it starts: a charge of AC energy [p_kw * dt_h] that neither
    the charge limit nor the headroom clamps, followed by a discharge
    that takes the stored amount out again -- the clamped request is
    the round-trip efficiency times the charged power, or the battery
    started empty and request and limit allow all of it out -- brings
    the battery back to the level it started from and delivers exactly
    the round-trip efficiency times the energy charged: the cycle loses
    the fraction [1 - eta_bat_roundtrip]. *)
Theorem round_trip_cycle :
  forall (params : SystemParameters.t) (p_kw dt_h p2_kw : R),
    let rt := SystemParameters.eta_bat_roundtrip params in
    let lim := SystemParameters.limits params in
    let b0 := Battery.init params in
    let b1 := fst (Battery.charge b0 p_kw dt_h) in
    let b2 := fst (Battery.discharge b1 p2_kw dt_h) in
    let p_out := snd (Battery.discharge b1 p2_kw dt_h) in
    0 < rt -> 0 < dt_h ->
    p_kw <= ComponentLimits.p_bat_charge lim ->
    p_kw * dt_h * SystemParameters.charge_eff params
      <= Battery.cap b0 - Battery.soc b0 ->
    (0 <= Battery.soc b0 /\
     Rmin p2_kw (ComponentLimits.p_bat_discharge lim) = rt * p_kw) \/
    (Battery.soc b0 = 0 /\
     rt * (p_kw * dt_h) <= Rmin p2_kw (ComponentLimits.p_bat_discharge lim) * dt_h) ->
    (SystemParameters.charge_eff params = sqrt rt /\
     SystemParameters.discharge_eff params = sqrt rt /\
     Battery.eta_c b0 = sqrt rt /\ Battery.eta_d b0 = sqrt rt) /\
    Battery.soc b1 = Battery.soc b0 + p_kw * dt_h * sqrt rt /\
    Battery.soc b2 = Battery.soc b0 /\
    p_out * dt_h = rt * (p_kw * dt_h) /\
    p_kw * dt_h - p_out * dt_h = (1 - rt) * (p_kw * dt_h).
Proof.
  intros params p_kw dt_h p2_kw rt lim b0 b1 b2 p_out Hrt Hdt Hlim Hroom Hout.
  pose proof (charge_discharge_eff_product params (Rlt_le _ _ Hrt)) as Hprod.
  assert (Hs : 0 < sqrt rt) by (apply sqrt_lt_R0; exact Hrt).
  assert (Ec : Battery.eta_c b0 = sqrt rt) by reflexivity.
  assert (Ed : Battery.eta_d b0 = sqrt rt) by reflexivity.
  assert (Em : Battery.p_charge_max b0 = ComponentLimits.p_bat_charge lim)
    by reflexivity.
  assert (Edm : Battery.p_discharge_max b0 = ComponentLimits.p_bat_discharge lim)
    by reflexivity.
  unfold SystemParameters.charge_eff, SystemParameters.discharge_eff in *.
  fold rt in Hprod, Hroom.
  set (s := sqrt rt) in *.
  assert (Hroom' : p_kw * dt_h * Battery.eta_c b0 <= Battery.cap b0 - Battery.soc b0)
    by (rewrite Ec; exact Hroom).
  assert (Hlim' : p_kw <= Battery.p_charge_max b0) by (rewrite Em; exact Hlim).
  destruct (charge_unclamped b0 p_kw dt_h Hlim' Hroom') as [E1 _].
  fold b1 in E1. rewrite Ec in E1.
  assert (Ed1 : Battery.eta_d b1 = s) by reflexivity.
  assert (Edm1 : Battery.p_discharge_max b1 = ComponentLimits.p_bat_discharge lim)
    by reflexivity.
  set (m := Rmin p2_kw (ComponentLimits.p_bat_discharge lim)) in *.
  (* the discharge takes [p_kw * dt_h * s] out of storage *)
  assert (Hav : Rmin (m * dt_h / s) (Battery.soc b1) = p_kw * dt_h * s).
  { destruct Hout as [[H0 Hm] | [H0 Hm]].
    - assert (Ereq : m * dt_h / s = p_kw * dt_h * s).
      { rewrite Hm, <- Hprod. field. lra. }
      rewrite Ereq, E1. apply Rmin_eq_l. lra.
    - assert (Hall : Battery.soc b1 <= m * dt_h / s).
      { rewrite E1, H0.
        apply (Rmult_le_reg_r s); [exact Hs |].
        replace (m * dt_h / s * s) with (m * dt_h) by (field; lra).
        replace ((0 + p_kw * dt_h * s) * s) with ((s * s) * (p_kw * dt_h)) by ring.
        rewrite Hprod. exact Hm. }
      rewrite (Rmin_eq_r _ _ Hall), E1, H0. ring. }
  assert (E2 : Battery.soc b2 = Battery.soc b1 - p_kw * dt_h * s).
  { unfold b2, Battery.discharge. cbv zeta.
    cbn [fst Battery.soc Battery.set_soc].
    rewrite Ed1, Edm1. fold m. rewrite Hav. reflexivity. }
  assert (Eo : p_out = p_kw * dt_h * s * s / dt_h).
  { unfold p_out, Battery.discharge. cbv zeta. cbn [snd].
    rewrite Ed1, Edm1. fold m. rewrite Hav. reflexivity. }
  assert (Hp : p_out * dt_h = rt * (p_kw * dt_h)).
  { rewrite Eo, <- Hprod. field. lra. }
  split; [repeat split; reflexivity |].
  split; [exact E1 |].
  split; [rewrite E2, E1; ring |].
  split; [exact Hp | rewrite Hp; ring].
Qed.

Lemma round_trip_cycle_witness :
  let params := default_params in
  let rt := SystemParameters.eta_bat_roundtrip params in
  let lim := SystemParameters.limits params in
  let b0 := Battery.init params in
  let b1 := fst (Battery.charge b0 10 1) in
  let b2 := fst (Battery.discharge b1 9.5 1) in
  let p_out := snd (Battery.discharge b1 9.5 1) in
  (0 < rt /\ 0 < 1 /\
   10 <= ComponentLimits.p_bat_charge lim /\
   10 * 1 * SystemParameters.charge_eff params
     <= Battery.cap b0 - Battery.soc b0 /\
   0 <= Battery.soc b0 /\
   Rmin 9.5 (ComponentLimits.p_bat_discharge lim) = rt * 10) /\
  Battery.soc b0 = 41 /\
  Battery.soc b2 = Battery.soc b0 /\
  p_out * 1 = 0.95 * (10 * 1) /\
  10 * 1 - p_out * 1 = (1 - 0.95) * (10 * 1).
Proof.
  cbv zeta.
  pose proof sqrt_095_bounds as Hs.
  assert (H1 : 0 < SystemParameters.eta_bat_roundtrip default_params)
    by (simpl; lra).
  assert (H2 : 0 < 1) by lra.
  assert (H3 : 10 <= ComponentLimits.p_bat_charge
                       (SystemParameters.limits default_params))
    by (simpl; lra).
  assert (E0 : Battery.soc (Battery.init default_params) = 41)
    by (simpl; lra).
  assert (H4 : 10 * 1 * SystemParameters.charge_eff default_params
               <= Battery.cap (Battery.init default_params)
                  - Battery.soc (Battery.init default_params)).
  { rewrite E0. unfold SystemParameters.charge_eff. simpl. lra. }
  assert (H5 : 0 <= Battery.soc (Battery.init default_params))
    by (rewrite E0; lra).
  assert (H6 : Rmin 9.5 (ComponentLimits.p_bat_discharge
                           (SystemParameters.limits default_params))
               = SystemParameters.eta_bat_roundtrip default_params * 10).
  { simpl. rewrite Rmin_eq_l by lra. lra. }
  destruct (round_trip_cycle default_params 10 1 9.5 H1 H2 H3 H4
              (or_introl (conj H5 H6)))
    as (_ & _ & E2 & Eo & El).
  split; [repeat split; assumption |].
  split; [exact E0 |].
  split; [exact E2 | split; [exact Eo | exact El]].
Defined.

(** ** Scenario D *)

(** In an hour of scenario D both devices end full and the remaining
    0.001 kW, being above [EPS], is exported. *)
Lemma scenario_D_hour (params : SystemParameters.t) (b : Battery.t)
    (h : HydrogenStore.t) (row : Row) :
  scenario_D b h (net_kw params row) ->
  let r := snd (hour params b h row) in
  p_grid_export r = 0.001 /\
  soc_bat r = Battery.cap b /\
  h2_store r = HydrogenStore.cap h.
Proof.
  intros (Hnet & He & Hlvl & Hbat & Htank & Hrem).
  set (net := net_kw params row) in *.
  set (room_b := Battery.cap b - Battery.soc b) in *.
  set (room_h := HydrogenStore.cap h - HydrogenStore.h2 h) in *.
  assert (Hbat1 : room_b <= Rmin net (Battery.p_charge_max b) * 1 * Battery.eta_c b)
    by (rewrite Rmult_1_r; exact Hbat).
  destruct (charge_filled b net 1 Hbat1) as [Eb1 Eb2]. fold room_b in Eb2.
  assert (Hna : net - snd (Battery.charge b net 1) = net - room_b)
    by (rewrite Eb2; field).
  assert (Htank1 : room_h <= Rmin (net - room_b) (HydrogenStore.p_elec_max h) * 1
                             * HydrogenStore.eta_elec h)
    by (rewrite Rmult_1_r; exact Htank).
  destruct (electrolyse_filled h (net - room_b) 1 Htank1) as [Eh1 Eh2].
  fold room_h in Eh2.
  assert (Hq : 0 <= room_h / HydrogenStore.eta_elec h).
  { apply Rmult_le_pos; [unfold room_h; lra |].
    left. apply Rinv_0_lt_compat. exact He. }
  assert (Hfin : net - room_b - snd (HydrogenStore.electrolyse h (net - room_b) 1)
                 = 0.001).
  { rewrite Eh2. rewrite <- Hrem. field. lra. }
  assert (Hs : surplus b h net
               = (fst (Battery.charge b net 1),
                  fst (HydrogenStore.electrolyse h (net - room_b) 1),
                  (snd (Battery.charge b net 1),
                   snd (HydrogenStore.electrolyse h (net - room_b) 1),
                   0.001))).
  { rewrite surplus_eq. cbv zeta. rewrite Hna.
    rewrite (Rgtb_true (net - room_b) 1e-6) by lra.
    rewrite Hfin. rewrite (Rgtb_true 0.001 EPS) by (unfold EPS; lra).
    reflexivity. }
  assert (Hge : net >= 0) by lra.
  destruct (hour_surplus params b h row Hge _ _ _ _ _ Hs)
    as (_ & _ & _ & _ & _ & _ & Ex & _ & _ & Es & Eh).
  cbv zeta. rewrite Ex, Es, Eh, Eb1, Eh1. repeat split; reflexivity.
Qed.

Lemma scenario_D_net : net_kw scenario_D_params scenario_D_row = 9.001.
Proof.
  unfold net_kw, dt. simpl. rewrite Rmax_left by lra. field.
Qed.

Lemma scenario_D_holds :
  scenario_D (Battery.init scenario_D_params)
             (HydrogenStore.init scenario_D_params)
             (net_kw scenario_D_params scenario_D_row).
Proof.
  rewrite scenario_D_net.
  unfold scenario_D. cbv zeta. simpl.
  unfold SystemParameters.charge_eff, SystemParameters.post_init. simpl.
  rewrite sqrt_1.
  replace (9.001 - (10 - 0.5 * 10)) with 4.001 by lra.
  rewrite (Rmin_eq_l 9.001 20) by lra.
  rewrite (Rmin_eq_l 4.001 10) by lra.
  repeat split; lra.
Qed.


(** ** Energy balance of one hour *)

(** No device call returns more than the request. *)
Lemma charge_le_request (b : Battery.t) (p dt_h : R) :
  0 < Battery.eta_c b <= 1 -> 0 <= Battery.p_charge_max b ->
  0 <= p -> 0 < dt_h ->
  snd (Battery.charge b p dt_h) <= p.
Proof.
  intros [Hc Hc1] Hm Hp Hdt. unfold Battery.charge. cbv zeta. cbn [snd].
  pose proof (Rmin_nonneg _ _ Hp Hm) as Hq.
  pose proof (Rmin_l p (Battery.p_charge_max b)) as Hq'.
  set (q := Rmin p (Battery.p_charge_max b)) in *.
  pose proof (Rmin_l (q * dt_h * Battery.eta_c b) (Battery.cap b - Battery.soc b)) as Hl.
  set (e := Rmin (q * dt_h * Battery.eta_c b) (Battery.cap b - Battery.soc b)) in *.
  apply (Rmult_le_reg_r dt_h); [exact Hdt |].
  replace (e / dt_h * dt_h) with e by (field; lra).
  assert (0 <= q * dt_h) by (apply Rmult_le_pos; lra).
  assert (q * dt_h * Battery.eta_c b <= q * dt_h * 1)
    by (apply Rmult_le_compat_l; lra).
  assert (q * dt_h <= p * dt_h) by (apply Rmult_le_compat_r; lra).
  lra.
Qed.

Lemma discharge_le_request (b : Battery.t) (p dt_h : R) :
  0 < Battery.eta_d b -> 0 < dt_h ->
  snd (Battery.discharge b p dt_h) <= p.
Proof.
  intros Hd Hdt. unfold Battery.discharge. cbv zeta. cbn [snd].
  pose proof (Rmin_l p (Battery.p_discharge_max b)) as Hq.
  set (q := Rmin p (Battery.p_discharge_max b)) in *.
  pose proof (Rmin_l (q * dt_h / Battery.eta_d b) (Battery.soc b)) as Hl.
  set (e := Rmin (q * dt_h / Battery.eta_d b) (Battery.soc b)) in *.
  apply (Rmult_le_reg_r dt_h); [exact Hdt |].
  replace (e * Battery.eta_d b / dt_h * dt_h) with (e * Battery.eta_d b)
    by (field; lra).
  assert (e * Battery.eta_d b <= q * dt_h / Battery.eta_d b * Battery.eta_d b)
    by (apply Rmult_le_compat_r; lra).
  replace (q * dt_h / Battery.eta_d b * Battery.eta_d b) with (q * dt_h) in H
    by (field; lra).
  assert (q * dt_h <= p * dt_h) by (apply Rmult_le_compat_r; lra).
  lra.
Qed.

Lemma electrolyse_le_request (h : HydrogenStore.t) (p dt_h : R) :
  0 < HydrogenStore.eta_elec h -> 0 < dt_h ->
  snd (HydrogenStore.electrolyse h p dt_h) <= p.
Proof.
  intros He Hdt. unfold HydrogenStore.electrolyse. cbv zeta. cbn [snd].
  pose proof (Rmin_l p (HydrogenStore.p_elec_max h)) as Hq.
  set (q := Rmin p (HydrogenStore.p_elec_max h)) in *.
  pose proof (Rmin_l (q * dt_h * HydrogenStore.eta_elec h)
                     (HydrogenStore.cap h - HydrogenStore.h2 h)) as Hl.
  set (e := Rmin (q * dt_h * HydrogenStore.eta_elec h)
                 (HydrogenStore.cap h - HydrogenStore.h2 h)) in *.
  assert (Hpos : 0 < HydrogenStore.eta_elec h * dt_h)
    by (apply Rmult_lt_0_compat; assumption).
  apply (Rmult_le_reg_r (HydrogenStore.eta_elec h * dt_h)); [exact Hpos |].
  replace (e / (HydrogenStore.eta_elec h * dt_h) * (HydrogenStore.eta_elec h * dt_h))
    with e by (field; split; lra).
  assert (q * (HydrogenStore.eta_elec h * dt_h) <= p * (HydrogenStore.eta_elec h * dt_h))
    by (apply Rmult_le_compat_r; lra).
  lra.
Qed.

Lemma fuel_cell_le_request (h : HydrogenStore.t) (p dt_h : R) :
  0 < HydrogenStore.eta_fc h -> 0 < dt_h ->
  fst (snd (HydrogenStore.fuel_cell h p dt_h)) <= p.
Proof.
  intros Hf Hdt. unfold HydrogenStore.fuel_cell. cbv zeta. cbn [fst snd].
  pose proof (Rmin_l p (HydrogenStore.p_fc_max h)) as Hq.
  set (q := Rmin p (HydrogenStore.p_fc_max h)) in *.
  pose proof (Rmin_l (q * dt_h / HydrogenStore.eta_fc h) (HydrogenStore.h2 h)) as Hl.
  set (e := Rmin (q * dt_h / HydrogenStore.eta_fc h) (HydrogenStore.h2 h)) in *.
  apply (Rmult_le_reg_r dt_h); [exact Hdt |].
  replace (e * HydrogenStore.eta_fc h / dt_h * dt_h) with (e * HydrogenStore.eta_fc h)
    by (field; lra).
  assert (e * HydrogenStore.eta_fc h
          <= q * dt_h / HydrogenStore.eta_fc h * HydrogenStore.eta_fc h)
    by (apply Rmult_le_compat_r; lra).
  replace (q * dt_h / HydrogenStore.eta_fc h * HydrogenStore.eta_fc h)
    with (q * dt_h) in H by (field; lra).
  assert (q * dt_h <= p * dt_h) by (apply Rmult_le_compat_r; lra).
  lra.
Qed.

(** A residual in [0, EPS] that is reported only when above [EPS]
    differs from its report by at most [EPS]. *)
Lemma reported_residual (x : R) :
  0 <= x -> 0 <= x - (if Rgtb x EPS then x else 0) <= EPS.
Proof.
  intros Hx. destruct (Rgtb_cases x EPS) as [[H E] | [H E]]; rewrite E;
    unfold EPS in *; lra.
Qed.

(** What the surplus branch leaves after the powers it logs is between
    zero and [EPS]; likewise for the deficit branch. *)
Lemma surplus_residual (b : Battery.t) (h : HydrogenStore.t) (net : R) :
  0 < Battery.eta_c b <= 1 -> 0 <= Battery.p_charge_max b ->
  0 < HydrogenStore.eta_elec h -> net >= 0 ->
  forall b1 h1 c e x,
    surplus b h net = (b1, h1, (c, e, x)) ->
    0 <= net - c - e - x <= EPS.
Proof.
  intros Hc Hcm He Hnet b1 h1 c e x Hs.
  assert (H1 : 0 < 1) by lra.
  rewrite surplus_eq in Hs. cbv zeta in Hs.
  assert (Hle : snd (Battery.charge b net 1) <= net)
    by (apply charge_le_request; try assumption; lra).
  remember (snd (Battery.charge b net 1)) as c0 eqn:Ec0.
  pose proof (electrolyse_le_request h (net - c0) 1 He H1) as Hle2.
  remember (snd (HydrogenStore.electrolyse h (net - c0) 1)) as e0 eqn:Ee0.
  destruct (Rgtb_cases (net - c0) 1e-6) as [[Hna E] | [Hna E]]; rewrite E in Hs.
  - assert (Hfin : 0 <= net - c0 - e0) by lra.
    pose proof (reported_residual _ Hfin) as Hr.
    injection Hs as _ _ Hc' He' Hx'. subst c e x. lra.
  - assert (Hfin : 0 <= net - c0) by lra.
    pose proof (reported_residual _ Hfin) as Hr.
    injection Hs as _ _ Hc' He' Hx'. subst c e x. lra.
Qed.

Lemma deficit_residual (b : Battery.t) (h : HydrogenStore.t) (net : R) :
  0 < Battery.eta_d b -> 0 < HydrogenStore.eta_fc h ->
  forall b1 h1 d f w i,
    deficit b h net = (b1, h1, (d, f, w, i)) ->
    0 <= - net - d - f - i <= EPS.
Proof.
  intros Hd Hf b1 h1 d f w i Hs.
  assert (H1 : 0 < 1) by lra.
  rewrite deficit_eq in Hs. cbv zeta in Hs.
  pose proof (discharge_le_request b (- net) 1 Hd H1) as Hle.
  remember (snd (Battery.discharge b (- net) 1)) as d0 eqn:Ed0.
  pose proof (fuel_cell_le_request h (- net - d0) 1 Hf H1) as Hle2.
  remember (HydrogenStore.fuel_cell h (- net - d0) 1) as fc eqn:Efc.
  destruct fc as [h2' [f0 w0]]. cbn [fst snd] in Hs, Hle2.
  destruct (andb (Rgtb (- net - d0) EPS) (Rgtb (HydrogenStore.h2 h) EPS)).
  - assert (Hfin : 0 <= - net - d0 - f0) by lra.
    pose proof (reported_residual _ Hfin) as Hr.
    injection Hs as _ _ Hd' Hf' _ Hi'. subst d f i. lra.
  - assert (Hfin : 0 <= - net - d0) by lra.
    pose proof (reported_residual _ Hfin) as Hr.
    injection Hs as _ _ Hd' Hf' _ Hi'. subst d f i. lra.
Qed.

(** The logged columns themselves balance within [EPS] in every hour:
    the loop subtracts from the surplus (deficit) exactly the powers it
    logs, and zeroes a final residual of at most [EPS]. *)
Lemma hour_logged_conserved (params : SystemParameters.t) (b : Battery.t)
    (h : HydrogenStore.t) (row : Row) :
  battery_ok b -> Battery.eta_c b <= 1 -> store_ok h ->
  logged_conserved (snd (hour params b h row)).
Proof.
  intros (Hc & Hd & Hcm & Hdm) Hc1 (He & Hf & Hem & Hfm).
  unfold logged_conserved, imbalance.
  destruct (Rge_dec (net_kw params row) 0) as [Hnet | Hnet].
  - destruct (surplus b h (net_kw params row)) as [[b1 h1] [[c e] x]] eqn:Hs.
    destruct (hour_surplus params b h row Hnet _ _ _ _ _ Hs)
      as (_ & En & Ec & Ed & Ee & Ef & Ex & Ei & _).
    rewrite Ec, Ed, Ee, Ef, Ex, Ei.
    pose proof (surplus_residual b h (net_kw params row) (conj Hc Hc1) Hcm He
                  Hnet _ _ _ _ _ Hs) as Hr.
    apply Rabs_le. lra.
  - assert (Hneg : net_kw params row < 0) by lra.
    destruct (deficit b h (net_kw params row)) as [[b1 h1] [[[d f] w] i]] eqn:Hs.
    destruct (hour_deficit params b h row Hneg _ _ _ _ _ _ Hs)
      as (_ & En & Ec & Ed & Ee & Ef & Ex & Ei & _).
    rewrite Ec, Ed, Ee, Ef, Ex, Ei.
    pose proof (deficit_residual b h (net_kw params row) Hd Hf
                  _ _ _ _ _ _ Hs) as Hr.
    apply Rabs_le. lra.
Qed.

(** With the charger counted on the AC side, the imbalance of an hour is
    the imbalance of the logged columns minus the charging loss. *)
Lemma imbalance_charging_loss (eta_c : R) (r : LogRecord) :
  eta_c <> 0 ->
  imbalance (charge_ac_draw eta_c r) r
    = imbalance (p_bat_charge r) r - p_bat_charge r * (1 - eta_c) / eta_c.
Proof.
  intros H. unfold imbalance, charge_ac_draw. field. exact H.
Qed.

(** In a deficit hour nothing is charged, and the AC balance closes. *)
Lemma deficit_hour_conserved (params : SystemParameters.t) (b : Battery.t)
    (h : HydrogenStore.t) (row : Row) :
  battery_ok b -> Battery.eta_c b <= 1 -> store_ok h ->
  net_kw params row < 0 ->
  conserved (Battery.eta_c b) (snd (hour params b h row)).
Proof.
  intros Hb Hc1 Hh Hneg.
  pose proof (hour_logged_conserved params b h row Hb Hc1 Hh) as Hl.
  destruct (deficit b h (net_kw params row)) as [[b1 h1] [[[d f] w] i]] eqn:Hs.
  destruct (hour_deficit params b h row Hneg _ _ _ _ _ _ Hs)
    as (_ & _ & Ec & _).
  unfold conserved, logged_conserved in *.
  destruct Hb as (Hc & _).
  rewrite imbalance_charging_loss by lra.
  rewrite Ec in *.
  replace (0 * (1 - Battery.eta_c b) / Battery.eta_c b) with 0 by (field; lra).
  rewrite Rminus_0_r. exact Hl.
Qed.

Lemma surplus_row_net : net_kw default_params surplus_row = 10.
Proof.
  unfold net_kw, dt. simpl. rewrite Rmax_left by lra. lra.
Qed.

(** C1.  With every default and the devices as constructed, an hour with
    50 kW of PV and 33 kW of load has a surplus of 10 kW.  The battery
    draws the whole 10 kW and stores [10 * sqrt 0.95] kWh; the loop
    subtracts the stored amount, hands the difference (the charging
    loss, above 0.25 kW) to the electrolyser and exports nothing.  With
    the charger counted by its AC draw of 10 kW, the sinks exceed the
    sources by more than 0.25 kW, far above [EPS]. *)
Theorem default_surplus_hour_is_not_conserved :
  let r := snd (hour default_params default_battery default_store surplus_row) in
  let ac_charge := charge_ac_draw (Battery.eta_c default_battery) r in
  pv_ac r - load r = 10 /\
  p_bat_charge r = 10 * sqrt 0.95 /\
  ac_charge = 10 /\
  p_elec r = 10 - 10 * sqrt 0.95 /\
  p_grid_export r = 0 /\ p_grid_import r = 0 /\
  p_bat_discharge r = 0 /\ p_fc r = 0 /\
  imbalance ac_charge r < - 0.25 /\
  ~ conserved (Battery.eta_c default_battery) r.
Proof.
  cbv zeta.
  pose proof sqrt_095_bounds as Hb.
  assert (Ec : Battery.eta_c default_battery = sqrt 0.95) by reflexivity.
  set (s := sqrt 0.95) in *.
  assert (Hnet : net_kw default_params surplus_row >= 0)
    by (rewrite surplus_row_net; lra).
  (* the battery call *)
  assert (Hp : 10 <= Battery.p_charge_max default_battery) by (simpl; lra).
  assert (Hroom : 10 * 1 * Battery.eta_c default_battery
                  <= Battery.cap default_battery - Battery.soc default_battery)
    by (rewrite Ec; simpl; lra).
  destruct (charge_unclamped default_battery 10 1 Hp Hroom) as [_ Ech].
  rewrite Ec in Ech.
  assert (Ech' : snd (Battery.charge default_battery 10 1) = 10 * s)
    by (rewrite Ech; field).
  (* the electrolyser call *)
  assert (H1 : 0 < 1) by lra.
  assert (He : 0 < HydrogenStore.eta_elec default_store) by (simpl; lra).
  assert (Hq : 10 - 10 * s <= HydrogenStore.p_elec_max default_store)
    by (simpl; lra).
  assert (Hroom2 : (10 - 10 * s) * 1 * HydrogenStore.eta_elec default_store
                   <= HydrogenStore.cap default_store - HydrogenStore.h2 default_store).
  { simpl. unfold SystemParameters.post_init. simpl. lra. }
  destruct (electrolyse_unclamped default_store (10 - 10 * s) 1 H1 He Hq Hroom2)
    as [_ Eel].
  (* the branch *)
  assert (Hs : surplus default_battery default_store
                 (net_kw default_params surplus_row)
               = (fst (Battery.charge default_battery 10 1),
                  fst (HydrogenStore.electrolyse default_store (10 - 10 * s) 1),
                  (10 * s, 10 - 10 * s, 0))).
  { rewrite surplus_row_net, surplus_eq. cbv zeta. rewrite Ech'.
    rewrite (Rgtb_true (10 - 10 * s) 1e-6) by lra.
    rewrite Eel.
    rewrite (Rgtb_false (10 - 10 * s - (10 - 10 * s)) EPS) by (unfold EPS; lra).
    reflexivity. }
  destruct (hour_surplus default_params default_battery default_store
              surplus_row Hnet _ _ _ _ _ Hs)
    as (_ & En & Ech2 & Ed & Ee & Ef & Ex & Ei & _).
  rewrite surplus_row_net in En.
  assert (Eac : charge_ac_draw (Battery.eta_c default_battery)
                  (snd (hour default_params default_battery default_store surplus_row))
                = 10).
  { unfold charge_ac_draw. rewrite Ech2, Ec. field. lra. }
  assert (Eim : imbalance
                  (charge_ac_draw (Battery.eta_c default_battery)
                     (snd (hour default_params default_battery default_store surplus_row)))
                  (snd (hour default_params default_battery default_store surplus_row))
                = - (10 - 10 * s)).
  { rewrite Eac. unfold imbalance. rewrite Ei, Ed, Ef, Ex, Ee. lra. }
  split; [exact En |].
  split; [exact Ech2 |].
  split; [exact Eac |].
  split; [exact Ee |].
  split; [exact Ex |].
  split; [exact Ei |].
  split; [exact Ed |].
  split; [exact Ef |].
  split; [rewrite Eim; lra |].
  unfold conserved. rewrite Eim. intros Habs.
  rewrite Rabs_left1 in Habs by lra. unfold EPS in Habs. lra.
Qed.

(** ** Construction of the configuration *)

(** C4, as the code behaves.  The constructor validates nothing: for
    every combination of arguments, also with non-positive
    efficiencies, negative capacities or limits and out-of-range
    initial states, it returns an object; each value is stored exactly
    as given (nothing is clamped), a missing [h2_init_kwh] alone being
    replaced by half the tank capacity; and the devices built from the
    object start at [soc_bat_init * battery_capacity_kwh] and at the
    stored [h2_init_kwh], unclamped. *)
Theorem construction_stores_arguments_unchecked :
  forall a : SystemParameters.args,
    exists params : SystemParameters.t,
      SystemParameters.new a = SystemParameters.Constructed params /\
      SystemParameters.eta_inv params = SystemParameters.arg_eta_inv a /\
      SystemParameters.eta_bat_roundtrip params
        = SystemParameters.arg_eta_bat_roundtrip a /\
      SystemParameters.eta_electrolyser params
        = SystemParameters.arg_eta_electrolyser a /\
      SystemParameters.eta_fuel_cell params = SystemParameters.arg_eta_fuel_cell a /\
      SystemParameters.battery_capacity_kwh params
        = SystemParameters.arg_battery_capacity_kwh a /\
      SystemParameters.h2_capacity_kwh params
        = SystemParameters.arg_h2_capacity_kwh a /\
      SystemParameters.soc_bat_init params = SystemParameters.arg_soc_bat_init a /\
      SystemParameters.h2_init_kwh params = given_h2_init a /\
      SystemParameters.limits params = SystemParameters.arg_limits a /\
      Battery.soc (Battery.init params)
        = SystemParameters.arg_soc_bat_init a
          * SystemParameters.arg_battery_capacity_kwh a /\
      HydrogenStore.h2 (HydrogenStore.init params) = given_h2_init a.
Proof.
  intros a. exists (SystemParameters.init a).
  split; [reflexivity |].
  unfold given_h2_init. cbn.
  unfold SystemParameters.post_init.
  destruct (SystemParameters.arg_h2_init_kwh a); repeat split; reflexivity.
Qed.

(** C4, as stated, fails: a negative inverter efficiency, a negative
    battery capacity and an initial state of charge of 150 % are each a
    configuration error, and each is accepted and stored. *)
Lemma bad_configurations_are_constructed :
  (bad_config (with_eta_inv (-1)) /\
   SystemParameters.new (with_eta_inv (-1)) <> SystemParameters.Raised /\
   SystemParameters.eta_inv (SystemParameters.init (with_eta_inv (-1))) = -1) /\
  (bad_config (with_battery_capacity (-82)) /\
   SystemParameters.new (with_battery_capacity (-82)) <> SystemParameters.Raised /\
   SystemParameters.battery_capacity_kwh
     (SystemParameters.init (with_battery_capacity (-82))) = -82) /\
  (bad_config (with_soc_bat_init 1.5) /\
   SystemParameters.new (with_soc_bat_init 1.5) <> SystemParameters.Raised /\
   Battery.soc (Battery.init (SystemParameters.init (with_soc_bat_init 1.5)))
     = 1.5 * 82).
Proof.
  split; [| split].
  - split; [| split].
    + unfold bad_config. cbn. left. lra.
    + discriminate.
    + reflexivity.
  - split; [| split].
    + unfold bad_config. cbn. do 4 right. left. lra.
    + discriminate.
    + reflexivity.
  - split; [| split].
    + unfold bad_config. cbn. do 10 right. left. lra.
    + discriminate.
    + reflexivity.
Qed.

(** ** An hour in which the fuel cell runs *)

(** When the stored energy covers the clamped request, the battery
    delivers the clamped request. *)
Lemma discharge_delivers_request (b : Battery.t) (p dt_h : R) :
  0 < Battery.eta_d b -> 0 < dt_h ->
  Rmin p (Battery.p_discharge_max b) * dt_h / Battery.eta_d b <= Battery.soc b ->
  snd (Battery.discharge b p dt_h) = Rmin p (Battery.p_discharge_max b).
Proof.
  intros Hd Hdt Hsoc. unfold Battery.discharge. cbv zeta. cbn [snd].
  rewrite (Rmin_eq_l _ _ Hsoc). field. split; lra.
Qed.

(** When the tank covers the clamped request, the fuel cell delivers the
    clamped request and reports the conversion loss as heat. *)
Lemma fuel_cell_delivers_request (h : HydrogenStore.t) (p dt_h : R) :
  0 < HydrogenStore.eta_fc h -> 0 < dt_h ->
  Rmin p (HydrogenStore.p_fc_max h) * dt_h / HydrogenStore.eta_fc h
    <= HydrogenStore.h2 h ->
  fst (snd (HydrogenStore.fuel_cell h p dt_h)) = Rmin p (HydrogenStore.p_fc_max h) /\
  snd (snd (HydrogenStore.fuel_cell h p dt_h))
    = Rmin p (HydrogenStore.p_fc_max h) * (1 - HydrogenStore.eta_fc h)
      / HydrogenStore.eta_fc h.
Proof.
  intros Hf Hdt Hlvl. unfold HydrogenStore.fuel_cell. cbv zeta. cbn [fst snd].
  rewrite (Rmin_eq_l _ _ Hlvl). split; field; split; lra.
Qed.

Lemma deficit_row_net : net_kw default_params deficit_row = - 31.
Proof.
  unfold net_kw, dt. simpl. rewrite Rmax_left by lra. lra.
Qed.

(** With every default, a dark hour with a 31 kW deficit takes 20 kW
    from the battery and 10 kW from the fuel cell and imports 1 kW.  The
    fuel cell reports more than 8 kW of waste heat, and the heat-pump
    column still carries the whole demand of 3 kWh. *)
Lemma fuel_cell_hour_heat_columns :
  let r := snd (hour default_params default_battery default_store deficit_row) in
  p_bat_discharge r = 20 /\ p_fc r = 10 /\ p_grid_import r = 1 /\
  heat_from_fc r > 8 /\
  heat_pump_heat r = 3 /\ heat_total_demand r = 3.
Proof.
  cbv zeta.
  pose proof sqrt_095_bounds as Hb.
  assert (Ed : Battery.eta_d default_battery = sqrt 0.95) by reflexivity.
  set (s := sqrt 0.95) in *.
  assert (H1 : 0 < 1) by lra.
  assert (Hneg : net_kw default_params deficit_row < 0)
    by (rewrite deficit_row_net; lra).
  (* the battery call *)
  assert (Hd : 0 < Battery.eta_d default_battery) by (rewrite Ed; lra).
  assert (Hq : Rmin (- - 31) (Battery.p_discharge_max default_battery) = 20)
    by (simpl; apply Rmin_eq_r; lra).
  assert (Hsoc : Rmin (- - 31) (Battery.p_discharge_max default_battery) * 1
                 / Battery.eta_d default_battery <= Battery.soc default_battery).
  { rewrite Hq, Ed. simpl.
    apply (Rmult_le_reg_r s); [lra |].
    replace (20 * 1 / s * s) with 20 by (field; lra). lra. }
  pose proof (discharge_delivers_request default_battery (- - 31) 1 Hd H1 Hsoc) as Edis.
  rewrite Hq in Edis.
  (* the fuel-cell call *)
  assert (Hf : 0 < HydrogenStore.eta_fc default_store) by (simpl; lra).
  assert (Hq2 : Rmin (- - 31 - 20) (HydrogenStore.p_fc_max default_store) = 10)
    by (simpl; apply Rmin_eq_r; lra).
  assert (Hlvl : Rmin (- - 31 - 20) (HydrogenStore.p_fc_max default_store) * 1
                 / HydrogenStore.eta_fc default_store
                 <= HydrogenStore.h2 default_store).
  { rewrite Hq2. simpl. unfold SystemParameters.post_init. simpl. lra. }
  destruct (fuel_cell_delivers_request default_store (- - 31 - 20) 1 Hf H1 Hlvl)
    as [Eac Eheat].
  rewrite Hq2 in Eac, Eheat.
  (* the branch *)
  assert (Hs : deficit default_battery default_store
                 (net_kw default_params deficit_row)
               = (fst (Battery.discharge default_battery (- - 31) 1),
                  fst (HydrogenStore.fuel_cell default_store (- - 31 - 20) 1),
                  (20, 10,
                   10 * (1 - HydrogenStore.eta_fc default_store)
                   / HydrogenStore.eta_fc default_store,
                   - - 31 - 20 - 10))).
  { rewrite deficit_row_net, deficit_eq. cbv zeta. rewrite Edis.
    rewrite (Rgtb_true (- - 31 - 20) EPS) by (unfold EPS; lra).
    rewrite (Rgtb_true (HydrogenStore.h2 default_store) EPS)
      by (simpl; unfold SystemParameters.post_init, EPS; simpl; lra).
    cbn [andb]. rewrite Eac, Eheat.
    rewrite (Rgtb_true (- - 31 - 20 - 10) EPS) by (unfold EPS; lra).
    reflexivity. }
  destruct (hour_deficit default_params default_battery default_store
              deficit_row Hneg _ _ _ _ _ _ Hs)
    as (_ & _ & _ & Ed' & _ & Ef & _ & Ei & Ew & _).
  destruct (hour_heat default_params default_battery default_store deficit_row)
    as [Eh1 Eh2].
  rewrite Ed', Ef, Ei, Ew, Eh1, Eh2. unfold dt. simpl.
  repeat split; lra.
Qed.

(** * Further properties of the devices *)

(** ** What the calls return and how they move the levels *)

(** X1.  [Battery.charge] reports the storage side: for a positive time
    step the returned power times the time step is exactly the increase
    of the state of charge.  On a well-formed battery within bounds and
    for a non-negative request, the level does not drop, and the
    returned power lies between zero and the charge efficiency times the
    clamped request. *)
Theorem charge_accounting :
  forall (b : Battery.t) (p dt_h : R),
    0 < dt_h ->
    let b1 := fst (Battery.charge b p dt_h) in
    let returned := snd (Battery.charge b p dt_h) in
    returned * dt_h = Battery.soc b1 - Battery.soc b /\
    (battery_ok b -> battery_in_bounds b -> 0 <= p ->
     Battery.soc b <= Battery.soc b1 /\
     0 <= returned <= Battery.eta_c b * Rmin p (Battery.p_charge_max b)).
Proof.
  intros b p dt_h Hdt. cbv zeta. split.
  - apply charge_returns_stored_increment. exact Hdt.
  - intros (Hc & _ & Hm & _) [Hlo Hhi] Hp.
    unfold Battery.charge. cbv zeta. cbn [fst snd Battery.soc Battery.set_soc].
    pose proof (offered_nonneg _ _ _ _ Hp Hm Hdt Hc) as He.
    set (q := Rmin p (Battery.p_charge_max b)) in *.
    pose proof (Rmin_l (q * dt_h * Battery.eta_c b) (Battery.cap b - Battery.soc b)) as Hl.
    assert (H0 : 0 <= Rmin (q * dt_h * Battery.eta_c b) (Battery.cap b - Battery.soc b))
      by (apply Rmin_nonneg; lra).
    set (e := Rmin (q * dt_h * Battery.eta_c b) (Battery.cap b - Battery.soc b)) in *.
    assert (Hinv : 0 < / dt_h) by (apply Rinv_0_lt_compat; exact Hdt).
    split; [lra | split].
    + apply Rmult_le_pos; lra.
    + apply (Rmult_le_reg_r dt_h); [exact Hdt |].
      replace (e / dt_h * dt_h) with e by (field; lra). lra.
Qed.

Lemma charge_accounting_witness :
  let b1 := fst (Battery.charge default_battery 10 1) in
  let returned := snd (Battery.charge default_battery 10 1) in
  (0 < 1 /\ battery_ok default_battery /\ battery_in_bounds default_battery /\
   0 <= 10) /\
  returned * 1 = Battery.soc b1 - Battery.soc default_battery /\
  Battery.soc default_battery <= Battery.soc b1 /\
  0 <= returned
    <= Battery.eta_c default_battery * Rmin 10 (Battery.p_charge_max default_battery).
Proof.
  cbv zeta.
  assert (H1 : 0 < 1) by lra.
  assert (H2 : 0 <= 10) by lra.
  destruct (charge_accounting default_battery 10 1 H1) as [E B].
  split.
  - split; [exact H1 | split; [exact default_battery_ok |]].
    split; [exact (proj1 default_in_bounds) | exact H2].
  - split; [exact E |].
    exact (B default_battery_ok (proj1 default_in_bounds) H2).
Defined.

(** X2.  [Battery.discharge] reports the AC side: for a positive time
    step and discharge efficiency, the returned power times the time
    step is the discharge efficiency times the energy taken out of
    storage.  On a battery within bounds with a non-negative power
    limit and for a non-negative request, the level does not rise and
    the returned power lies between zero and the clamped request. *)
Theorem discharge_accounting :
  forall (b : Battery.t) (p dt_h : R),
    0 < dt_h -> 0 < Battery.eta_d b ->
    let b1 := fst (Battery.discharge b p dt_h) in
    let returned := snd (Battery.discharge b p dt_h) in
    returned * dt_h = Battery.eta_d b * (Battery.soc b - Battery.soc b1) /\
    (battery_in_bounds b -> 0 <= Battery.p_discharge_max b -> 0 <= p ->
     Battery.soc b1 <= Battery.soc b /\
     0 <= returned <= Rmin p (Battery.p_discharge_max b)).
Proof.
  intros b p dt_h Hdt Hd. cbv zeta.
  unfold Battery.discharge. cbv zeta. cbn [fst snd Battery.soc Battery.set_soc].
  set (q := Rmin p (Battery.p_discharge_max b)).
  pose proof (Rmin_l (q * dt_h / Battery.eta_d b) (Battery.soc b)) as Hl.
  set (e := Rmin (q * dt_h / Battery.eta_d b) (Battery.soc b)) in *.
  split.
  - field. lra.
  - intros [Hlo Hhi] Hm Hp.
    assert (Hreq : 0 <= q * dt_h / Battery.eta_d b)
      by (apply requested_nonneg; assumption).
    assert (H0 : 0 <= e) by (apply Rmin_nonneg; lra).
    split; [lra | split].
    + apply Rmult_le_pos; [apply Rmult_le_pos; lra |].
      left. apply Rinv_0_lt_compat. exact Hdt.
    + apply (Rmult_le_reg_r dt_h); [exact Hdt |].
      replace (e * Battery.eta_d b / dt_h * dt_h) with (e * Battery.eta_d b)
        by (field; lra).
      assert (e * Battery.eta_d b
              <= q * dt_h / Battery.eta_d b * Battery.eta_d b)
        by (apply Rmult_le_compat_r; lra).
      replace (q * dt_h / Battery.eta_d b * Battery.eta_d b) with (q * dt_h) in H
        by (field; lra).
      exact H.
Qed.

Lemma discharge_accounting_witness :
  let b1 := fst (Battery.discharge default_battery 5 1) in
  let returned := snd (Battery.discharge default_battery 5 1) in
  (0 < 1 /\ 0 < Battery.eta_d default_battery /\
   battery_in_bounds default_battery /\
   0 <= Battery.p_discharge_max default_battery /\ 0 <= 5) /\
  returned * 1
    = Battery.eta_d default_battery * (Battery.soc default_battery - Battery.soc b1) /\
  Battery.soc b1 <= Battery.soc default_battery /\
  0 <= returned <= Rmin 5 (Battery.p_discharge_max default_battery).
Proof.
  cbv zeta.
  assert (H1 : 0 < 1) by lra.
  assert (H2 : 0 < Battery.eta_d default_battery)
    by exact (proj1 (proj2 default_battery_ok)).
  assert (H3 : 0 <= Battery.p_discharge_max default_battery)
    by exact (proj2 (proj2 (proj2 default_battery_ok))).
  assert (H4 : 0 <= 5) by lra.
  destruct (discharge_accounting default_battery 5 1 H1 H2) as [E B].
  split.
  - split; [exact H1 | split; [exact H2 |]].
    split; [exact (proj1 default_in_bounds) | split; [exact H3 | exact H4]].
  - split; [exact E |].
    exact (B (proj1 default_in_bounds) H3 H4).
Defined.

(** X3.  [HydrogenStore.electrolyse] never reports more than it was
    asked or allowed to draw: on a tank within bounds, for positive
    efficiency and time step, a non-negative power limit and a
    non-negative request, the returned power lies between zero and the
    clamped request, and the tank level does not drop. *)
Theorem electrolyse_return_bounds :
  forall (h : HydrogenStore.t) (p dt_h : R),
    0 < dt_h -> 0 < HydrogenStore.eta_elec h ->
    store_in_bounds h -> 0 <= HydrogenStore.p_elec_max h -> 0 <= p ->
    let h1 := fst (HydrogenStore.electrolyse h p dt_h) in
    let consumed := snd (HydrogenStore.electrolyse h p dt_h) in
    HydrogenStore.h2 h <= HydrogenStore.h2 h1 /\
    0 <= consumed <= Rmin p (HydrogenStore.p_elec_max h).
Proof.
  intros h p dt_h Hdt He [Hlo Hhi] Hm Hp. cbv zeta.
  unfold HydrogenStore.electrolyse. cbv zeta.
  cbn [fst snd HydrogenStore.h2 HydrogenStore.set_h2].
  pose proof (offered_nonneg _ _ _ _ Hp Hm Hdt He) as Hoff.
  set (q := Rmin p (HydrogenStore.p_elec_max h)) in *.
  pose proof (Rmin_l (q * dt_h * HydrogenStore.eta_elec h)
                     (HydrogenStore.cap h - HydrogenStore.h2 h)) as Hl.
  assert (H0 : 0 <= Rmin (q * dt_h * HydrogenStore.eta_elec h)
                         (HydrogenStore.cap h - HydrogenStore.h2 h))
    by (apply Rmin_nonneg; lra).
  set (e := Rmin (q * dt_h * HydrogenStore.eta_elec h)
                 (HydrogenStore.cap h - HydrogenStore.h2 h)) in *.
  assert (Hpos : 0 < HydrogenStore.eta_elec h * dt_h)
    by (apply Rmult_lt_0_compat; assumption).
  split; [lra | split].
  - apply Rmult_le_pos; [exact H0 |].
    left. apply Rinv_0_lt_compat. exact Hpos.
  - apply (Rmult_le_reg_r (HydrogenStore.eta_elec h * dt_h)); [exact Hpos |].
    replace (e / (HydrogenStore.eta_elec h * dt_h) * (HydrogenStore.eta_elec h * dt_h))
      with e by (field; split; lra).
    lra.
Qed.

Lemma electrolyse_return_bounds_witness :
  let h1 := fst (HydrogenStore.electrolyse default_store 3 1) in
  let consumed := snd (HydrogenStore.electrolyse default_store 3 1) in
  (0 < 1 /\ 0 < HydrogenStore.eta_elec default_store /\
   store_in_bounds default_store /\
   0 <= HydrogenStore.p_elec_max default_store /\ 0 <= 3) /\
  HydrogenStore.h2 default_store <= HydrogenStore.h2 h1 /\
  0 <= consumed <= Rmin 3 (HydrogenStore.p_elec_max default_store).
Proof.
  cbv zeta.
  assert (H1 : 0 < 1) by lra.
  assert (H2 : 0 < HydrogenStore.eta_elec default_store)
    by exact (proj1 default_store_ok).
  assert (H3 : 0 <= HydrogenStore.p_elec_max default_store)
    by exact (proj1 (proj2 (proj2 default_store_ok))).
  assert (H4 : 0 <= 3) by lra.
  split.
  - split; [exact H1 | split; [exact H2 |]].
    split; [exact (proj2 default_in_bounds) | split; [exact H3 | exact H4]].
  - exact (electrolyse_return_bounds default_store 3 1 H1 H2
             (proj2 default_in_bounds) H3 H4).
Defined.

(** X4.  [HydrogenStore.fuel_cell] delivers the fuel-cell efficiency
    times the chemical energy it takes from the tank, and reports as
    heat the delivered power times [(1 - eta_fc) / eta_fc].  On a tank
    within bounds with a non-negative power limit and request, the
    delivered power lies between zero and the clamped request and the
    tank level does not rise. *)
Theorem fuel_cell_delivery :
  forall (h : HydrogenStore.t) (p dt_h : R),
    0 < dt_h -> 0 < HydrogenStore.eta_fc h ->
    let h1 := fst (HydrogenStore.fuel_cell h p dt_h) in
    let p_ac := fst (snd (HydrogenStore.fuel_cell h p dt_h)) in
    let p_heat := snd (snd (HydrogenStore.fuel_cell h p dt_h)) in
    p_ac * dt_h = HydrogenStore.eta_fc h * (HydrogenStore.h2 h - HydrogenStore.h2 h1) /\
    p_heat = p_ac * (1 - HydrogenStore.eta_fc h) / HydrogenStore.eta_fc h /\
    (store_in_bounds h -> 0 <= HydrogenStore.p_fc_max h -> 0 <= p ->
     HydrogenStore.h2 h1 <= HydrogenStore.h2 h /\
     0 <= p_ac <= Rmin p (HydrogenStore.p_fc_max h)).
Proof.
  intros h p dt_h Hdt Hf. cbv zeta.
  pose proof (fuel_cell_le_request h p dt_h Hf Hdt) as Hle0.
  unfold HydrogenStore.fuel_cell in *. cbv zeta in *.
  cbn [fst snd HydrogenStore.h2 HydrogenStore.set_h2] in *.
  set (q := Rmin p (HydrogenStore.p_fc_max h)) in *.
  pose proof (Rmin_l (q * dt_h / HydrogenStore.eta_fc h) (HydrogenStore.h2 h)) as Hl.
  set (e := Rmin (q * dt_h / HydrogenStore.eta_fc h) (HydrogenStore.h2 h)) in *.
  split; [field; lra | split; [field; split; lra |]].
  intros [Hlo Hhi] Hm Hp.
  assert (Hreq : 0 <= q * dt_h / HydrogenStore.eta_fc h)
    by (apply requested_nonneg; assumption).
  assert (H0 : 0 <= e) by (apply Rmin_nonneg; lra).
  split; [lra | split].
  - apply Rmult_le_pos; [apply Rmult_le_pos; lra |].
    left. apply Rinv_0_lt_compat. exact Hdt.
  - apply (Rmult_le_reg_r dt_h); [exact Hdt |].
    replace (e * HydrogenStore.eta_fc h / dt_h * dt_h) with (e * HydrogenStore.eta_fc h)
      by (field; lra).
    assert (e * HydrogenStore.eta_fc h
            <= q * dt_h / HydrogenStore.eta_fc h * HydrogenStore.eta_fc h)
      by (apply Rmult_le_compat_r; lra).
    replace (q * dt_h / HydrogenStore.eta_fc h * HydrogenStore.eta_fc h)
      with (q * dt_h) in H by (field; lra).
    exact H.
Qed.

Lemma fuel_cell_delivery_witness :
  let h1 := fst (HydrogenStore.fuel_cell default_store 2 1) in
  let p_ac := fst (snd (HydrogenStore.fuel_cell default_store 2 1)) in
  let p_heat := snd (snd (HydrogenStore.fuel_cell default_store 2 1)) in
  (0 < 1 /\ 0 < HydrogenStore.eta_fc default_store /\
   store_in_bounds default_store /\
   0 <= HydrogenStore.p_fc_max default_store /\ 0 <= 2) /\
  p_ac * 1 = HydrogenStore.eta_fc default_store
             * (HydrogenStore.h2 default_store - HydrogenStore.h2 h1) /\
  p_heat = p_ac * (1 - HydrogenStore.eta_fc default_store)
           / HydrogenStore.eta_fc default_store /\
  HydrogenStore.h2 h1 <= HydrogenStore.h2 default_store /\
  0 <= p_ac <= Rmin 2 (HydrogenStore.p_fc_max default_store).
Proof.
  cbv zeta.
  assert (H1 : 0 < 1) by lra.
  assert (H2 : 0 < HydrogenStore.eta_fc default_store)
    by exact (proj1 (proj2 default_store_ok)).
  assert (H3 : 0 <= HydrogenStore.p_fc_max default_store)
    by exact (proj2 (proj2 (proj2 default_store_ok))).
  assert (H4 : 0 <= 2) by lra.
  destruct (fuel_cell_delivery default_store 2 1 H1 H2) as (E & Q & B).
  split.
  - split; [exact H1 | split; [exact H2 |]].
    split; [exact (proj2 default_in_bounds) | split; [exact H3 | exact H4]].
  - split; [exact E | split; [exact Q |]].
    exact (B (proj2 default_in_bounds) H3 H4).
Defined.

(** ** Splitting a time step *)

(** Filling a reservoir of headroom [room] with two non-negative offers
    in a row takes in as much as filling it with their sum. *)
Lemma Rmin_two_offers (e1 e2 room : R) :
  0 <= e1 -> 0 <= e2 ->
  Rmin e1 room + Rmin e2 (room - Rmin e1 room) = Rmin (e1 + e2) room.
Proof.
  intros H1 H2. unfold Rmin.
  destruct (Rle_dec e1 room), (Rle_dec (e1 + e2) room);
    match goal with |- context [Rle_dec ?x ?y] => destruct (Rle_dec x y) end;
    lra.
Qed.

(** X5.  Charging at the same request over two consecutive time steps
    leaves the battery exactly as one charge over the whole time does,
    and the two calls report the same energy in total (well-formed
    battery, non-negative request). *)
Theorem charge_time_split :
  forall (b : Battery.t) (p dt1 dt2 : R),
    battery_ok b -> 0 <= p -> 0 < dt1 -> 0 < dt2 ->
    let first := Battery.charge b p dt1 in
    let second := Battery.charge (fst first) p dt2 in
    let whole := Battery.charge b p (dt1 + dt2) in
    fst second = fst whole /\
    snd first * dt1 + snd second * dt2 = snd whole * (dt1 + dt2).
Proof.
  intros b p dt1 dt2 (Hc & _ & Hm & _) Hp H1 H2. cbv zeta.
  unfold Battery.charge. cbv zeta.
  cbn [fst snd Battery.soc Battery.cap Battery.eta_c Battery.p_charge_max
       Battery.set_soc].
  pose proof (offered_nonneg _ _ _ _ Hp Hm H1 Hc) as He1.
  pose proof (offered_nonneg _ _ _ _ Hp Hm H2 Hc) as He2.
  set (q := Rmin p (Battery.p_charge_max b)) in *.
  set (room := Battery.cap b - Battery.soc b).
  pose proof (Rmin_two_offers _ _ room He1 He2) as Hsplit.
  replace (q * dt1 * Battery.eta_c b + q * dt2 * Battery.eta_c b)
    with (q * (dt1 + dt2) * Battery.eta_c b) in Hsplit by ring.
  replace (Battery.cap b - (Battery.soc b + Rmin (q * dt1 * Battery.eta_c b) room))
    with (room - Rmin (q * dt1 * Battery.eta_c b) room) by (unfold room; ring).
  set (a1 := Rmin (q * dt1 * Battery.eta_c b) room) in *.
  set (a2 := Rmin (q * dt2 * Battery.eta_c b) (room - a1)) in *.
  set (a := Rmin (q * (dt1 + dt2) * Battery.eta_c b) room) in *.
  split.
  - unfold Battery.set_soc. cbn [Battery.cap Battery.soc Battery.eta_c Battery.eta_d
                               Battery.p_charge_max Battery.p_discharge_max].
    f_equal. lra.
  - replace (a1 / dt1 * dt1) with a1 by (field; lra).
    replace (a2 / dt2 * dt2) with a2 by (field; lra).
    replace (a / (dt1 + dt2) * (dt1 + dt2)) with a by (field; lra).
    exact Hsplit.
Qed.

Lemma charge_time_split_witness :
  let first := Battery.charge default_battery 10 1 in
  let second := Battery.charge (fst first) 10 2 in
  let whole := Battery.charge default_battery 10 (1 + 2) in
  (battery_ok default_battery /\ 0 <= 10 /\ 0 < 1 /\ 0 < 2) /\
  fst second = fst whole /\
  snd first * 1 + snd second * 2 = snd whole * (1 + 2).
Proof.
  cbv zeta.
  assert (H0 : 0 <= 10) by lra.
  assert (H1 : 0 < 1) by lra.
  assert (H2 : 0 < 2) by lra.
  split; [split; [exact default_battery_ok | split; [exact H0 | split; assumption]] |].
  exact (charge_time_split default_battery 10 1 2 default_battery_ok H0 H1 H2).
Defined.

(** X6.  Discharging at the same request over two consecutive time
    steps leaves the battery exactly as one discharge over the whole
    time does, and the two calls deliver the same energy in total. *)
Theorem discharge_time_split :
  forall (b : Battery.t) (p dt1 dt2 : R),
    battery_ok b -> 0 <= p -> 0 < dt1 -> 0 < dt2 ->
    let first := Battery.discharge b p dt1 in
    let second := Battery.discharge (fst first) p dt2 in
    let whole := Battery.discharge b p (dt1 + dt2) in
    fst second = fst whole /\
    snd first * dt1 + snd second * dt2 = snd whole * (dt1 + dt2).
Proof.
  intros b p dt1 dt2 (_ & Hd & _ & Hm) Hp H1 H2. cbv zeta.
  unfold Battery.discharge. cbv zeta.
  cbn [fst snd Battery.soc Battery.cap Battery.eta_d Battery.p_discharge_max
       Battery.set_soc].
  pose proof (requested_nonneg _ _ _ _ Hp Hm H1 Hd) as He1.
  pose proof (requested_nonneg _ _ _ _ Hp Hm H2 Hd) as He2.
  set (q := Rmin p (Battery.p_discharge_max b)) in *.
  pose proof (Rmin_two_offers _ _ (Battery.soc b) He1 He2) as Hsplit.
  replace (q * dt1 / Battery.eta_d b + q * dt2 / Battery.eta_d b)
    with (q * (dt1 + dt2) / Battery.eta_d b) in Hsplit by (field; lra).
  set (a1 := Rmin (q * dt1 / Battery.eta_d b) (Battery.soc b)) in *.
  set (a2 := Rmin (q * dt2 / Battery.eta_d b) (Battery.soc b - a1)) in *.
  set (a := Rmin (q * (dt1 + dt2) / Battery.eta_d b) (Battery.soc b)) in *.
  split.
  - unfold Battery.set_soc. cbn [Battery.cap Battery.soc Battery.eta_c Battery.eta_d
                               Battery.p_charge_max Battery.p_discharge_max].
    f_equal. lra.
  - replace (a1 * Battery.eta_d b / dt1 * dt1) with (a1 * Battery.eta_d b)
      by (field; lra).
    replace (a2 * Battery.eta_d b / dt2 * dt2) with (a2 * Battery.eta_d b)
      by (field; lra).
    replace (a * Battery.eta_d b / (dt1 + dt2) * (dt1 + dt2)) with (a * Battery.eta_d b)
      by (field; lra).
    rewrite <- Hsplit. ring.
Qed.

Lemma discharge_time_split_witness :
  let first := Battery.discharge default_battery 20 1 in
  let second := Battery.discharge (fst first) 20 2 in
  let whole := Battery.discharge default_battery 20 (1 + 2) in
  (battery_ok default_battery /\ 0 <= 20 /\ 0 < 1 /\ 0 < 2) /\
  fst second = fst whole /\
  snd first * 1 + snd second * 2 = snd whole * (1 + 2).
Proof.
  cbv zeta.
  assert (H0 : 0 <= 20) by lra.
  assert (H1 : 0 < 1) by lra.
  assert (H2 : 0 < 2) by lra.
  split; [split; [exact default_battery_ok | split; [exact H0 | split; assumption]] |].
  exact (discharge_time_split default_battery 20 1 2 default_battery_ok H0 H1 H2).
Defined.

(** X7.  Running the electrolyser, or the fuel cell, at the same request
    over two consecutive time steps leaves the tank exactly as one call
    over the whole time does; the energy drawn by the electrolyser, the
    energy delivered by the fuel cell and its waste heat add up to those
    of the single call. *)
Theorem hydrogen_time_split :
  forall (h : HydrogenStore.t) (p dt1 dt2 : R),
    store_ok h -> 0 <= p -> 0 < dt1 -> 0 < dt2 ->
    (let first := HydrogenStore.electrolyse h p dt1 in
     let second := HydrogenStore.electrolyse (fst first) p dt2 in
     let whole := HydrogenStore.electrolyse h p (dt1 + dt2) in
     fst second = fst whole /\
     snd first * dt1 + snd second * dt2 = snd whole * (dt1 + dt2)) /\
    (let first := HydrogenStore.fuel_cell h p dt1 in
     let second := HydrogenStore.fuel_cell (fst first) p dt2 in
     let whole := HydrogenStore.fuel_cell h p (dt1 + dt2) in
     fst second = fst whole /\
     fst (snd first) * dt1 + fst (snd second) * dt2
       = fst (snd whole) * (dt1 + dt2) /\
     snd (snd first) * dt1 + snd (snd second) * dt2
       = snd (snd whole) * (dt1 + dt2)).
Proof.
  intros h p dt1 dt2 (He & Hf & Hme & Hmf) Hp H1 H2. split.
  - cbv zeta. unfold HydrogenStore.electrolyse. cbv zeta.
    cbn [fst snd HydrogenStore.h2 HydrogenStore.cap HydrogenStore.eta_elec
         HydrogenStore.p_elec_max HydrogenStore.set_h2].
    pose proof (offered_nonneg _ _ _ _ Hp Hme H1 He) as He1.
    pose proof (offered_nonneg _ _ _ _ Hp Hme H2 He) as He2.
    set (q := Rmin p (HydrogenStore.p_elec_max h)) in *.
    set (room := HydrogenStore.cap h - HydrogenStore.h2 h).
    pose proof (Rmin_two_offers _ _ room He1 He2) as Hsplit.
    replace (q * dt1 * HydrogenStore.eta_elec h + q * dt2 * HydrogenStore.eta_elec h)
      with (q * (dt1 + dt2) * HydrogenStore.eta_elec h) in Hsplit by ring.
    replace (HydrogenStore.cap h
             - (HydrogenStore.h2 h + Rmin (q * dt1 * HydrogenStore.eta_elec h) room))
      with (room - Rmin (q * dt1 * HydrogenStore.eta_elec h) room)
      by (unfold room; ring).
    set (a1 := Rmin (q * dt1 * HydrogenStore.eta_elec h) room) in *.
    set (a2 := Rmin (q * dt2 * HydrogenStore.eta_elec h) (room - a1)) in *.
    set (a := Rmin (q * (dt1 + dt2) * HydrogenStore.eta_elec h) room) in *.
    split.
    + unfold HydrogenStore.set_h2.
      cbn [HydrogenStore.cap HydrogenStore.h2 HydrogenStore.eta_elec
           HydrogenStore.eta_fc HydrogenStore.p_elec_max HydrogenStore.p_fc_max].
      f_equal. lra.
    + replace (a1 / (HydrogenStore.eta_elec h * dt1) * dt1)
        with (a1 / HydrogenStore.eta_elec h) by (field; split; lra).
      replace (a2 / (HydrogenStore.eta_elec h * dt2) * dt2)
        with (a2 / HydrogenStore.eta_elec h) by (field; split; lra).
      replace (a / (HydrogenStore.eta_elec h * (dt1 + dt2)) * (dt1 + dt2))
        with (a / HydrogenStore.eta_elec h) by (field; split; lra).
      rewrite <- Hsplit. field. lra.
  - cbv zeta. unfold HydrogenStore.fuel_cell. cbv zeta.
    cbn [fst snd HydrogenStore.h2 HydrogenStore.cap HydrogenStore.eta_fc
         HydrogenStore.p_fc_max HydrogenStore.set_h2].
    pose proof (requested_nonneg _ _ _ _ Hp Hmf H1 Hf) as He1.
    pose proof (requested_nonneg _ _ _ _ Hp Hmf H2 Hf) as He2.
    set (q := Rmin p (HydrogenStore.p_fc_max h)) in *.
    pose proof (Rmin_two_offers _ _ (HydrogenStore.h2 h) He1 He2) as Hsplit.
    replace (q * dt1 / HydrogenStore.eta_fc h + q * dt2 / HydrogenStore.eta_fc h)
      with (q * (dt1 + dt2) / HydrogenStore.eta_fc h) in Hsplit by (field; lra).
    set (a1 := Rmin (q * dt1 / HydrogenStore.eta_fc h) (HydrogenStore.h2 h)) in *.
    set (a2 := Rmin (q * dt2 / HydrogenStore.eta_fc h) (HydrogenStore.h2 h - a1)) in *.
    set (a := Rmin (q * (dt1 + dt2) / HydrogenStore.eta_fc h) (HydrogenStore.h2 h)) in *.
    split; [| split].
    + unfold HydrogenStore.set_h2.
      cbn [HydrogenStore.cap HydrogenStore.h2 HydrogenStore.eta_elec
           HydrogenStore.eta_fc HydrogenStore.p_elec_max HydrogenStore.p_fc_max].
      f_equal. lra.
    + replace (a1 * HydrogenStore.eta_fc h / dt1 * dt1) with (a1 * HydrogenStore.eta_fc h)
        by (field; lra).
      replace (a2 * HydrogenStore.eta_fc h / dt2 * dt2) with (a2 * HydrogenStore.eta_fc h)
        by (field; lra).
      replace (a * HydrogenStore.eta_fc h / (dt1 + dt2) * (dt1 + dt2))
        with (a * HydrogenStore.eta_fc h) by (field; lra).
      rewrite <- Hsplit. ring.
    + replace ((a1 - a1 * HydrogenStore.eta_fc h / dt1 * dt1) / dt1 * dt1)
        with (a1 * (1 - HydrogenStore.eta_fc h)) by (field; lra).
      replace ((a2 - a2 * HydrogenStore.eta_fc h / dt2 * dt2) / dt2 * dt2)
        with (a2 * (1 - HydrogenStore.eta_fc h)) by (field; lra).
      replace ((a - a * HydrogenStore.eta_fc h / (dt1 + dt2) * (dt1 + dt2))
               / (dt1 + dt2) * (dt1 + dt2))
        with (a * (1 - HydrogenStore.eta_fc h)) by (field; lra).
      rewrite <- Hsplit. ring.
Qed.

Lemma hydrogen_time_split_witness :
  (store_ok default_store /\ 0 <= 3 /\ 0 < 1 /\ 0 < 2) /\
  (let first := HydrogenStore.electrolyse default_store 3 1 in
   let second := HydrogenStore.electrolyse (fst first) 3 2 in
   let whole := HydrogenStore.electrolyse default_store 3 (1 + 2) in
   fst second = fst whole /\
   snd first * 1 + snd second * 2 = snd whole * (1 + 2)) /\
  (let first := HydrogenStore.fuel_cell default_store 3 1 in
   let second := HydrogenStore.fuel_cell (fst first) 3 2 in
   let whole := HydrogenStore.fuel_cell default_store 3 (1 + 2) in
   fst second = fst whole /\
   fst (snd first) * 1 + fst (snd second) * 2 = fst (snd whole) * (1 + 2) /\
   snd (snd first) * 1 + snd (snd second) * 2 = snd (snd whole) * (1 + 2)).
Proof.
  assert (H0 : 0 <= 3) by lra.
  assert (H1 : 0 < 1) by lra.
  assert (H2 : 0 < 2) by lra.
  split; [split; [exact default_store_ok | split; [exact H0 | split; assumption]] |].
  exact (hydrogen_time_split default_store 3 1 2 default_store_ok H0 H1 H2).
Defined.

(** ** Calls that have nothing to do *)

Lemma set_soc_same (b : Battery.t) (v : R) :
  v = Battery.soc b -> Battery.set_soc b v = b.
Proof. intros ->. destruct b. reflexivity. Qed.

Lemma set_h2_same (h : HydrogenStore.t) (v : R) :
  v = HydrogenStore.h2 h -> HydrogenStore.set_h2 h v = h.
Proof. intros ->. destruct h. reflexivity. Qed.

Lemma charge_idle :
  forall (b : Battery.t) (p dt_h : R),
    battery_ok b -> Battery.soc b <= Battery.cap b -> 0 <= p -> 0 < dt_h ->
    Battery.soc b = Battery.cap b \/ p = 0 \/ Battery.p_charge_max b = 0 ->
    Battery.charge b p dt_h = (b, 0).
Proof.
  intros b p dt_h (Hc & _ & Hm & _) Hhi Hp Hdt Hcase.
  unfold Battery.charge. cbv zeta.
  pose proof (offered_nonneg _ _ _ _ Hp Hm Hdt Hc) as He.
  assert (E : Rmin (Rmin p (Battery.p_charge_max b) * dt_h * Battery.eta_c b)
                   (Battery.cap b - Battery.soc b) = 0).
  { destruct Hcase as [Hfull | [Hz | Hz]].
    - rewrite Rmin_eq_r by lra. lra.
    - rewrite (Rmin_eq_l p) by lra. rewrite Hz.
      rewrite Rmin_eq_l by lra. ring.
    - rewrite (Rmin_eq_r p) by lra. rewrite Hz.
      rewrite Rmin_eq_l by lra. ring. }
  rewrite E. f_equal.
  - apply set_soc_same. ring.
  - field. lra.
Qed.

(** X8.  A charge of a battery that is already full, or a charge with a
    zero request or a zero charge limit, changes nothing and returns 0
    (well-formed battery, level not above the capacity, non-negative
    request). *)
Theorem charge_with_nothing_to_store :
  forall (b : Battery.t) (p dt_h : R),
    battery_ok b -> Battery.soc b <= Battery.cap b -> 0 <= p -> 0 < dt_h ->
    Battery.soc b = Battery.cap b \/ p = 0 \/ Battery.p_charge_max b = 0 ->
    Battery.charge b p dt_h = (b, 0).
Proof. exact charge_idle. Qed.

Lemma charge_with_nothing_to_store_witness :
  let full := Battery.set_soc default_battery 82 in
  (battery_ok full /\ Battery.soc full <= Battery.cap full /\ 0 <= 10 /\ 0 < 1 /\
   (Battery.soc full = Battery.cap full \/ 10 = 0 \/ Battery.p_charge_max full = 0)) /\
  Battery.charge full 10 1 = (full, 0).
Proof.
  cbv zeta.
  assert (Hok : battery_ok (Battery.set_soc default_battery 82))
    by exact default_battery_ok.
  assert (Hhi : Battery.soc (Battery.set_soc default_battery 82)
                <= Battery.cap (Battery.set_soc default_battery 82))
    by (simpl; lra).
  assert (Hp : 0 <= 10) by lra.
  assert (Hdt : 0 < 1) by lra.
  assert (Hcase : Battery.soc (Battery.set_soc default_battery 82)
                  = Battery.cap (Battery.set_soc default_battery 82) \/
                  10 = 0 \/
                  Battery.p_charge_max (Battery.set_soc default_battery 82) = 0)
    by (left; reflexivity).
  split.
  - split; [exact Hok | split; [exact Hhi | split; [exact Hp | split; assumption]]].
  - exact (charge_with_nothing_to_store _ 10 1 Hok Hhi Hp Hdt Hcase).
Defined.

Lemma discharge_idle :
  forall (b : Battery.t) (p dt_h : R),
    battery_ok b -> 0 <= Battery.soc b -> 0 <= p -> 0 < dt_h ->
    Battery.soc b = 0 \/ p = 0 \/ Battery.p_discharge_max b = 0 ->
    Battery.discharge b p dt_h = (b, 0).
Proof.
  intros b p dt_h (_ & Hd & _ & Hm) Hlo Hp Hdt Hcase.
  unfold Battery.discharge. cbv zeta.
  pose proof (requested_nonneg _ _ _ _ Hp Hm Hdt Hd) as He.
  assert (E : Rmin (Rmin p (Battery.p_discharge_max b) * dt_h / Battery.eta_d b)
                   (Battery.soc b) = 0).
  { destruct Hcase as [Hempty | [Hz | Hz]].
    - rewrite Rmin_eq_r by lra. exact Hempty.
    - rewrite (Rmin_eq_l p) by lra. rewrite Hz.
      replace (0 * dt_h / Battery.eta_d b) with 0 by (field; lra).
      apply Rmin_eq_l. exact Hlo.
    - rewrite (Rmin_eq_r p) by lra. rewrite Hz.
      replace (0 * dt_h / Battery.eta_d b) with 0 by (field; lra).
      apply Rmin_eq_l. exact Hlo. }
  rewrite E. f_equal.
  - apply set_soc_same. ring.
  - field. lra.
Qed.

(** X9.  A discharge of an empty battery, or a discharge with a zero
    request or a zero discharge limit, changes nothing and returns 0
    (well-formed battery, non-negative level and request). *)
Theorem discharge_with_nothing_to_give :
  forall (b : Battery.t) (p dt_h : R),
    battery_ok b -> 0 <= Battery.soc b -> 0 <= p -> 0 < dt_h ->
    Battery.soc b = 0 \/ p = 0 \/ Battery.p_discharge_max b = 0 ->
    Battery.discharge b p dt_h = (b, 0).
Proof. exact discharge_idle. Qed.

Lemma discharge_with_nothing_to_give_witness :
  let empty := Battery.set_soc default_battery 0 in
  (battery_ok empty /\ 0 <= Battery.soc empty /\ 0 <= 5 /\ 0 < 1 /\
   (Battery.soc empty = 0 \/ 5 = 0 \/ Battery.p_discharge_max empty = 0)) /\
  Battery.discharge empty 5 1 = (empty, 0).
Proof.
  cbv zeta.
  assert (Hok : battery_ok (Battery.set_soc default_battery 0))
    by exact default_battery_ok.
  assert (Hlo : 0 <= Battery.soc (Battery.set_soc default_battery 0))
    by (simpl; lra).
  assert (Hp : 0 <= 5) by lra.
  assert (Hdt : 0 < 1) by lra.
  assert (Hcase : Battery.soc (Battery.set_soc default_battery 0) = 0 \/
                  5 = 0 \/
                  Battery.p_discharge_max (Battery.set_soc default_battery 0) = 0)
    by (left; reflexivity).
  split.
  - split; [exact Hok | split; [exact Hlo | split; [exact Hp | split; assumption]]].
  - exact (discharge_with_nothing_to_give _ 5 1 Hok Hlo Hp Hdt Hcase).
Defined.

Lemma hydrogen_idle :
  forall (h : HydrogenStore.t) (p dt_h : R),
    store_ok h -> 0 <= p -> 0 < dt_h ->
    (HydrogenStore.h2 h = HydrogenStore.cap h ->
     HydrogenStore.electrolyse h p dt_h = (h, 0)) /\
    (HydrogenStore.h2 h = 0 ->
     HydrogenStore.fuel_cell h p dt_h = (h, (0, 0))).
Proof.
  intros h p dt_h (He & Hf & Hme & Hmf) Hp Hdt. split.
  - intros Hfull. unfold HydrogenStore.electrolyse. cbv zeta.
    pose proof (offered_nonneg _ _ _ _ Hp Hme Hdt He) as Hoff.
    rewrite (Rmin_eq_r _ (HydrogenStore.cap h - HydrogenStore.h2 h)) by lra.
    f_equal.
    + apply set_h2_same. lra.
    + rewrite Hfull. field. split; lra.
  - intros Hempty. unfold HydrogenStore.fuel_cell. cbv zeta.
    pose proof (requested_nonneg _ _ _ _ Hp Hmf Hdt Hf) as Hreq.
    rewrite (Rmin_eq_r _ (HydrogenStore.h2 h)) by lra.
    f_equal.
    + apply set_h2_same. lra.
    + rewrite Hempty. f_equal; field; lra.
Qed.

(** X10.  The electrolyser on a full tank, and the fuel cell on an empty
    tank, change nothing: [electrolyse] returns 0 and [fuel_cell]
    returns no power and no heat (well-formed store, non-negative
    request). *)
Theorem hydrogen_with_nothing_to_do :
  forall (h : HydrogenStore.t) (p dt_h : R),
    store_ok h -> 0 <= p -> 0 < dt_h ->
    (HydrogenStore.h2 h = HydrogenStore.cap h ->
     HydrogenStore.electrolyse h p dt_h = (h, 0)) /\
    (HydrogenStore.h2 h = 0 ->
     HydrogenStore.fuel_cell h p dt_h = (h, (0, 0))).
Proof. exact hydrogen_idle. Qed.

Lemma hydrogen_with_nothing_to_do_witness :
  let full := HydrogenStore.set_h2 default_store 1000 in
  let empty := HydrogenStore.set_h2 default_store 0 in
  (store_ok default_store /\ 0 <= 4 /\ 0 < 1 /\
   HydrogenStore.h2 full = HydrogenStore.cap full /\ HydrogenStore.h2 empty = 0) /\
  HydrogenStore.electrolyse full 4 1 = (full, 0) /\
  HydrogenStore.fuel_cell empty 4 1 = (empty, (0, 0)).
Proof.
  cbv zeta.
  assert (Hp : 0 <= 4) by lra.
  assert (Hdt : 0 < 1) by lra.
  split.
  - split; [exact default_store_ok | split; [exact Hp | split; [exact Hdt |]]].
    split; reflexivity.
  - split.
    + exact (proj1 (hydrogen_with_nothing_to_do
                      (HydrogenStore.set_h2 default_store 1000) 4 1
                      default_store_ok Hp Hdt) eq_refl).
    + exact (proj2 (hydrogen_with_nothing_to_do
                      (HydrogenStore.set_h2 default_store 0) 4 1
                      default_store_ok Hp Hdt) eq_refl).
Defined.

(** * Further properties of the loop *)

(** ** The devices during a run *)

(** An hour changes nothing of the devices but the two levels. *)
Lemma hour_shape (params : SystemParameters.t) (b : Battery.t)
    (h : HydrogenStore.t) (row : Row) :
  let d := fst (hour params b h row) in
  fst d = Battery.set_soc b (Battery.soc (fst d)) /\
  snd d = HydrogenStore.set_h2 h (HydrogenStore.h2 (snd d)).
Proof.
  cbv zeta.
  destruct (Rge_dec (net_kw params row) 0) as [Hnet | Hnet].
  - destruct (surplus b h (net_kw params row)) as [[b1 h1] [[c e] x]] eqn:Hs.
    destruct (hour_surplus params b h row Hnet _ _ _ _ _ Hs) as [-> _].
    pose proof (surplus_battery b h (net_kw params row)) as Eb.
    pose proof (surplus_store b h (net_kw params row)) as Eh.
    rewrite Hs in Eb, Eh. cbn [fst snd] in Eb, Eh |- *. subst b1.
    split; [reflexivity |].
    destruct Eh as [-> | (q & _ & ->)]; [| reflexivity].
    symmetry. apply set_h2_same. reflexivity.
  - assert (Hneg : net_kw params row < 0) by lra.
    destruct (deficit b h (net_kw params row)) as [[b1 h1] [[[d f] w] i]] eqn:Hs.
    destruct (hour_deficit params b h row Hneg _ _ _ _ _ _ Hs) as [-> _].
    pose proof (deficit_battery b h (net_kw params row)) as Eb.
    pose proof (deficit_store b h (net_kw params row)) as Eh.
    rewrite Hs in Eb, Eh. cbn [fst snd] in Eb, Eh |- *. subst b1.
    split; [reflexivity |].
    destruct Eh as [-> | (q & _ & ->)]; [| reflexivity].
    symmetry. apply set_h2_same. reflexivity.
Qed.

(** Dispatchable devices stay dispatchable. *)
Lemma hour_dispatchable (params : SystemParameters.t) (b : Battery.t)
    (h : HydrogenStore.t) (row : Row) :
  dispatchable b h ->
  dispatchable (fst (fst (hour params b h row))) (snd (fst (hour params b h row))).
Proof.
  intros (Hb & Hc1 & Hh & Hf1 & Hi).
  destruct (hour_preserves params b h row Hb Hh Hi) as (Hb1 & Hh1 & Hi1 & _).
  destruct (hour_shape params b h row) as [Eb Eh].
  cbv zeta in *.
  destruct (fst (hour params b h row)) as [b1 h1]. cbn [fst snd] in *.
  split; [exact Hb1 | split; [| split; [exact Hh1 | split; [| exact Hi1]]]].
  - rewrite Eb. exact Hc1.
  - rewrite Eh. exact Hf1.
Qed.

(** The loop from dispatchable devices: a relation between row and
    record that holds for every hour started from the same devices at
    any dispatchable levels holds along the whole log. *)
Lemma run_hours (params : SystemParameters.t) (b : Battery.t)
    (h : HydrogenStore.t) (Q : Row -> LogRecord -> Prop) :
  dispatchable b h ->
  (forall v w row,
      dispatchable (Battery.set_soc b v) (HydrogenStore.set_h2 h w) ->
      Q row (snd (hour params (Battery.set_soc b v) (HydrogenStore.set_h2 h w) row))) ->
  forall df, Forall2 Q df (logs (run (simulator params b h) df)).
Proof.
  intros Hd HQ df.
  set (I := fun b' h' =>
              dispatchable b' h' /\
              b' = Battery.set_soc b (Battery.soc b') /\
              h' = HydrogenStore.set_h2 h (HydrogenStore.h2 h')).
  destruct (run_invariant params I Q) with (df := df) (self := simulator params b h)
    as (appended & El & HF & _).
  - intros b' h' row (Hd' & Eb & Eh). split.
    + pose proof (hour_dispatchable params b' h' row Hd') as Hd1.
      destruct (hour_shape params b' h' row) as [Eb1 Eh1]. cbv zeta in Eb1, Eh1.
      unfold I. split; [exact Hd1 | split].
      * rewrite Eb1 at 1. rewrite Eb. reflexivity.
      * rewrite Eh1 at 1. rewrite Eh. reflexivity.
    + rewrite Eb, Eh. apply HQ. rewrite <- Eb, <- Eh. exact Hd'.
  - reflexivity.
  - unfold I. cbn [simulator battery h2].
    split; [exact Hd | split; symmetry].
    + apply set_soc_same. reflexivity.
    + apply set_h2_same. reflexivity.
  - rewrite El. exact HF.
Qed.

(** The devices a valid configuration builds are dispatchable. *)
Lemma valid_configuration_dispatchable (params : SystemParameters.t) :
  valid_configuration params ->
  dispatchable (Battery.init params) (HydrogenStore.init params).
Proof.
  intros Hv.
  destruct (valid_configuration_devices params Hv) as (Hb & Hc & Hh & Hi).
  destruct Hv as (_ & _ & _ & [_ Hf] & _).
  split; [exact Hb | split; [exact Hc | split; [exact Hh | split; [exact Hf | exact Hi]]]].
Qed.

Lemma default_dispatchable : dispatchable default_battery default_store.
Proof.
  pose proof sqrt_095_bounds as Hs.
  split; [exact default_battery_ok | split].
  - change (sqrt 0.95 <= 1). lra.
  - split; [exact default_store_ok | split; [simpl; lra | exact default_in_bounds]].
Qed.

Lemma default_params_valid : valid_configuration default_params.
Proof.
  unfold valid_configuration, default_params. cbn.
  unfold SystemParameters.post_init. cbn. repeat split; lra.
Qed.

(** X11.  The constructors establish what the dispatch relies on: for a
    valid configuration (efficiencies in (0, 1], capacities and limits
    non-negative, initial fraction in [0, 1], initial hydrogen level
    within the tank capacity) the battery and the hydrogen store as
    constructed are dispatchable; in particular the initial state of
    charge [soc_bat_init * battery_capacity_kwh] lies within the
    capacity, and both battery efficiencies, the square root of the
    round-trip efficiency, lie in (0, 1]. *)
Theorem constructed_devices_are_dispatchable :
  forall params : SystemParameters.t,
    valid_configuration params ->
    dispatchable (Battery.init params) (HydrogenStore.init params) /\
    0 < Battery.eta_d (Battery.init params) <= 1.
Proof.
  intros params Hv.
  pose proof (valid_configuration_dispatchable params Hv) as Hd.
  split; [exact Hd |].
  destruct Hd as ((Hc & Hdpos & _) & Hc1 & _).
  split; [exact Hdpos | exact Hc1].
Qed.

Lemma constructed_devices_are_dispatchable_witness :
  valid_configuration default_params /\
  dispatchable (Battery.init default_params) (HydrogenStore.init default_params) /\
  0 < Battery.eta_d (Battery.init default_params) <= 1.
Proof.
  split; [exact default_params_valid |].
  exact (constructed_devices_are_dispatchable default_params default_params_valid).
Defined.

(** ** The two branches, case by case *)

(** The surplus branch: the battery is charged with the surplus; the
    electrolyser runs on what the charge left if that is above 1e-6;
    what is left after both is exported if above [EPS]. *)
Lemma surplus_cases (b : Battery.t) (h : HydrogenStore.t) (net : R) :
  forall b1 h1 c e x,
    surplus b h net = (b1, h1, (c, e, x)) ->
    b1 = fst (Battery.charge b net 1) /\
    c = snd (Battery.charge b net 1) /\
    ((net - c > 1e-6 /\
      h1 = fst (HydrogenStore.electrolyse h (net - c) 1) /\
      e = snd (HydrogenStore.electrolyse h (net - c) 1)) \/
     (net - c <= 1e-6 /\ h1 = h /\ e = 0)) /\
    ((net - c - e > EPS /\ x = net - c - e) \/
     (net - c - e <= EPS /\ x = 0)).
Proof.
  intros b1 h1 c e x Hs.
  rewrite surplus_eq in Hs. cbv zeta in Hs.
  remember (Battery.charge b net 1) as ch eqn:Ech.
  destruct ch as [b' c0]. cbn [fst snd] in Hs |- *.
  remember (HydrogenStore.electrolyse h (net - c0) 1) as el eqn:Eel.
  destruct el as [h' e0]. cbn [fst snd] in Hs.
  destruct (Rgtb_cases (net - c0) 1e-6) as [[Hna E] | [Hna E]]; rewrite E in Hs.
  - destruct (Rgtb_cases (net - c0 - e0) EPS) as [[Hx Ex] | [Hx Ex]];
      rewrite Ex in Hs; injection Hs as <- <- <- <- <-;
      rewrite <- Eel; cbn [fst snd];
      (split; [reflexivity | split; [reflexivity | split]]).
    + left. repeat split; assumption.
    + left. split; [exact Hx | reflexivity].
    + left. repeat split; assumption.
    + right. split; [exact Hx | reflexivity].
  - destruct (Rgtb_cases (net - c0) EPS) as [[Hx Ex] | [Hx Ex]];
      rewrite Ex in Hs; injection Hs as <- <- <- <- <-;
      (split; [reflexivity | split; [reflexivity | split]]).
    + right. repeat split. exact Hna.
    + left. split; [lra | ring].
    + right. repeat split. exact Hna.
    + right. split; [lra | reflexivity].
Qed.

(** The deficit branch: the battery is discharged against the deficit;
    the fuel cell runs on what remains if that and the tank level are
    above [EPS]; what is left after both is imported if above [EPS]. *)
Lemma deficit_cases (b : Battery.t) (h : HydrogenStore.t) (net : R) :
  forall b1 h1 d f w i,
    deficit b h net = (b1, h1, (d, f, w, i)) ->
    b1 = fst (Battery.discharge b (- net) 1) /\
    d = snd (Battery.discharge b (- net) 1) /\
    ((- net - d > EPS /\ HydrogenStore.h2 h > EPS /\
      h1 = fst (HydrogenStore.fuel_cell h (- net - d) 1) /\
      f = fst (snd (HydrogenStore.fuel_cell h (- net - d) 1)) /\
      w = snd (snd (HydrogenStore.fuel_cell h (- net - d) 1))) \/
     ((- net - d <= EPS \/ HydrogenStore.h2 h <= EPS) /\
      h1 = h /\ f = 0 /\ w = 0)) /\
    ((- net - d - f > EPS /\ i = - net - d - f) \/
     (- net - d - f <= EPS /\ i = 0)).
Proof.
  intros b1 h1 d f w i Hs.
  rewrite deficit_eq in Hs. cbv zeta in Hs.
  remember (Battery.discharge b (- net) 1) as di eqn:Edi.
  destruct di as [b' d0]. cbn [fst snd] in Hs |- *.
  remember (HydrogenStore.fuel_cell h (- net - d0) 1) as fc eqn:Efc.
  destruct fc as [h' [f0 w0]]. cbn [fst snd] in Hs.
  destruct (Rgtb_cases (- net - d0) EPS) as [[Hda E] | [Hda E]]; rewrite E in Hs;
    [destruct (Rgtb_cases (HydrogenStore.h2 h) EPS) as [[Hl El] | [Hl El]];
       rewrite El in Hs |];
    cbn [andb] in Hs.
  - destruct (Rgtb_cases (- net - d0 - f0) EPS) as [[Hx Ex] | [Hx Ex]];
      rewrite Ex in Hs; injection Hs as <- <- <- <- <- <-;
      rewrite <- Efc; cbn [fst snd];
      (split; [reflexivity | split; [reflexivity | split]]).
    + left. repeat split; assumption.
    + left. split; [exact Hx | reflexivity].
    + left. repeat split; assumption.
    + right. split; [exact Hx | reflexivity].
  - injection Hs as <- <- <- <- <- <-.
    split; [reflexivity | split; [reflexivity | split]].
    + right. split; [right; exact Hl | repeat split].
    + left. split; [lra | ring].
  - injection Hs as <- <- <- <- <- <-.
    split; [reflexivity | split; [reflexivity | split]].
    + right. split; [left; exact Hda | repeat split].
    + right. split; [lra | reflexivity].
Qed.

(** What an hour with a surplus logs and does to the devices. *)
Lemma hour_surplus_facts (params : SystemParameters.t) (b : Battery.t)
    (h : HydrogenStore.t) (row : Row) :
  net_kw params row >= 0 ->
  let net := net_kw params row in
  let r := snd (hour params b h row) in
  let d := fst (hour params b h row) in
  pv_ac r - load r = net /\
  p_bat_discharge r = 0 /\ p_fc r = 0 /\ p_grid_import r = 0 /\
  heat_from_fc r = 0 /\
  fst d = fst (Battery.charge b net 1) /\
  p_bat_charge r = snd (Battery.charge b net 1) /\
  soc_bat r = Battery.soc (fst d) /\
  h2_store r = HydrogenStore.h2 (snd d) /\
  ((net - p_bat_charge r > 1e-6 /\
    snd d = fst (HydrogenStore.electrolyse h (net - p_bat_charge r) 1) /\
    p_elec r = snd (HydrogenStore.electrolyse h (net - p_bat_charge r) 1)) \/
   (net - p_bat_charge r <= 1e-6 /\ snd d = h /\ p_elec r = 0)) /\
  ((net - p_bat_charge r - p_elec r > EPS /\
    p_grid_export r = net - p_bat_charge r - p_elec r) \/
   (net - p_bat_charge r - p_elec r <= EPS /\ p_grid_export r = 0)).
Proof.
  intros Hnet. cbv zeta.
  destruct (surplus b h (net_kw params row)) as [[b1 h1] [[c e] x]] eqn:Hs.
  destruct (hour_surplus params b h row Hnet _ _ _ _ _ Hs)
    as (Ed & En & Ec & Edis & Ee & Ef & Ex & Ei & Ew & Es & Eh).
  destruct (surplus_cases b h (net_kw params row) _ _ _ _ _ Hs)
    as (Eb1 & Ec0 & Hel & Hex).
  rewrite Ed, Ec, Ee, Ex, Es, Eh. cbn [fst snd].
  unfold dt in Ew.
  repeat (split; [first [assumption | lra | reflexivity] |]).
  assumption.
Qed.

(** What an hour with a deficit logs and does to the devices. *)
Lemma hour_deficit_facts (params : SystemParameters.t) (b : Battery.t)
    (h : HydrogenStore.t) (row : Row) :
  net_kw params row < 0 ->
  let net := net_kw params row in
  let r := snd (hour params b h row) in
  let d := fst (hour params b h row) in
  pv_ac r - load r = net /\
  p_bat_charge r = 0 /\ p_elec r = 0 /\ p_grid_export r = 0 /\
  fst d = fst (Battery.discharge b (- net) 1) /\
  p_bat_discharge r = snd (Battery.discharge b (- net) 1) /\
  soc_bat r = Battery.soc (fst d) /\
  h2_store r = HydrogenStore.h2 (snd d) /\
  ((- net - p_bat_discharge r > EPS /\ HydrogenStore.h2 h > EPS /\
    snd d = fst (HydrogenStore.fuel_cell h (- net - p_bat_discharge r) 1) /\
    p_fc r = fst (snd (HydrogenStore.fuel_cell h (- net - p_bat_discharge r) 1)) /\
    heat_from_fc r
      = snd (snd (HydrogenStore.fuel_cell h (- net - p_bat_discharge r) 1))) \/
   ((- net - p_bat_discharge r <= EPS \/ HydrogenStore.h2 h <= EPS) /\
    snd d = h /\ p_fc r = 0 /\ heat_from_fc r = 0)) /\
  ((- net - p_bat_discharge r - p_fc r > EPS /\
    p_grid_import r = - net - p_bat_discharge r - p_fc r) \/
   (- net - p_bat_discharge r - p_fc r <= EPS /\ p_grid_import r = 0)).
Proof.
  intros Hnet. cbv zeta.
  destruct (deficit b h (net_kw params row)) as [[b1 h1] [[[d f] w] i]] eqn:Hs.
  destruct (hour_deficit params b h row Hnet _ _ _ _ _ _ Hs)
    as (Ed & En & Ec & Edis & Ee & Ef & Ex & Ei & Ew & Es & Eh).
  destruct (deficit_cases b h (net_kw params row) _ _ _ _ _ _ Hs)
    as (Eb1 & Ed0 & Hfc & Him).
  rewrite Ed, Edis, Ef, Ei, Es, Eh, Ew. cbn [fst snd].
  unfold dt.
  repeat (split; [first [assumption | lra | reflexivity] |]).
  split; [| exact Him].
  destruct Hfc as [(H1 & H2 & H3 & H4 & H5) | (H1 & H2 & H3 & H4)].
  - left. repeat split; try assumption. rewrite H5. ring.
  - right. repeat split; try assumption. rewrite H4. ring.
Qed.

(** The noise suppression of the surplus branch: what is left of the
    surplus after the battery and the electrolyser is exported when it
    is above [EPS] and reported as zero when it is not. *)
Lemma surplus_remainder_export (params : SystemParameters.t) (b : Battery.t)
    (h : HydrogenStore.t) (row : Row) :
  net_kw params row >= 0 ->
  let r := snd (hour params b h row) in
  let remainder := net_kw params row - p_bat_charge r - p_elec r in
  (remainder <= EPS -> p_grid_export r = 0) /\
  (remainder > EPS -> p_grid_export r = remainder).
Proof.
  intros Hnet.
  destruct (hour_surplus_facts params b h row Hnet)
    as (_ & _ & _ & _ & _ & _ & _ & _ & _ & _ & Hex).
  cbv zeta in *.
  destruct Hex as [[Hx Ex] | [Hx Ex]]; split; intros Hr;
    first [exact Ex | lra].
Qed.

(** ** Signs of the returned powers *)

Lemma discharge_return_nonneg (b : Battery.t) (p dt_h : R) :
  0 < Battery.eta_d b -> 0 <= Battery.p_discharge_max b ->
  0 <= Battery.soc b -> 0 <= p -> 0 < dt_h ->
  0 <= snd (Battery.discharge b p dt_h).
Proof.
  intros Hd Hm Hlo Hp Hdt. unfold Battery.discharge. cbv zeta. cbn [snd].
  pose proof (requested_nonneg _ _ _ _ Hp Hm Hdt Hd) as Hreq.
  assert (H0 : 0 <= Rmin (Rmin p (Battery.p_discharge_max b) * dt_h / Battery.eta_d b)
                         (Battery.soc b)) by (apply Rmin_nonneg; assumption).
  apply Rmult_le_pos; [apply Rmult_le_pos; lra |].
  left. apply Rinv_0_lt_compat. exact Hdt.
Qed.

Lemma electrolyse_return_nonneg (h : HydrogenStore.t) (p dt_h : R) :
  0 < HydrogenStore.eta_elec h -> 0 <= HydrogenStore.p_elec_max h ->
  HydrogenStore.h2 h <= HydrogenStore.cap h -> 0 <= p -> 0 < dt_h ->
  0 <= snd (HydrogenStore.electrolyse h p dt_h).
Proof.
  intros He Hm Hhi Hp Hdt. unfold HydrogenStore.electrolyse. cbv zeta. cbn [snd].
  pose proof (offered_nonneg _ _ _ _ Hp Hm Hdt He) as Hoff.
  assert (H0 : 0 <= Rmin (Rmin p (HydrogenStore.p_elec_max h) * dt_h
                          * HydrogenStore.eta_elec h)
                         (HydrogenStore.cap h - HydrogenStore.h2 h))
    by (apply Rmin_nonneg; lra).
  apply Rmult_le_pos; [exact H0 |].
  left. apply Rinv_0_lt_compat. apply Rmult_lt_0_compat; assumption.
Qed.

Lemma fuel_cell_outputs_nonneg (h : HydrogenStore.t) (p dt_h : R) :
  0 < HydrogenStore.eta_fc h <= 1 -> 0 <= HydrogenStore.p_fc_max h ->
  0 <= HydrogenStore.h2 h -> 0 <= p -> 0 < dt_h ->
  0 <= fst (snd (HydrogenStore.fuel_cell h p dt_h)) /\
  0 <= snd (snd (HydrogenStore.fuel_cell h p dt_h)).
Proof.
  intros [Hf Hf1] Hm Hlo Hp Hdt. unfold HydrogenStore.fuel_cell. cbv zeta.
  cbn [fst snd].
  pose proof (requested_nonneg _ _ _ _ Hp Hm Hdt Hf) as Hreq.
  assert (H0 : 0 <= Rmin (Rmin p (HydrogenStore.p_fc_max h) * dt_h / HydrogenStore.eta_fc h)
                         (HydrogenStore.h2 h)) by (apply Rmin_nonneg; assumption).
  set (e := Rmin (Rmin p (HydrogenStore.p_fc_max h) * dt_h / HydrogenStore.eta_fc h)
                 (HydrogenStore.h2 h)) in *.
  assert (Hinv : 0 < / dt_h) by (apply Rinv_0_lt_compat; exact Hdt).
  split.
  - apply Rmult_le_pos; [apply Rmult_le_pos; lra | lra].
  - replace ((e - e * HydrogenStore.eta_fc h / dt_h * dt_h) / dt_h)
      with (e * (1 - HydrogenStore.eta_fc h) * / dt_h) by (field; lra).
    apply Rmult_le_pos; [apply Rmult_le_pos; lra | lra].
Qed.

(** ** Every logged hour *)

(** A relation between row and record that every hour establishes,
    whatever the devices, holds along the log of a run. *)
Lemma run_every_hour (params : SystemParameters.t)
    (Q : Row -> LogRecord -> Prop) :
  (forall b h row, Q row (snd (hour params b h row))) ->
  forall b h df, Forall2 Q df (logs (run (simulator params b h) df)).
Proof.
  intros HQ b h df.
  destruct (run_invariant params (fun _ _ => True) Q)
    with (df := df) (self := simulator params b h)
    as (appended & El & HF & _).
  - intros b' h' row _. split; [exact I | apply HQ].
  - reflexivity.
  - exact I.
  - rewrite El. exact HF.
Qed.

Lemma hour_grid_flow_reported (params : SystemParameters.t) (b : Battery.t)
    (h : HydrogenStore.t) (row : Row) :
  grid_flow_reported (snd (hour params b h row)).
Proof.
  unfold grid_flow_reported.
  destruct (Rge_dec (net_kw params row) 0) as [Hnet | Hnet].
  - destruct (hour_surplus_facts params b h row Hnet)
      as (_ & _ & _ & Ei & _ & _ & _ & _ & _ & _ & Hex).
    cbv zeta in Ei, Hex. rewrite Ei.
    split; [| split; [left; reflexivity | right; reflexivity]].
    destruct Hex as [[Hx ->] | [_ ->]]; [right; exact Hx | left; reflexivity].
  - assert (Hneg : net_kw params row < 0) by lra.
    destruct (hour_deficit_facts params b h row Hneg)
      as (_ & _ & _ & Ex & _ & _ & _ & _ & _ & Him).
    cbv zeta in Ex, Him. rewrite Ex.
    split; [left; reflexivity | split; [| left; reflexivity]].
    destruct Him as [[Hi ->] | [_ ->]]; [right; exact Hi | left; reflexivity].
Qed.

(** X12.  In every hour of every run, whatever the configuration, the
    data and the device states, each logged grid flow is either exactly
    zero or above [EPS], and export and import are never both
    non-zero. *)
Theorem grid_flows_are_zero_or_above_threshold :
  forall (params : SystemParameters.t) (b : Battery.t) (h : HydrogenStore.t)
         (df : list Row),
    Forall grid_flow_reported (logs (run (simulator params b h) df)).
Proof.
  intros params b h df.
  apply (Forall2_right Row LogRecord grid_flow_reported df).
  apply run_every_hour. intros b' h' row. apply hour_grid_flow_reported.
Qed.

(** Over [R], from levels within the capacities, no logged flow is
    negative.  (On binary64 numbers the powers that [charge] and
    [electrolyse] return can be one rounding error below zero, see
    [binary64_power_after_overshoot].) *)
Lemma hour_flows_nonnegative (params : SystemParameters.t) (b : Battery.t)
    (h : HydrogenStore.t) (row : Row) :
  dispatchable b h ->
  flows_nonnegative (snd (hour params b h row)).
Proof.
  intros (Hb & Hc1 & Hh & Hf1 & [Ib Ih]). cbn [fst snd] in Ib, Ih.
  pose proof Ib as [Ib0 Ib1]. pose proof Ih as [Ih0 Ih1].
  pose proof Hb as (Hc & Hd & Hcm & Hdm).
  pose proof Hh as (He & Hf & Hem & Hfm).
  assert (H1 : 0 < 1) by lra.
  pose proof (hour_grid_flow_reported params b h row) as (Hx & Hi & _).
  assert (Hx0 : 0 <= p_grid_export (snd (hour params b h row)))
    by (unfold EPS in Hx; lra).
  assert (Hi0 : 0 <= p_grid_import (snd (hour params b h row)))
    by (unfold EPS in Hi; lra).
  unfold flows_nonnegative.
  destruct (Rge_dec (net_kw params row) 0) as [Hnet | Hnet].
  - destruct (hour_surplus_facts params b h row Hnet)
      as (_ & Ed & Ef & _ & Ew & _ & Ec & _ & _ & Hel & _).
    cbv zeta in *.
    assert (Hc0 : 0 <= p_bat_charge (snd (hour params b h row))).
    { rewrite Ec. apply charge_return_bounds; try assumption; lra. }
    assert (He0 : 0 <= p_elec (snd (hour params b h row))).
    { destruct Hel as [(Hq & _ & ->) | (_ & _ & ->)]; [| lra].
      apply electrolyse_return_nonneg; try assumption; lra. }
    rewrite Ed, Ef, Ew. repeat split; lra.
  - assert (Hneg : net_kw params row < 0) by lra.
    destruct (hour_deficit_facts params b h row Hneg)
      as (_ & Ec & Ee & _ & _ & Ed & _ & _ & Hfc & _).
    cbv zeta in *.
    assert (Hd0 : 0 <= p_bat_discharge (snd (hour params b h row))).
    { rewrite Ed. apply discharge_return_nonneg; try assumption; lra. }
    assert (Hf0 : 0 <= p_fc (snd (hour params b h row))
                  /\ 0 <= heat_from_fc (snd (hour params b h row))).
    { destruct Hfc as [(Hq & _ & _ & -> & ->) | (_ & _ & -> & ->)]; [| lra].
      apply fuel_cell_outputs_nonneg; try assumption; try lra.
      unfold EPS in Hq. lra. }
    rewrite Ec, Ee. repeat split; lra.
Qed.





(** ** Levels and logged flows *)

(** One hour moves each level by the energy the logged flows put in or
    took out on the storage side. *)
Lemma hour_level_changes (params : SystemParameters.t) (b : Battery.t)
    (h : HydrogenStore.t) (row : Row) :
  Battery.eta_d b <> 0 -> HydrogenStore.eta_elec h <> 0 ->
  HydrogenStore.eta_fc h <> 0 ->
  let r := snd (hour params b h row) in
  soc_bat r = Battery.soc b + battery_energy_change (Battery.eta_d b) r /\
  h2_store r = HydrogenStore.h2 h
               + hydrogen_energy_change (HydrogenStore.eta_elec h)
                                        (HydrogenStore.eta_fc h) r.
Proof.
  intros Hd He Hf. cbv zeta.
  unfold battery_energy_change, hydrogen_energy_change, dt.
  destruct (Rge_dec (net_kw params row) 0) as [Hnet | Hnet].
  - destruct (hour_surplus_facts params b h row Hnet)
      as (_ & Edis & Efc & _ & _ & Eb & Ec & Es & Eh & Hel & _).
    cbv zeta in *. rewrite Es, Eh, Edis, Efc, Eb. split.
    + rewrite Ec. unfold Battery.charge. cbv zeta.
      cbn [fst snd Battery.soc Battery.set_soc]. field. exact Hd.
    + destruct Hel as [(_ & -> & ->) | (_ & -> & ->)].
      * unfold HydrogenStore.electrolyse. cbv zeta.
        cbn [fst snd HydrogenStore.h2 HydrogenStore.set_h2]. field.
        split; assumption.
      * field. exact Hf.
  - assert (Hneg : net_kw params row < 0) by lra.
    destruct (hour_deficit_facts params b h row Hneg)
      as (_ & Ec & Ee & _ & Eb & Ed & Es & Eh & Hfc & _).
    cbv zeta in *. rewrite Es, Eh, Ec, Ee, Eb. split.
    + rewrite Ed. unfold Battery.discharge. cbv zeta.
      cbn [fst snd Battery.soc Battery.set_soc]. field. exact Hd.
    + destruct Hfc as [(_ & _ & -> & -> & _) | (_ & -> & -> & _)].
      * unfold HydrogenStore.fuel_cell. cbv zeta.
        cbn [fst snd HydrogenStore.h2 HydrogenStore.set_h2]. field.
        exact Hf.
      * field. exact Hf.
Qed.

Lemma run_levels_accumulate (params : SystemParameters.t) (b : Battery.t)
    (h : HydrogenStore.t) :
  Battery.eta_d b <> 0 -> HydrogenStore.eta_elec h <> 0 ->
  HydrogenStore.eta_fc h <> 0 ->
  forall df self,
    p self = params ->
    battery self = Battery.set_soc b (Battery.soc (battery self)) ->
    h2 self = HydrogenStore.set_h2 h (HydrogenStore.h2 (h2 self)) ->
    exists appended,
      logs (run self df) = logs self ++ appended /\
      map soc_bat appended
        = accumulate (Battery.soc (battery self))
            (map (battery_energy_change (Battery.eta_d b)) appended) /\
      map h2_store appended
        = accumulate (HydrogenStore.h2 (h2 self))
            (map (hydrogen_energy_change (HydrogenStore.eta_elec h)
                                         (HydrogenStore.eta_fc h)) appended).
Proof.
  intros Hd He Hf df.
  induction df as [| row df IH]; intros self Hp Eb Eh.
  - exists []. simpl. rewrite app_nil_r. repeat split.
  - rewrite run_cons.
    destruct (iteration_fields self row) as (Ep' & Eb' & Eh' & El').
    cbv zeta in *.
    destruct (hour_shape (p self) (battery self) (h2 self) row) as [Sb Sh].
    cbv zeta in *.
    destruct (hour_levels (p self) (battery self) (h2 self) row) as [Ls Lh].
    assert (Hd' : Battery.eta_d (battery self) <> 0) by (rewrite Eb; exact Hd).
    assert (He' : HydrogenStore.eta_elec (h2 self) <> 0) by (rewrite Eh; exact He).
    assert (Hf' : HydrogenStore.eta_fc (h2 self) <> 0) by (rewrite Eh; exact Hf).
    destruct (hour_level_changes (p self) (battery self) (h2 self) row Hd' He' Hf')
      as [Cs Ch].
    cbv zeta in *.
    destruct (IH (iteration self row)) as (app' & El & Ms & Mh).
    + rewrite Ep'. exact Hp.
    + rewrite Eb'. rewrite Sb at 1. rewrite Eb. reflexivity.
    + rewrite Eh'. rewrite Sh at 1. rewrite Eh. reflexivity.
    + exists (snd (hour (p self) (battery self) (h2 self) row) :: app').
      split; [| split].
      * rewrite El, El', <- app_assoc. reflexivity.
      * cbn [map accumulate]. rewrite Ms, Eb', <- Ls.
        replace (Battery.eta_d b) with (Battery.eta_d (battery self))
          by (rewrite Eb; reflexivity).
        rewrite <- Cs. reflexivity.
      * cbn [map accumulate]. rewrite Mh, Eh', <- Lh.
        replace (HydrogenStore.eta_elec h) with (HydrogenStore.eta_elec (h2 self))
          by (rewrite Eh; reflexivity).
        replace (HydrogenStore.eta_fc h) with (HydrogenStore.eta_fc (h2 self))
          by (rewrite Eh; reflexivity).
        rewrite <- Ch. reflexivity.
Qed.

(** X15.  The logged storage trajectories follow from the logged flows:
    for non-zero discharge, electrolyser and fuel-cell efficiencies, the
    [soc_bat] column is the running sum, from the initial state of
    charge, of [p_bat_charge * dt - p_bat_discharge * dt / eta_d], and
    the [h2_store] column is the running sum, from the initial level, of
    [eta_elec * p_elec * dt - p_fc * dt / eta_fc]. *)
Theorem levels_accumulate_logged_flows :
  forall (params : SystemParameters.t) (b : Battery.t) (h : HydrogenStore.t)
         (df : list Row),
    Battery.eta_d b <> 0 -> HydrogenStore.eta_elec h <> 0 ->
    HydrogenStore.eta_fc h <> 0 ->
    let res := logs (run (simulator params b h) df) in
    map soc_bat res
      = accumulate (Battery.soc b)
          (map (battery_energy_change (Battery.eta_d b)) res) /\
    map h2_store res
      = accumulate (HydrogenStore.h2 h)
          (map (hydrogen_energy_change (HydrogenStore.eta_elec h)
                                       (HydrogenStore.eta_fc h)) res).
Proof.
  intros params b h df Hd He Hf. cbv zeta.
  destruct (run_levels_accumulate params b h Hd He Hf df (simulator params b h))
    as (appended & El & Ms & Mh).
  - reflexivity.
  - symmetry. apply set_soc_same. reflexivity.
  - symmetry. apply set_h2_same. reflexivity.
  - rewrite El. cbn [simulator logs app battery h2] in *. split; assumption.
Qed.

Lemma levels_accumulate_logged_flows_witness :
  let res := logs (run (simulator default_params default_battery default_store)
                       [surplus_row; deficit_row]) in
  (Battery.eta_d default_battery <> 0 /\
   HydrogenStore.eta_elec default_store <> 0 /\
   HydrogenStore.eta_fc default_store <> 0) /\
  map soc_bat res
    = accumulate (Battery.soc default_battery)
        (map (battery_energy_change (Battery.eta_d default_battery)) res) /\
  map h2_store res
    = accumulate (HydrogenStore.h2 default_store)
        (map (hydrogen_energy_change (HydrogenStore.eta_elec default_store)
                                     (HydrogenStore.eta_fc default_store)) res).
Proof.
  cbv zeta.
  pose proof default_battery_ok as (_ & Hd & _).
  pose proof default_store_ok as (He & Hf & _).
  assert (H1 : Battery.eta_d default_battery <> 0) by lra.
  assert (H2 : HydrogenStore.eta_elec default_store <> 0) by lra.
  assert (H3 : HydrogenStore.eta_fc default_store <> 0) by lra.
  split; [split; [exact H1 | split; [exact H2 | exact H3]] |].
  exact (levels_accumulate_logged_flows default_params default_battery default_store
           [surplus_row; deficit_row] H1 H2 H3).
Defined.

(** ** The grid as last resort *)

(** A discharge that leaves energy in the battery delivered the clamped
    request. *)
Lemma discharge_not_emptied (b : Battery.t) (p dt_h : R) :
  0 < Battery.eta_d b -> 0 < dt_h ->
  Battery.soc (fst (Battery.discharge b p dt_h)) = 0 \/
  snd (Battery.discharge b p dt_h) = Rmin p (Battery.p_discharge_max b).
Proof.
  intros Hd Hdt.
  destruct (Rle_dec (Rmin p (Battery.p_discharge_max b) * dt_h / Battery.eta_d b)
                    (Battery.soc b)) as [Hle | Hgt].
  - right. apply discharge_delivers_request; assumption.
  - left. unfold Battery.discharge. cbv zeta. cbn [fst Battery.soc Battery.set_soc].
    rewrite Rmin_eq_r by lra. ring.
Qed.

Lemma fuel_cell_not_emptied (h : HydrogenStore.t) (p dt_h : R) :
  0 < HydrogenStore.eta_fc h -> 0 < dt_h ->
  HydrogenStore.h2 (fst (HydrogenStore.fuel_cell h p dt_h)) = 0 \/
  fst (snd (HydrogenStore.fuel_cell h p dt_h)) = Rmin p (HydrogenStore.p_fc_max h).
Proof.
  intros Hf Hdt.
  destruct (Rle_dec (Rmin p (HydrogenStore.p_fc_max h) * dt_h / HydrogenStore.eta_fc h)
                    (HydrogenStore.h2 h)) as [Hle | Hgt].
  - right. apply fuel_cell_delivers_request; assumption.
  - left. unfold HydrogenStore.fuel_cell. cbv zeta.
    cbn [fst HydrogenStore.h2 HydrogenStore.set_h2].
    rewrite Rmin_eq_r by lra. ring.
Qed.

(** A charge that leaves headroom stored all that the clamped request
    offers; likewise for the electrolyser, which then drew the clamped
    request. *)
Lemma charge_not_filled (b : Battery.t) (p dt_h : R) :
  0 < dt_h ->
  Battery.soc (fst (Battery.charge b p dt_h)) = Battery.cap b \/
  snd (Battery.charge b p dt_h)
    = Battery.eta_c b * Rmin p (Battery.p_charge_max b).
Proof.
  intros Hdt.
  destruct (Rle_dec (Rmin p (Battery.p_charge_max b) * dt_h * Battery.eta_c b)
                    (Battery.cap b - Battery.soc b)) as [Hle | Hgt].
  - right. unfold Battery.charge. cbv zeta. cbn [snd].
    rewrite Rmin_eq_l by exact Hle. field. lra.
  - left. unfold Battery.charge. cbv zeta. cbn [fst Battery.soc Battery.set_soc].
    rewrite Rmin_eq_r by lra. ring.
Qed.

Lemma electrolyse_not_filled (h : HydrogenStore.t) (p dt_h : R) :
  0 < HydrogenStore.eta_elec h -> 0 < dt_h ->
  HydrogenStore.h2 (fst (HydrogenStore.electrolyse h p dt_h)) = HydrogenStore.cap h \/
  snd (HydrogenStore.electrolyse h p dt_h) = Rmin p (HydrogenStore.p_elec_max h).
Proof.
  intros He Hdt.
  destruct (Rle_dec (Rmin p (HydrogenStore.p_elec_max h) * dt_h * HydrogenStore.eta_elec h)
                    (HydrogenStore.cap h - HydrogenStore.h2 h)) as [Hle | Hgt].
  - right. unfold HydrogenStore.electrolyse. cbv zeta. cbn [snd].
    rewrite Rmin_eq_l by exact Hle. field. split; lra.
  - left. unfold HydrogenStore.electrolyse. cbv zeta.
    cbn [fst HydrogenStore.h2 HydrogenStore.set_h2].
    rewrite Rmin_eq_r by lra. ring.
Qed.

Lemma hour_import_is_last_resort (params : SystemParameters.t) (b : Battery.t)
    (h : HydrogenStore.t) (row : Row) :
  0 < Battery.eta_d b -> 0 < HydrogenStore.eta_fc h ->
  import_is_last_resort b h (snd (hour params b h row)).
Proof.
  intros Hd Hf Himp.
  assert (H1 : 0 < 1) by lra.
  destruct (Rge_dec (net_kw params row) 0) as [Hnet | Hnet].
  - destruct (hour_surplus_facts params b h row Hnet) as (_ & _ & _ & Ei & _).
    cbv zeta in Ei. rewrite Ei in Himp. lra.
  - assert (Hneg : net_kw params row < 0) by lra.
    destruct (hour_deficit_facts params b h row Hneg)
      as (_ & _ & _ & _ & Eb & Ed & Es & Eh & Hfc & Him).
    cbv zeta in *.
    set (r := snd (hour params b h row)) in *.
    set (net := net_kw params row) in *.
    destruct Him as [[Hrem Ei] | [_ Ei]]; [| rewrite Ei in Himp; lra].
    split.
    + rewrite Es, Eb, Ed.
      destruct (discharge_not_emptied b (- net) 1 Hd H1) as [H0 | Hq];
        [left; exact H0 |].
      destruct (Rle_dec (- net) (Battery.p_discharge_max b)) as [Hle | Hgt].
      * (* the battery covered the whole deficit: nothing is imported *)
        exfalso. rewrite Rmin_eq_l in Hq by exact Hle.
        rewrite <- Ed in Hq.
        destruct Hfc as [(Hda & _) | (_ & _ & Ef & _)].
        -- unfold EPS in Hda. lra.
        -- rewrite Ef in Hrem. unfold EPS in Hrem. lra.
      * right. rewrite Hq. apply Rmin_eq_r. lra.
    + destruct Hfc as [(Hda & _ & Eh1 & Ef & _) | ([Hda | Hl] & Eh1 & Ef & _)].
      * rewrite Eh, Eh1, Ef.
        destruct (fuel_cell_not_emptied h (- net - p_bat_discharge r) 1 Hf H1)
          as [H0 | Hq]; [left; rewrite H0; unfold EPS; lra |].
        destruct (Rle_dec (- net - p_bat_discharge r) (HydrogenStore.p_fc_max h))
          as [Hle | Hgt].
        -- exfalso. rewrite Rmin_eq_l in Hq by exact Hle.
           rewrite <- Ef in Hq. unfold EPS in Hrem. lra.
        -- right. rewrite Hq. apply Rmin_eq_r. lra.
      * exfalso. rewrite Ef in Hrem. lra.
      * left. rewrite Eh, Eh1. exact Hl.
Qed.

(** X16.  Grid import is the last resort.  In every hour of a run from
    dispatchable devices in which something is imported, the battery
    ended the hour empty or delivered its discharge power limit, and the
    hydrogen level ended at most at [EPS] or the fuel cell delivered its
    power limit. *)
Theorem grid_import_is_last_resort :
  forall (params : SystemParameters.t) (b : Battery.t) (h : HydrogenStore.t)
         (df : list Row),
    dispatchable b h ->
    Forall (import_is_last_resort b h) (logs (run (simulator params b h) df)).
Proof.
  intros params b h df Hd.
  apply (Forall2_right Row LogRecord (import_is_last_resort b h) df).
  apply run_hours; [exact Hd |].
  intros v w row ((_ & Hed & _) & _ & (_ & Hef & _) & _).
  exact (hour_import_is_last_resort params (Battery.set_soc b v)
           (HydrogenStore.set_h2 h w) row Hed Hef).
Qed.

Lemma grid_import_is_last_resort_witness :
  dispatchable default_battery default_store /\
  Forall (import_is_last_resort default_battery default_store)
         (logs (run (simulator default_params default_battery default_store)
                    [surplus_row; deficit_row])).
Proof.
  split; [exact default_dispatchable |].
  exact (grid_import_is_last_resort default_params default_battery default_store
           [surplus_row; deficit_row] default_dispatchable).
Defined.

Lemma hour_export_is_last_resort (params : SystemParameters.t) (b : Battery.t)
    (h : HydrogenStore.t) (row : Row) :
  0 < HydrogenStore.eta_elec h ->
  export_is_last_resort b h (snd (hour params b h row)).
Proof.
  intros He Hexp.
  assert (H1 : 0 < 1) by lra.
  destruct (Rge_dec (net_kw params row) 0) as [Hnet | Hnet].
  - destruct (hour_surplus_facts params b h row Hnet)
      as (_ & _ & _ & _ & _ & Eb & Ec & Es & Eh & Hel & Hex).
    pose proof (hour_net_before params b h row) as En.
    cbv zeta in *.
    set (r := snd (hour params b h row)) in *.
    set (net := net_kw params row) in *.
    destruct Hex as [[Hrem Ex] | [_ Ex]]; [| rewrite Ex in Hexp; lra].
    split.
    + rewrite Es, Eb, Ec, En.
      exact (charge_not_filled b net 1 H1).
    + destruct Hel as [(Hna & Eh1 & Ee) | (Hna & _ & Ee)].
      * rewrite Eh, Eh1, Ee.
        destruct (electrolyse_not_filled h (net - p_bat_charge r) 1 He H1)
          as [Hfull | Hq]; [left; exact Hfull |].
        destruct (Rle_dec (net - p_bat_charge r) (HydrogenStore.p_elec_max h))
          as [Hle | Hgt].
        -- exfalso. rewrite Rmin_eq_l in Hq by exact Hle.
           rewrite <- Ee in Hq. unfold EPS in Hrem. lra.
        -- right. rewrite Hq. apply Rmin_eq_r. lra.
      * exfalso. rewrite Ee in Hrem. unfold EPS in Hrem. lra.
  - assert (Hneg : net_kw params row < 0) by lra.
    destruct (hour_deficit_facts params b h row Hneg) as (_ & _ & _ & Ex & _).
    cbv zeta in Ex. rewrite Ex in Hexp. lra.
Qed.

(** X17.  Grid export is the last resort.  In every hour of a run from
    dispatchable devices in which something is exported, the battery
    ended the hour full or stored all that the clamped surplus offers
    (charge efficiency times the smaller of surplus and charge limit),
    and the hydrogen tank ended full or the electrolyser drew its power
    limit. *)
Theorem grid_export_is_last_resort :
  forall (params : SystemParameters.t) (b : Battery.t) (h : HydrogenStore.t)
         (df : list Row),
    dispatchable b h ->
    Forall (export_is_last_resort b h) (logs (run (simulator params b h) df)).
Proof.
  intros params b h df Hd.
  apply (Forall2_right Row LogRecord (export_is_last_resort b h) df).
  apply run_hours; [exact Hd |].
  intros v w row (_ & _ & (Hee & _) & _).
  exact (hour_export_is_last_resort params (Battery.set_soc b v)
           (HydrogenStore.set_h2 h w) row Hee).
Qed.

Lemma scenario_D_params_valid : valid_configuration scenario_D_params.
Proof.
  unfold valid_configuration, scenario_D_params. cbn. repeat split; lra.
Qed.

(** The log of a run over one row is the record of that hour. *)
Lemma run_one_hour (params : SystemParameters.t) (b : Battery.t)
    (h : HydrogenStore.t) (row : Row) :
  logs (run (simulator params b h) [row]) = [snd (hour params b h row)].
Proof.
  rewrite run_cons.
  destruct (iteration_fields (simulator params b h) row) as (_ & _ & _ & El).
  exact El.
Qed.

Lemma grid_export_is_last_resort_witness :
  let b := Battery.init scenario_D_params in
  let h := HydrogenStore.init scenario_D_params in
  let r := snd (hour scenario_D_params b h scenario_D_row) in
  dispatchable b h /\
  logs (run (simulator scenario_D_params b h) [scenario_D_row]) = [r] /\
  p_grid_export r > 0 /\
  (soc_bat r = Battery.cap b \/
   p_bat_charge r
     = Battery.eta_c b * Rmin (net_before r) (Battery.p_charge_max b)) /\
  (h2_store r = HydrogenStore.cap h \/ p_elec r = HydrogenStore.p_elec_max h).
Proof.
  cbv zeta.
  pose proof (valid_configuration_dispatchable scenario_D_params
                scenario_D_params_valid) as Hd.
  pose proof (grid_export_is_last_resort scenario_D_params _ _
                [scenario_D_row] Hd) as HF.
  rewrite run_one_hour in HF. apply Forall_inv in HF.
  destruct (scenario_D_hour scenario_D_params _ _ scenario_D_row scenario_D_holds)
    as (Ex & _).
  assert (Hexp : p_grid_export
                   (snd (hour scenario_D_params (Battery.init scenario_D_params)
                           (HydrogenStore.init scenario_D_params) scenario_D_row)) > 0)
    by (rewrite Ex; lra).
  split; [exact Hd |].
  split; [apply run_one_hour |].
  split; [exact Hexp |].
  exact (HF Hexp).
Defined.

(** ** Hours with nothing in store, or no room left *)

(** X18.  A deficit hour that finds the battery empty and the hydrogen
    level at most at [EPS] leaves both devices untouched, logs no
    battery discharge, no fuel-cell power and no waste heat, and imports
    the whole deficit (nothing if the deficit is at most [EPS]). *)
Theorem deficit_with_empty_storage :
  forall (params : SystemParameters.t) (b : Battery.t) (h : HydrogenStore.t)
         (row : Row),
    battery_ok b -> Battery.soc b = 0 -> HydrogenStore.h2 h <= EPS ->
    net_kw params row < 0 ->
    let r := snd (hour params b h row) in
    fst (hour params b h row) = (b, h) /\
    p_bat_discharge r = 0 /\ p_fc r = 0 /\ heat_from_fc r = 0 /\
    ((- net_kw params row > EPS /\ p_grid_import r = - net_kw params row) \/
     (- net_kw params row <= EPS /\ p_grid_import r = 0)).
Proof.
  intros params b h row Hb Hsoc Hlvl Hneg. cbv zeta.
  destruct (hour_deficit_facts params b h row Hneg)
    as (_ & _ & _ & _ & Eb & Ed & _ & _ & Hfc & Him).
  cbv zeta in *.
  assert (Hidle : Battery.discharge b (- net_kw params row) 1 = (b, 0)).
  { apply discharge_idle; try assumption; try lra; left; exact Hsoc. }
  rewrite Hidle in Eb, Ed. cbn [fst snd] in Eb, Ed.
  destruct Hfc as [(_ & Hl & _) | (_ & Eh & Ef & Ew)]; [lra |].
  rewrite Ed, Ef in Him. rewrite Ed, Ef, Ew.
  split.
  - destruct (fst (hour params b h row)) as [b1 h1]. cbn [fst snd] in Eb, Eh.
    rewrite Eb, Eh. reflexivity.
  - repeat split; try reflexivity.
    destruct Him as [[H1 H2] | [H1 H2]]; [left | right]; split; lra.
Qed.

Lemma deficit_with_empty_storage_witness :
  let b := Battery.set_soc default_battery 0 in
  let h := HydrogenStore.set_h2 default_store 0 in
  let r := snd (hour default_params b h deficit_row) in
  (battery_ok b /\ Battery.soc b = 0 /\ HydrogenStore.h2 h <= EPS /\
   net_kw default_params deficit_row < 0) /\
  fst (hour default_params b h deficit_row) = (b, h) /\
  p_bat_discharge r = 0 /\ p_fc r = 0 /\ heat_from_fc r = 0 /\
  ((- net_kw default_params deficit_row > EPS /\
    p_grid_import r = - net_kw default_params deficit_row) \/
   (- net_kw default_params deficit_row <= EPS /\ p_grid_import r = 0)).
Proof.
  cbv zeta.
  assert (H1 : battery_ok (Battery.set_soc default_battery 0))
    by exact default_battery_ok.
  assert (H2 : Battery.soc (Battery.set_soc default_battery 0) = 0) by reflexivity.
  assert (H3 : HydrogenStore.h2 (HydrogenStore.set_h2 default_store 0) <= EPS)
    by (unfold EPS; simpl; lra).
  assert (H4 : net_kw default_params deficit_row < 0)
    by (rewrite deficit_row_net; lra).
  split; [split; [exact H1 | split; [exact H2 | split; [exact H3 | exact H4]]] |].
  exact (deficit_with_empty_storage default_params _ _ deficit_row H1 H2 H3 H4).
Defined.

(** X19.  A surplus hour that finds the battery full and the hydrogen
    tank full leaves both devices untouched, logs no battery charge and
    no electrolyser power, and exports the whole surplus (nothing if the
    surplus is at most [EPS]). *)
Theorem surplus_with_full_storage :
  forall (params : SystemParameters.t) (b : Battery.t) (h : HydrogenStore.t)
         (row : Row),
    battery_ok b -> store_ok h ->
    Battery.soc b = Battery.cap b -> HydrogenStore.h2 h = HydrogenStore.cap h ->
    net_kw params row >= 0 ->
    let r := snd (hour params b h row) in
    fst (hour params b h row) = (b, h) /\
    p_bat_charge r = 0 /\ p_elec r = 0 /\
    ((net_kw params row > EPS /\ p_grid_export r = net_kw params row) \/
     (net_kw params row <= EPS /\ p_grid_export r = 0)).
Proof.
  intros params b h row Hb Hh Hsoc Hlvl Hnet. cbv zeta.
  destruct (hour_surplus_facts params b h row Hnet)
    as (_ & _ & _ & _ & _ & Eb & Ec & _ & _ & Hel & Hex).
  cbv zeta in *.
  assert (H1 : 0 < 1) by lra.
  assert (Hidle : Battery.charge b (net_kw params row) 1 = (b, 0)).
  { apply charge_idle; try assumption; try lra; left; exact Hsoc. }
  rewrite Hidle in Eb, Ec. cbn [fst snd] in Eb, Ec.
  rewrite Ec in Hel.
  assert (Hstore : snd (fst (hour params b h row)) = h
                   /\ p_elec (snd (hour params b h row)) = 0).
  { destruct Hel as [(Hq & Eh & Ee) | (_ & Eh & Ee)]; [| split; assumption].
    assert (Hq0 : 0 <= net_kw params row - 0) by lra.
    destruct (hydrogen_idle h (net_kw params row - 0) 1 Hh Hq0 H1) as [Hfull _].
    rewrite (Hfull Hlvl) in Eh, Ee. split; assumption. }
  destruct Hstore as [Eh Ee].
  rewrite Ec, Ee in Hex. rewrite Ec, Ee.
  split.
  - destruct (fst (hour params b h row)) as [b1 h1]. cbn [fst snd] in Eb, Eh.
    rewrite Eb, Eh. reflexivity.
  - repeat split; try reflexivity.
    destruct Hex as [[H2 H3] | [H2 H3]]; [left | right]; split; lra.
Qed.

Lemma surplus_with_full_storage_witness :
  let b := Battery.set_soc default_battery 82 in
  let h := HydrogenStore.set_h2 default_store 1000 in
  let r := snd (hour default_params b h surplus_row) in
  (battery_ok b /\ store_ok h /\ Battery.soc b = Battery.cap b /\
   HydrogenStore.h2 h = HydrogenStore.cap h /\
   net_kw default_params surplus_row >= 0) /\
  fst (hour default_params b h surplus_row) = (b, h) /\
  p_bat_charge r = 0 /\ p_elec r = 0 /\
  ((net_kw default_params surplus_row > EPS /\
    p_grid_export r = net_kw default_params surplus_row) \/
   (net_kw default_params surplus_row <= EPS /\ p_grid_export r = 0)).
Proof.
  cbv zeta.
  assert (H1 : battery_ok (Battery.set_soc default_battery 82))
    by exact default_battery_ok.
  assert (H2 : store_ok (HydrogenStore.set_h2 default_store 1000))
    by exact default_store_ok.
  assert (H3 : Battery.soc (Battery.set_soc default_battery 82)
               = Battery.cap (Battery.set_soc default_battery 82)) by reflexivity.
  assert (H4 : HydrogenStore.h2 (HydrogenStore.set_h2 default_store 1000)
               = HydrogenStore.cap (HydrogenStore.set_h2 default_store 1000))
    by reflexivity.
  assert (H5 : net_kw default_params surplus_row >= 0)
    by (rewrite surplus_row_net; lra).
  split.
  - split; [exact H1 | split; [exact H2 | split; [exact H3 | split; [exact H4 | exact H5]]]].
  - exact (surplus_with_full_storage default_params _ _ surplus_row H1 H2 H3 H4 H5).
Defined.

(** ** Heat-pump draw *)

Lemma hour_heat_pump (params : SystemParameters.t) (b : Battery.t)
    (h : HydrogenStore.t) (row : Row) :
  let r := snd (hour params b h row) in
  hp_electricity r
    = (space_heat_column row + dhw_column row)
      / Rmax (cop_col (SystemParameters.heat_pump_type params) row) 0.1 / dt /\
  load r = plug_column row + hp_electricity r.
Proof.
  unfold hour. cbv zeta.
  destruct (Rgeb _ 0).
  - destruct (surplus _ _ _) as [[b1 h1] [[c e] x]]. split; reflexivity.
  - destruct (deficit _ _ _) as [[b1 h1] [[[d f] w] i]]. split; reflexivity.
Qed.

Lemma hour_heat_pump_draw_bounded (params : SystemParameters.t) (b : Battery.t)
    (h : HydrogenStore.t) (row : Row) :
  heat_pump_draw_bounded (SystemParameters.heat_pump_type params) row
                         (snd (hour params b h row)).
Proof.
  destruct (hour_heat_pump params b h row) as [Ehp Eload]. cbv zeta in *.
  unfold heat_pump_draw_bounded. cbv zeta.
  set (heat := space_heat_column row + dhw_column row) in *.
  set (cop := cop_col (SystemParameters.heat_pump_type params) row) in *.
  pose proof (Rmax_r cop 0.1) as Hfloor.
  assert (Hpos : 0 < Rmax cop 0.1) by lra.
  split; [exact Eload | split].
  - intros Hheat. rewrite Ehp. unfold dt.
    assert (Hinv : 0 < / Rmax cop 0.1) by (apply Rinv_0_lt_compat; exact Hpos).
    replace (heat / Rmax cop 0.1 / 1) with (heat * / Rmax cop 0.1) by (field; lra).
    split; [apply Rmult_le_pos; lra |].
    apply (Rmult_le_reg_r (Rmax cop 0.1)); [exact Hpos |].
    replace (heat * / Rmax cop 0.1 * Rmax cop 0.1) with heat by (field; lra).
    assert (heat * 0.1 <= heat * Rmax cop 0.1)
      by (apply Rmult_le_compat_l; lra).
    lra.
  - intros Hlow. rewrite Ehp. unfold dt.
    rewrite Rmax_right by exact Hlow. lra.
Qed.


(** ** The log as a whole *)

(** X21.  [run] only appends: after a run the log consists of the
    records it held before followed by exactly one record per row of the
    data frame, and the configuration is unchanged; an empty data frame
    changes nothing; and running one frame after another on the same
    simulator is the same as running their concatenation. *)
Theorem run_appends_one_record_per_row :
  forall (self : MicrogridSimulator.t) (df1 df2 : list Row),
    (exists appended,
        logs (run self df1) = logs self ++ appended /\
        length appended = length df1) /\
    p (run self df1) = p self /\
    run self [] = self /\
    run (run self df1) df2 = run self (df1 ++ df2).
Proof.
  intros self df1 df2.
  destruct (run_invariant (p self) (fun _ _ => True) (fun _ _ => True))
    with (df := df1) (self := self) as (appended & El & HF & _).
  - intros; split; exact I.
  - reflexivity.
  - exact I.
  - split; [| split; [| split]].
    + exists appended. split; [exact El |].
      symmetry. exact (Forall2_length HF).
    + clear. revert self. induction df1 as [| row df IH]; intros self.
      * reflexivity.
      * rewrite run_cons, IH.
        destruct (iteration_fields self row) as [Ep _]. exact Ep.
    + reflexivity.
    + unfold run. rewrite fold_left_app. reflexivity.
Qed.

(** ** The annual grid balance *)

Lemma hour_grid_balance_bounds (params : SystemParameters.t) (b : Battery.t)
    (h : HydrogenStore.t) (row : Row) :
  dispatchable b h ->
  let r := snd (hour params b h row) in
  Rmin (net_before r) 0 <= p_grid_export r - p_grid_import r
    <= Rmax (net_before r) 0.
Proof.
  intros Hd. cbv zeta.
  pose proof (hour_flows_nonnegative params b h row Hd)
    as (Hc & Hdis & He & Hf & Hx & Hi & _).
  destruct Hd as ((Hec & Hed & Hcm & _) & Hc1 & (Hee & Hef & _) & _).
  rewrite hour_net_before.
  destruct (Rge_dec (net_kw params row) 0) as [Hnet | Hnet].
  - destruct (surplus b h (net_kw params row)) as [[b1 h1] [[c e] x]] eqn:Hs.
    destruct (hour_surplus params b h row Hnet _ _ _ _ _ Hs)
      as (_ & _ & Ec & _ & Ee & _ & Ex & Ei & _).
    pose proof (surplus_residual b h (net_kw params row) (conj Hec Hc1) Hcm Hee
                  Hnet _ _ _ _ _ Hs) as Hr.
    rewrite Ec in Hc. rewrite Ee in He. rewrite Ex in Hx |- *. rewrite Ei.
    rewrite Rmin_eq_r by lra. rewrite Rmax_left by lra. lra.
  - assert (Hneg : net_kw params row < 0) by lra.
    destruct (deficit b h (net_kw params row)) as [[b1 h1] [[[d f] w] i]] eqn:Hs.
    destruct (hour_deficit params b h row Hneg _ _ _ _ _ _ Hs)
      as (_ & _ & _ & Ed & _ & Ef & Ex & Ei & _).
    pose proof (deficit_residual b h (net_kw params row) Hed Hef
                  _ _ _ _ _ _ Hs) as Hr.
    rewrite Ed in Hdis. rewrite Ef in Hf. rewrite Ei in Hi |- *. rewrite Ex.
    rewrite Rmin_eq_l by lra. rewrite Rmax_right by lra. lra.
Qed.

Lemma annual_balance_cons (r : LogRecord) (res : list LogRecord) :
  annual_balance (r :: res)
    = (p_grid_export r - p_grid_import r) + annual_balance res.
Proof. unfold annual_balance. cbn [map fold_right]. ring. Qed.

(** X22.  The grid never takes more than the surplus nor gives more than
    the deficit: for a run from dispatchable devices, the annual grid
    balance (total export minus total import) lies between the sum of
    the hourly deficits (the negative net balances) and the sum of the
    hourly surpluses (the positive net balances). *)
Theorem annual_balance_is_bounded_by_net_balance :
  forall (params : SystemParameters.t) (b : Battery.t) (h : HydrogenStore.t)
         (df : list Row),
    dispatchable b h ->
    let res := logs (run (simulator params b h) df) in
    fold_right Rplus 0 (map (fun r => Rmin (net_before r) 0) res)
      <= annual_balance res
      <= fold_right Rplus 0 (map (fun r => Rmax (net_before r) 0) res).
Proof.
  intros params b h df Hd. cbv zeta.
  assert (HF : Forall (fun r => Rmin (net_before r) 0
                                <= p_grid_export r - p_grid_import r
                                <= Rmax (net_before r) 0)
                      (logs (run (simulator params b h) df))).
  { apply (Forall2_right Row LogRecord _ df).
    apply run_hours; [exact Hd |].
    intros v w row Hd'. apply (hour_grid_balance_bounds params _ _ row Hd'). }
  induction HF as [| r res Hr _ IH].
  - unfold annual_balance. simpl. lra.
  - rewrite annual_balance_cons. cbn [map fold_right]. lra.
Qed.

Lemma annual_balance_is_bounded_by_net_balance_witness :
  let res := logs (run (simulator default_params default_battery default_store)
                       [surplus_row; deficit_row]) in
  dispatchable default_battery default_store /\
  fold_right Rplus 0 (map (fun r => Rmin (net_before r) 0) res)
    <= annual_balance res
    <= fold_right Rplus 0 (map (fun r => Rmax (net_before r) 0) res).
Proof.
  cbv zeta. split; [exact default_dispatchable |].
  exact (annual_balance_is_bounded_by_net_balance default_params default_battery
           default_store [surplus_row; deficit_row] default_dispatchable).
Defined.

(** X23.  The label printed for the annual balance: "Zero-energy"
    exactly when the balance is within 0.01 kWh of zero, "Surplus"
    exactly when it is above 0.01, "Deficit" exactly when it is below
    -0.01. *)
Theorem classify_thresholds :
  forall x : R,
    (classify x = Zero_energy <-> - 0.01 <= x <= 0.01) /\
    (classify x = Surplus <-> x > 0.01) /\
    (classify x = Deficit <-> x < - 0.01).
Proof.
  intros x. unfold classify, isclose.
  rewrite Rabs_R0. replace (x - 0) with x by ring.
  destruct (Rgeb_cases (1e-2 + 1e-05 * 0) (Rabs x)) as [[Hc E] | [Hc E]];
    rewrite E.
  - assert (Hx : - 0.01 <= x <= 0.01).
    { unfold Rabs in Hc. destruct (Rcase_abs x); lra. }
    split; [split; [intros _; exact Hx | reflexivity] |].
    split; (split; [discriminate | lra]).
  - assert (Hx : x < - 0.01 \/ x > 0.01).
    { unfold Rabs in Hc. destruct (Rcase_abs x); lra. }
    destruct (Rgtb_cases x 0) as [[Hp Ep] | [Hp Ep]]; rewrite Ep.
    + split; [split; [discriminate | lra] |].
      split; [split; [lra | reflexivity] | split; [discriminate | lra]].
    + split; [split; [discriminate | lra] |].
      split; [split; [discriminate | lra] | split; [lra | reflexivity]].
Qed.

(** * The data behind the figures *)

(** ** Daily sums *)

Lemma total_app (l1 l2 : list R) :
  Plotter.total (l1 ++ l2) = Plotter.total l1 + Plotter.total l2.
Proof.
  unfold Plotter.total. induction l1 as [| x l1 IH]; simpl; [ring |].
  rewrite IH. ring.
Qed.

Lemma total_single (x : R) : Plotter.total [x] = x.
Proof. unfold Plotter.total. simpl. ring. Qed.

Lemma firstn_plus (A : Type) (a k : nat) (l : list A) :
  firstn (a + k) l = firstn a l ++ firstn k (skipn a l).
Proof.
  revert l. induction a as [| a IH]; intros l; [reflexivity |].
  destruct l as [| x l]; simpl.
  - destruct k; reflexivity.
  - rewrite IH. reflexivity.
Qed.

(** The first [m] daily sums add up to the first [24 * m] hours. *)
Lemma total_of_days (series : list R) (m : nat) :
  Plotter.total
    (map (fun day => Plotter.total (firstn 24 (skipn (24 * day) series)))
         (seq 0 m))
  = Plotter.total (firstn (24 * m) series).
Proof.
  induction m as [| m IH].
  - reflexivity.
  - rewrite seq_S, map_app, total_app, IH. cbn [map Nat.add].
    replace (24 * S m)%nat with (24 * m + 24)%nat by lia.
    rewrite firstn_plus, total_app, total_single. reflexivity.
Qed.

Lemma days_cover_series (n : nat) : (n <= 24 * ((n + 23) / 24))%nat.
Proof.
  pose proof (Nat.mul_succ_div_gt (n + 23) 24) as H. lia.
Qed.

(** X24.  [_daily_sum] loses nothing: the daily sums of a series add up
    to the sum of the series, there are [ceil(n / 24)] of them for [n]
    hours (so none for an empty series), and every full day is the sum
    of its 24 hours. *)
Theorem daily_sum_preserves_total :
  forall series : list R,
    Plotter.total (Plotter.daily_sum series) = Plotter.total series /\
    length (Plotter.daily_sum series) = ((length series + 23) / 24)%nat /\
    (forall day,
        (24 * day + 24 <= length series)%nat ->
        nth_error (Plotter.daily_sum series) day
          = Some (Plotter.total (firstn 24 (skipn (24 * day) series))) /\
        length (firstn 24 (skipn (24 * day) series)) = 24%nat).
Proof.
  intros series. unfold Plotter.daily_sum. split; [| split].
  - rewrite total_of_days.
    rewrite firstn_all2 by apply days_cover_series. reflexivity.
  - rewrite length_map, length_seq. reflexivity.
  - intros day Hday. split.
    + assert (Hlt : (day < (length series + 23) / 24)%nat).
      { assert (S day <= (length series + 23) / 24)%nat
          by (apply Nat.div_le_lower_bound; lia).
        lia. }
      rewrite nth_error_map, nth_error_seq.
      destruct (Nat.ltb_spec day ((length series + 23) / 24)) as [_ | Hge];
        [reflexivity | lia].
    + rewrite length_firstn, length_skipn. lia.
Qed.

(** ** The electricity split *)

Lemma clip_lower_0_cases (x : R) :
  (0 <= x /\ Plotter.clip_lower_0 x = x) \/ (x < 0 /\ Plotter.clip_lower_0 x = 0).
Proof.
  unfold Plotter.clip_lower_0.
  destruct (Rle_dec 0 x) as [H | H].
  - left. split; [exact H | apply Rmax_left; exact H].
  - right. split; [lra | apply Rmax_right; lra].
Qed.

Lemma split_row_covers_load (r : LogRecord) :
  split_covers_load r (Plotter.split_row r).
Proof.
  unfold split_covers_load, Plotter.split_row. cbv zeta.
  cbn [Plotter.PV Plotter.Battery_share Plotter.Fuel_cell Plotter.Grid_import].
  destruct (clip_lower_0_cases (p_bat_discharge r)) as [[Hb Eb] | [Hb Eb]];
    destruct (clip_lower_0_cases (p_fc r)) as [[Hf Ef] | [Hf Ef]];
    destruct (clip_lower_0_cases (p_grid_import r)) as [[Hg Eg] | [Hg Eg]];
    rewrite Eb, Ef, Eg;
    match goal with |- context [Plotter.clip_lower_0 ?x] =>
      destruct (clip_lower_0_cases x) as [[Hp Ep] | [Hp Ep]]; rewrite Ep
    end;
    repeat split; intros; lra.
Qed.

(** X25.  [_compute_electricity_split] returns one row per logged hour;
    in each, no share is negative, the four shares together are at least
    the load, and they are exactly the load whenever the logged battery
    discharge, fuel-cell power and grid import are non-negative and
    together do not exceed it. *)
Theorem electricity_split_covers_load :
  forall res : list LogRecord,
    Forall2 split_covers_load res (Plotter.compute_electricity_split res).
Proof.
  intros res. unfold Plotter.compute_electricity_split.
  induction res as [| r res IH]; simpl; constructor.
  - apply split_row_covers_load.
  - exact IH.
Qed.

Lemma hour_pv_ac (params : SystemParameters.t) (b : Battery.t)
    (h : HydrogenStore.t) (row : Row) :
  pv_ac (snd (hour params b h row))
    = pv_column row * SystemParameters.eta_inv params.
Proof.
  unfold hour. cbv zeta.
  destruct (Rgeb _ 0).
  - destruct (surplus _ _ _) as [[b1 h1] [[c e] x]]. reflexivity.
  - destruct (deficit _ _ _) as [[b1 h1] [[[d f] w] i]]. reflexivity.
Qed.

Lemma hour_split_matches_log (params : SystemParameters.t) (b : Battery.t)
    (h : HydrogenStore.t) (row : Row) :
  dispatchable b h -> 0 <= SystemParameters.eta_inv params ->
  row_nonnegative row ->
  split_matches_log (snd (hour params b h row))
                    (Plotter.split_row (snd (hour params b h row))).
Proof.
  intros Hd Hinv (Hpv & Hplug & Hheat).
  pose proof (hour_flows_nonnegative params b h row Hd)
    as (_ & Hdis & _ & Hf & _ & Hi & _).
  pose proof (hour_pv_ac params b h row) as Epv.
  destruct (hour_heat_pump_draw_bounded params b h row) as (Eload & Hhp & _).
  specialize (Hhp Hheat).
  assert (Hpv0 : 0 <= pv_ac (snd (hour params b h row)))
    by (rewrite Epv; apply Rmult_le_pos; assumption).
  assert (Hload0 : 0 <= load (snd (hour params b h row))) by lra.
  destruct Hd as ((_ & Hed & _) & _ & (_ & Hef & _) & _).
  unfold split_matches_log, Plotter.split_row. cbv zeta.
  cbn [Plotter.PV Plotter.Battery_share Plotter.Fuel_cell Plotter.Grid_import].
  set (r := snd (hour params b h row)) in *.
  assert (Eb : Plotter.clip_lower_0 (p_bat_discharge r) = p_bat_discharge r)
    by (apply Rmax_left; exact Hdis).
  assert (Ef : Plotter.clip_lower_0 (p_fc r) = p_fc r)
    by (apply Rmax_left; exact Hf).
  assert (Eg : Plotter.clip_lower_0 (p_grid_import r) = p_grid_import r)
    by (apply Rmax_left; exact Hi).
  rewrite !Eb, !Ef, !Eg.
  assert (Hrem : 0 <= load r - p_bat_discharge r - p_fc r - p_grid_import r
                 <= pv_ac r + EPS).
  { destruct (Rge_dec (net_kw params row) 0) as [Hnet | Hnet].
    - destruct (hour_surplus_facts params b h row Hnet)
        as (En & Edis & Efc & Eimp & _).
      cbv zeta in *. fold r in En, Edis, Efc, Eimp.
      rewrite Edis, Efc, Eimp. unfold EPS. lra.
    - assert (Hneg : net_kw params row < 0) by lra.
      destruct (deficit b h (net_kw params row)) as [[b1 h1] [[[d f] w] i]] eqn:Hs.
      destruct (hour_deficit params b h row Hneg _ _ _ _ _ _ Hs)
        as (_ & En & _ & Ed & _ & Ef' & _ & Ei & _).
      pose proof (deficit_residual b h (net_kw params row) Hed Hef
                    _ _ _ _ _ _ Hs) as Hr.
      cbv zeta in *. fold r in En, Ed, Ef', Ei.
      rewrite Ed, Ef', Ei. lra. }
  assert (Ep : Plotter.clip_lower_0
                 (load r - p_bat_discharge r - p_fc r - p_grid_import r)
               = load r - p_bat_discharge r - p_fc r - p_grid_import r)
    by (apply Rmax_left; lra).
  rewrite Ep. repeat split; try reflexivity; lra.
Qed.

Lemma Forall2_under_Forall (A B : Type) (P : A -> Prop) (Q : A -> B -> Prop)
    (l : list A) (l' : list B) :
  Forall P l -> Forall2 (fun x y => P x -> Q x y) l l' -> Forall2 Q l l'.
Proof.
  intros HP HF. induction HF as [| x y l l' Hxy _ IH]; constructor.
  - apply Hxy. inversion HP; assumption.
  - apply IH. inversion HP; assumption.
Qed.

(** X26.  On what the simulator logs, the electricity split is exact.
    For a run from dispatchable devices with a non-negative inverter
    efficiency over non-negative data, in every hour the battery,
    fuel-cell and grid shares are the logged flows unclipped, the four
    shares add up to the logged load, and the PV share exceeds the
    logged PV output by at most [EPS]. *)
Theorem electricity_split_of_a_run :
  forall (params : SystemParameters.t) (b : Battery.t) (h : HydrogenStore.t)
         (df : list Row),
    dispatchable b h -> 0 <= SystemParameters.eta_inv params ->
    Forall row_nonnegative df ->
    let res := logs (run (simulator params b h) df) in
    Forall2 split_matches_log res (Plotter.compute_electricity_split res).
Proof.
  intros params b h df Hd Hinv Hrows. cbv zeta.
  assert (HF : Forall2 (fun row r => split_matches_log r (Plotter.split_row r))
                       df (logs (run (simulator params b h) df))).
  { apply Forall2_under_Forall with (P := row_nonnegative); [exact Hrows |].
    apply run_hours; [exact Hd |].
    intros v w row Hd' Hrow. apply hour_split_matches_log; assumption. }
  unfold Plotter.compute_electricity_split.
  induction HF as [| row r df' res Hr _ IH]; simpl; constructor.
  - exact Hr.
  - apply IH. inversion Hrows; assumption.
Qed.

Lemma sample_rows_nonnegative : Forall row_nonnegative [surplus_row; deficit_row].
Proof. repeat constructor; simpl; lra. Qed.

Lemma electricity_split_of_a_run_witness :
  let res := logs (run (simulator default_params default_battery default_store)
                       [surplus_row; deficit_row]) in
  (dispatchable default_battery default_store /\
   0 <= SystemParameters.eta_inv default_params /\
   Forall row_nonnegative [surplus_row; deficit_row]) /\
  Forall2 split_matches_log res (Plotter.compute_electricity_split res).
Proof.
  cbv zeta.
  assert (Hinv : 0 <= SystemParameters.eta_inv default_params) by (simpl; lra).
  split.
  - split; [exact default_dispatchable | split; [exact Hinv |]].
    exact sample_rows_nonnegative.
  - exact (electricity_split_of_a_run default_params default_battery default_store
             [surplus_row; deficit_row] default_dispatchable Hinv
             sample_rows_nonnegative).
Defined.

(** ** State of charge in percent *)



(** ** Daily unserved energy *)

(** Values that are zero or above a positive threshold add up to zero or
    to more than the threshold. *)
Lemma total_zero_or_above (e : R) (l : list R) :
  0 < e ->
  Forall (fun x => x = 0 \/ x > e) l ->
  Plotter.total l = 0 \/ Plotter.total l > e.
Proof.
  intros He HF. unfold Plotter.total.
  assert (H : (fold_right Rplus 0 l = 0 \/ fold_right Rplus 0 l > e)
              /\ 0 <= fold_right Rplus 0 l).
  { induction HF as [| x l Hx _ IH]; simpl.
    - split; [left; reflexivity | lra].
    - destruct IH as [IH0 IHpos].
      destruct Hx as [Hx | Hx], IH0 as [E | E]; split; lra. }
  exact (proj1 H).
Qed.

Lemma Forall_firstn_skipn (A : Type) (P : A -> Prop) (n k : nat) (l : list A) :
  Forall P l -> Forall P (firstn n (skipn k l)).
Proof.
  intros HF. apply Forall_forall. intros x Hin.
  apply (proj1 (Forall_forall P l) HF).
  rewrite <- (firstn_skipn k l). apply in_or_app. right.
  revert Hin. generalize (skipn k l). intros l' Hin.
  rewrite <- (firstn_skipn n l'). apply in_or_app. left. exact Hin.
Qed.

Lemma run_imports_zero_or_above (params : SystemParameters.t) (b : Battery.t)
    (h : HydrogenStore.t) (df : list Row) :
  Forall (fun x => x = 0 \/ x > Plotter.EPS_EN)
         (map p_grid_import (logs (run (simulator params b h) df))).
Proof.
  assert (HF : Forall grid_flow_reported (logs (run (simulator params b h) df))).
  { apply (Forall2_right Row LogRecord grid_flow_reported df).
    apply run_every_hour. intros b' h' row. apply hour_grid_flow_reported. }
  induction HF as [| r res (_ & Hi & _) _ IH]; simpl; constructor.
  - exact Hi.
  - exact IH.
Qed.

(** X28.  On what the simulator logs, the noise filter of
    [_plot_unserved_energy] removes nothing: every hourly grid import is
    zero or above [EPS], so every daily sum is zero or above [EPS_EN],
    and the plotted series is the daily grid import itself, with no
    negative value. *)
Theorem unserved_energy_is_the_daily_import :
  forall (params : SystemParameters.t) (b : Battery.t) (h : HydrogenStore.t)
         (df : list Row),
    let res := logs (run (simulator params b h) df) in
    Plotter.shortfall_daily res = Plotter.daily_sum (map p_grid_import res) /\
    Forall (fun x => 0 <= x) (Plotter.shortfall_daily res).
Proof.
  intros params b h df. cbv zeta.
  pose proof (run_imports_zero_or_above params b h df) as HF.
  set (imports := map p_grid_import (logs (run (simulator params b h) df))) in *.
  assert (Hday : forall x, In x (Plotter.daily_sum imports) ->
                           x = 0 \/ x > Plotter.EPS_EN).
  { intros x Hin. unfold Plotter.daily_sum in Hin.
    apply in_map_iff in Hin. destruct Hin as (day & <- & _).
    apply total_zero_or_above; [unfold Plotter.EPS_EN; lra |].
    apply Forall_firstn_skipn. exact HF. }
  assert (Hid : Plotter.shortfall_daily (logs (run (simulator params b h) df))
                = Plotter.daily_sum imports).
  { unfold Plotter.shortfall_daily. fold imports.
    rewrite <- (map_id (Plotter.daily_sum imports)) at 2.
    apply map_ext_in. intros x Hin.
    destruct (Hday x Hin) as [-> | Hx].
    - destruct (Rgtb 0 Plotter.EPS_EN); reflexivity.
    - rewrite (Rgtb_true _ _ Hx). reflexivity. }
  split; [exact Hid |].
  rewrite Hid. apply Forall_forall. intros x Hin.
  destruct (Hday x Hin) as [-> | Hx]; [lra | unfold Plotter.EPS_EN in Hx; lra].
Qed.

(** * Loading the data *)

Lemma missing_spec (c : ExcelDataLoader.Columns) (df : ExcelDataLoader.DataFrame)
    (name : String.string) :
  In name (ExcelDataLoader.missing c df) <->
  In name (ExcelDataLoader.expected_cols c) /\
  ~ In name (ExcelDataLoader.columns df).
Proof.
  unfold ExcelDataLoader.missing. rewrite filter_In.
  split; intros [Hexp Hno]; (split; [exact Hexp |]).
  - intros Hin. apply Bool.negb_true_iff in Hno.
    assert (Ht : existsb (String.eqb name) (ExcelDataLoader.columns df) = true).
    { apply existsb_exists. exists name. split; [exact Hin | apply String.eqb_refl]. }
    congruence.
  - apply Bool.negb_true_iff.
    destruct (existsb (String.eqb name) (ExcelDataLoader.columns df)) eqn:E;
      [| reflexivity].
    apply existsb_exists in E. destruct E as (n & Hin & Heq).
    apply String.eqb_eq in Heq. subst n. contradiction.
Qed.

(** X29.  [load] returns the sorted frame exactly when every expected
    column is among the columns of the workbook, whatever other columns
    there are; otherwise it raises [KeyError], and the set it reports is
    not empty and holds exactly the expected columns the workbook
    lacks. *)
Theorem load_checks_the_expected_columns :
  forall (sort_values : String.string -> ExcelDataLoader.DataFrame
                        -> ExcelDataLoader.DataFrame)
         (c : ExcelDataLoader.Columns) (df : ExcelDataLoader.DataFrame),
    ((forall name, In name (ExcelDataLoader.expected_cols c) ->
                   In name (ExcelDataLoader.columns df)) ->
     ExcelDataLoader.load sort_values c df
       = ExcelDataLoader.Loaded (sort_values (ExcelDataLoader.time_column c) df)) /\
    (forall loaded,
        ExcelDataLoader.load sort_values c df = ExcelDataLoader.Loaded loaded ->
        forall name, In name (ExcelDataLoader.expected_cols c) ->
                     In name (ExcelDataLoader.columns df)) /\
    (forall m,
        ExcelDataLoader.load sort_values c df = ExcelDataLoader.KeyError m ->
        m <> [] /\
        forall name,
          In name m <->
          In name (ExcelDataLoader.expected_cols c) /\
          ~ In name (ExcelDataLoader.columns df)).
Proof.
  intros sort_values c df. unfold ExcelDataLoader.load.
  pose proof (missing_spec c df) as Hspec.
  destruct (ExcelDataLoader.missing c df) as [| n m'] eqn:Em.
  - split; [reflexivity | split].
    + intros loaded _ name Hexp.
      destruct (in_dec String.string_dec name (ExcelDataLoader.columns df))
        as [Hin | Hno]; [exact Hin |].
      exfalso. apply (proj2 (Hspec name)). split; assumption.
    + intros m Hm. discriminate.
  - split; [| split].
    + intros Hall. exfalso.
      destruct (proj1 (Hspec n) (or_introl eq_refl)) as [Hexp Hno].
      apply Hno, Hall, Hexp.
    + intros loaded Hl. discriminate.
    + intros m Hm. injection Hm as <-. split; [discriminate | exact Hspec].
Qed.

Lemma cell_found (labels : list String.string) (row : list R)
    (label : String.string) :
  length row = length labels -> In label labels ->
  exists v, ExcelDataLoader.cell labels row label = Some v.
Proof.
  revert row. induction labels as [| l labels IH]; intros row Hlen Hin.
  - contradiction.
  - destruct row as [| v row]; [discriminate |].
    cbn [ExcelDataLoader.cell].
    destruct (String.eqb label l) eqn:E; [exists v; reflexivity |].
    apply IH.
    + simpl in Hlen. lia.
    + destruct Hin as [-> | Hin]; [| exact Hin].
      rewrite String.eqb_refl in E. discriminate.
Qed.

(** X30.  What a successful [load] guarantees for the lookups of the
    simulator.  If the workbook is rectangular and [sort_values] only
    reorders rows, then in every row of the loaded frame each expected
    column (time, PV, plug load, space heat, hot water and the three
    configured COP columns) can be read; so the four data lookups of
    [run] succeed, and its COP lookup [row[heat_pump_type.value]]
    succeeds whenever the value of the heat-pump type is among the
    expected columns, as it is with the default [cop_columns].  [load]
    checks [cop_columns], not the value of the heat-pump type. *)
Theorem loaded_rows_have_the_expected_cells :
  forall (sort_values : String.string -> ExcelDataLoader.DataFrame
                        -> ExcelDataLoader.DataFrame)
         (c : ExcelDataLoader.Columns) (ty : HeatPumpType)
         (df loaded : ExcelDataLoader.DataFrame),
    reorders_rows sort_values -> rectangular df ->
    ExcelDataLoader.load sort_values c df = ExcelDataLoader.Loaded loaded ->
    forall row,
      In row (ExcelDataLoader.rows loaded) ->
      let readable := fun name =>
        exists v,
          ExcelDataLoader.cell (ExcelDataLoader.columns loaded) row name = Some v in
      (forall name, In name (ExcelDataLoader.expected_cols c) -> readable name) /\
      (readable (ExcelDataLoader.pv_column c) /\
       readable (ExcelDataLoader.space_heat_column c) /\
       readable (ExcelDataLoader.dhw_column c) /\
       readable (ExcelDataLoader.plug_column c)) /\
      (In (HeatPumpType_value ty) (ExcelDataLoader.expected_cols c) ->
       Forall readable (row_lookups c ty)) /\
      (ExcelDataLoader.cop_columns c = ExcelDataLoader.cop_columns default_columns ->
       Forall readable (row_lookups c ty)).
Proof.
  intros sort_values c ty df loaded Hsort Hrect Hload row Hrow readable.
  assert (Hexp : forall name, In name (ExcelDataLoader.expected_cols c) ->
                              readable name).
  { intros name Hname.
    pose proof (missing_spec c df name) as Hspec.
    unfold ExcelDataLoader.load in Hload.
    destruct (ExcelDataLoader.missing c df) as [| n m'] eqn:Em; [| discriminate].
    injection Hload as <-.
    destruct (Hsort (ExcelDataLoader.time_column c) df) as [Ecols Hperm].
    unfold readable. rewrite Ecols.
    apply cell_found.
    - apply (proj1 (Forall_forall _ _) Hrect).
      apply (Permutation_in _ Hperm). exact Hrow.
    - destruct (in_dec String.string_dec name (ExcelDataLoader.columns df))
        as [Hin | Hno]; [exact Hin |].
      exfalso. apply (proj2 Hspec). split; assumption. }
  assert (Hdata : readable (ExcelDataLoader.pv_column c) /\
                  readable (ExcelDataLoader.space_heat_column c) /\
                  readable (ExcelDataLoader.dhw_column c) /\
                  readable (ExcelDataLoader.plug_column c)).
  { unfold ExcelDataLoader.expected_cols in Hexp.
    destruct (ExcelDataLoader.cop_columns c) as [[c1 c2] c3].
    repeat split; apply Hexp; simpl; tauto. }
  assert (Hcop : In (HeatPumpType_value ty) (ExcelDataLoader.expected_cols c) ->
                 Forall readable (row_lookups c ty)).
  { intros Hty. destruct Hdata as (Hpv & Hsh & Hdhw & Hplug).
    unfold row_lookups. repeat constructor; try assumption.
    apply Hexp. exact Hty. }
  split; [exact Hexp | split; [exact Hdata | split; [exact Hcop |]]].
  intros Hdef. apply Hcop.
  unfold ExcelDataLoader.expected_cols. rewrite Hdef. cbn.
  destruct ty; cbn; tauto.
Qed.

Lemma keep_order_reorders_rows : reorders_rows keep_order.
Proof. intros column df. split; [reflexivity | apply Permutation_refl]. Qed.

Lemma sample_frame_rectangular : rectangular sample_frame.
Proof. unfold rectangular, sample_frame. simpl. repeat constructor. Qed.

Lemma sample_frame_loads :
  ExcelDataLoader.load keep_order default_columns sample_frame
    = ExcelDataLoader.Loaded sample_frame.
Proof. reflexivity. Qed.

Lemma loaded_rows_have_the_expected_cells_witness :
  let row := [2; 0; 30; 2; 1; 3; 3; 3; 0] in
  let readable := fun name =>
    exists v,
      ExcelDataLoader.cell (ExcelDataLoader.columns sample_frame) row name = Some v in
  (reorders_rows keep_order /\ rectangular sample_frame /\
   ExcelDataLoader.load keep_order default_columns sample_frame
     = ExcelDataLoader.Loaded sample_frame /\
   In row (ExcelDataLoader.rows sample_frame) /\
   In (HeatPumpType_value JH) (ExcelDataLoader.expected_cols default_columns)) /\
  readable "Forbrug varmt brugsvand"%string /\
  readable (HeatPumpType_value JH) /\
  Forall readable (row_lookups default_columns JH).
Proof.
  cbv zeta.
  assert (Hrow : In [2; 0; 30; 2; 1; 3; 3; 3; 0] (ExcelDataLoader.rows sample_frame))
    by (right; left; reflexivity).
  assert (Hty : In (HeatPumpType_value JH)
                   (ExcelDataLoader.expected_cols default_columns))
    by (do 6 right; left; reflexivity).
  destruct (loaded_rows_have_the_expected_cells keep_order default_columns JH
              sample_frame sample_frame keep_order_reorders_rows
              sample_frame_rectangular sample_frame_loads _ Hrow)
    as (Hexp & _ & Hcop & _).
  split.
  - split; [exact keep_order_reorders_rows | split; [exact sample_frame_rectangular |]].
    split; [exact sample_frame_loads | split; assumption].
  - split; [apply Hexp; do 4 right; left; reflexivity |].
    split; [apply Hexp; exact Hty |].
    exact (Hcop Hty).
Defined.

Lemma renamed_cop_frame_loads :
  ExcelDataLoader.load keep_order renamed_cop_columns renamed_cop_frame
    = ExcelDataLoader.Loaded renamed_cop_frame.
Proof. reflexivity. Qed.

(** With the COP columns renamed in [cop_columns], a workbook that has
    the renamed columns loads, and the COP lookup of [run] misses in its
    rows, whatever the heat-pump type. *)
Lemma renamed_cop_columns_miss :
  ExcelDataLoader.load keep_order renamed_cop_columns renamed_cop_frame
    = ExcelDataLoader.Loaded renamed_cop_frame /\
  Forall (fun row =>
            ExcelDataLoader.cell (ExcelDataLoader.columns renamed_cop_frame) row
              (HeatPumpType_value LV) = None /\
            ExcelDataLoader.cell (ExcelDataLoader.columns renamed_cop_frame) row
              (HeatPumpType_value JH) = None /\
            ExcelDataLoader.cell (ExcelDataLoader.columns renamed_cop_frame) row
              (HeatPumpType_value JV) = None)
         (ExcelDataLoader.rows renamed_cop_frame).
Proof.
  split; [reflexivity |].
  repeat constructor.
Qed.

(** The workbook without the hot-water column is refused, and the
    error names that column. *)
Lemma incomplete_frame_is_refused :
  ExcelDataLoader.load keep_order default_columns incomplete_frame
    = ExcelDataLoader.KeyError ["Forbrug varmt brugsvand"%string].
Proof. reflexivity. Qed.
